(** * Kafka UI: the cluster connection and metadata aggregation service

    A shallow embedding of [src/lib/kafka-service.ts] (the [KafkaService]
    singleton), of the request handlers of [app/api/kafka/cluster/route.ts],
    [app/api/kafka/topics/route.ts] and [app/api/kafka/brokers/route.ts],
    of the [createTopicFormSchema] and the [deleteTopicSchema] of
    [types/schemas.ts], of [truncate] of [lib/utils.ts] and of the status
    of the brokers card of the cluster and topics pages, followed by the
    properties of the specification that concern them.

    Conventions of the embedding.
    - A JavaScript string is the list of its UTF-16 code units ([jsstring]).
    - A JavaScript number that the code only uses as an integer is a [Z].
      Where the sampling code divides and multiplies, a Number is the
      rational its double denotes and [/] and [*] round to the nearest
      double ([Number_div], [Number_mul]); [Math.round] and [Math.floor]
      take such a rational to a [Z].  The products with [Math.random()]
      and the means of the topics route are taken exactly.
    - An object literal used as a dictionary is the list of its own
      properties in enumeration order, with [Object.prototype] behind it
      ([property_set], [topicConfigs_get]).
    - An [async] method is a computation in the monad [M]: it threads the
      [World] (the fields of the singleton, the log of the calls made on
      the admin client, a counter for the reads of the clock and of
      [Math.random]) and either returns a value or throws.
    - The KafkaJS client is outside the repository: an [Admin] handle is a
      record giving, for each RPC, the answer the cluster gives (a value or
      a thrown error).  Every method of the service consults each RPC at
      most once, so one answer per RPC describes any run of one method.
    - A method of the embedding runs from its first line to its last
      without another call in between.  What overlapping calls add, the
      states in which a [connect] or a [disconnect] is suspended at an
      [await], is described by the relation [segment].
    - [console.log], [console.warn] and [console.error] are not modelled. *)

From Stdlib Require Import ZArith QArith Qround Qpower Lqa.
From Stdlib Require Import List String Ascii Bool Lia Sorted.
From Stdlib Require Import DecimalString.
From Stdlib Require SpecFloat.
From stdpp Require Import base option list relations gmap sorting.

Local Open Scope Z_scope.

(** ** JavaScript strings *)

Definition jsstring : Type := list N.

Definition js (s : string) : jsstring :=
  List.map N_of_ascii (list_ascii_of_string s).

Definition jsstring_eqb (a b : jsstring) : bool := bool_decide (a = b).

(** [s.length] *)
Definition js_length (s : jsstring) : Z := Z.of_nat (List.length s).

Fixpoint starts_with (p s : jsstring) : bool :=
  match p, s with
  | [], _ => true
  | _ :: _, [] => false
  | a :: p', b :: s' => N.eqb a b && starts_with p' s'
  end.

(** [s.includes(sub)] *)
Fixpoint includes (s sub : jsstring) : bool :=
  starts_with sub s ||
  match s with
  | [] => false
  | _ :: s' => includes s' sub
  end.

(** [WhiteSpace] and [LineTerminator] code units, the ones [trim] strips. *)
Definition is_js_whitespace (c : N) : bool :=
  existsb (N.eqb c)
    [9; 10; 11; 12; 13; 32; 160; 5760; 8232; 8233; 8239; 8287; 12288; 65279]%N
  || (N.leb 8192 c && N.leb c 8202).

Fixpoint trimStart (s : jsstring) : jsstring :=
  match s with
  | c :: s' => if is_js_whitespace c then trimStart s' else s
  | [] => []
  end.

(** [s.trim()] *)
Definition trim (s : jsstring) : jsstring :=
  rev (trimStart (rev (trimStart s))).

(** [s.split(',')]: the pieces between the commas (at least one piece). *)
Fixpoint split_comma (s : jsstring) : list jsstring :=
  match s with
  | [] => [[]]
  | c :: s' =>
      if N.eqb c 44 then [] :: split_comma s'
      else match split_comma s' with
           | piece :: rest => (c :: piece) :: rest
           | [] => [[c]]
           end
  end.

(** [parts.join(',')] *)
Fixpoint join_comma (parts : list jsstring) : jsstring :=
  match parts with
  | [] => []
  | [p] => p
  | p :: rest => p ++ 44%N :: join_comma rest
  end.

(** The decimal text of an integer, as a template literal prints it. *)
Definition show_Z (z : Z) : jsstring :=
  js (DecimalString.NilZero.string_of_int (Z.to_int z)).

(** [Math.round]: the nearest integer, a half rounding up. *)
Definition Math_round (q : Q) : Z := Qfloor (q + (1 # 2))%Q.

(** [Math.floor] *)
Definition Math_floor (q : Q) : Z := Qfloor q.

(** ** JavaScript Numbers

    The Numbers of the source are IEEE 754 doubles.  A finite double is
    modelled by the rational it denotes, and the result of [/] and of [*]
    is "the Number value for" the exact result (ECMAScript 6.1.6.1): the
    double nearest to it, the one with an even significand when two are
    as near.  Overflow to [Infinity] is left out: the operands here are
    array lengths (below [2 ^ 32]), their sums, quotients and products. *)

(** The integer nearest to [y], the even one of the two when [y] is half
    way between them. *)
Definition round_half_even (y : Q) : Z :=
  let f := Qfloor y in
  match (y - inject_Z f ?= 1 # 2)%Q with
  | Lt => f
  | Gt => f + 1
  | Eq => if Z.even f then f else f + 1
  end.

(** The exponent of the binade of [x], for [x] other than 0: the [b] with
    [2 ^ b <= |x| < 2 ^ (b + 1)]. *)
Definition binade (x : Q) : Z :=
  let a := Z.abs (Qnum x) in
  let b := Zpos (Qden x) in
  let e := Z.log2 a - Z.log2 b in
  if a * 2 ^ Z.log2 b <? b * 2 ^ Z.log2 a then e - 1 else e.

(** The Number value for [x].  A double has 53 significant bits, so the
    last one weighs [2 ^ (binade x - 52)], and no less than [2 ^ -1074]. *)
Definition Number_value (x : Q) : Q :=
  if Qeq_bool x 0 then 0%Q
  else
    let e := Z.max (binade x - 52) (-1074) in
    Qred (inject_Z (round_half_even (x / 2 ^ e)) * 2 ^ e)%Q.

(** [a / b] on Numbers, for [b] other than 0. *)
Definition Number_div (a b : Q) : Q := Number_value (a / b).

(** [a * b] on Numbers. *)
Definition Number_mul (a b : Q) : Q := Number_value (a * b).

(** The doubles of the Standard Library's reference implementation
    ([SpecFloat], with 53 bits of precision and exponents below 1024), to
    compare [Number_div] and [Number_mul] with. *)
Definition double_of_Z (z : Z) : SpecFloat.spec_float :=
  SpecFloat.binary_normalize 53 1024 z 0 false.

Definition Q_of_double (d : SpecFloat.spec_float) : option Q :=
  match d with
  | SpecFloat.S754_zero _ => Some 0%Q
  | SpecFloat.S754_finite s m e =>
      Some (Qred (inject_Z (if s then Z.neg m else Z.pos m) * 2 ^ e)%Q)
  | _ => None
  end.

(** ** Thrown values and results *)

(** What a [catch] clause can see of a thrown value: an [Error] with its
    message, or something that is not an instance of [Error]. *)
Inductive thrown : Type :=
  | JsError (message : jsstring)
  | NonError.

Inductive Result (A : Type) : Type :=
  | Ok (a : A)
  | Throw (e : thrown).
Arguments Ok {A} a.
Arguments Throw {A} e.

(** [error instanceof Error ? error.message : fallback] *)
Definition message_or (fallback : jsstring) (e : thrown) : jsstring :=
  match e with
  | JsError m => m
  | NonError => fallback
  end.

(** ** The KafkaJS admin client (external) *)

Module KafkaJS.

Record RetryOptions := {
  initialRetryTime : Z;
  retries : Z
}.

(** [KafkaConfig], with the fields this repository sets.  [brokers] is
    always an array here. *)
Record KafkaConfig := {
  clientId : jsstring;
  brokers : list jsstring;
  connectionTimeout : Z;
  requestTimeout : Z;
  retry : RetryOptions
}.

Record BrokerMetadata := {
  nodeId : Z;
  host : jsstring;
  port : Z;
  rack : option jsstring
}.

(** The answer of [describeCluster]; [controller] is [number | null]. *)
Record ClusterMetadata := {
  cm_brokers : list BrokerMetadata;
  controller : option Z;
  clusterId : jsstring
}.

Record PartitionMetadata := {
  partitionId : Z;
  leader : Z;
  replicas : list Z;
  isr : list Z
}.

Record ITopicMetadata := {
  tm_name : jsstring;
  tm_partitions : list PartitionMetadata
}.

Record ConfigEntry := {
  configName : jsstring;
  configValue : jsstring
}.

Record ConfigResource := {
  resourceName : jsstring;
  configEntries : list ConfigEntry
}.

Record ResourceConfigQuery := {
  rq_type : Z;
  rq_name : jsstring
}.

Record DescribeConfigsRequest := {
  dc_resources : list ResourceConfigQuery;
  includeSynonyms : bool
}.

Record IResourceConfigEntry := {
  ce_name : jsstring;
  ce_value : jsstring
}.

Record ITopicConfig := {
  topic : jsstring;
  numPartitions : Z;
  replicationFactor : Z;
  tc_configEntries : list IResourceConfigEntry
}.

Record CreateTopicsRequest := {
  ct_topics : list ITopicConfig;
  ct_validateOnly : bool;
  waitForLeaders : bool;
  ct_timeout : Z
}.

Record DeleteTopicsRequest := {
  dt_topics : list jsstring;
  dt_timeout : Z
}.

Record IResourceConfig := {
  rc_type : Z;
  rc_name : jsstring;
  rc_configEntries : list IResourceConfigEntry
}.

Record AlterConfigsRequest := {
  ac_validateOnly : bool;
  ac_resources : list IResourceConfig
}.

(** A call made on an admin handle, as it is logged in the [World]. *)
Inductive AdminCall : Type :=
  | CallConnect
  | CallDisconnect
  | CallDescribeCluster
  | CallListTopics
  | CallFetchTopicMetadata (topics : list jsstring)
  | CallDescribeConfigs (req : DescribeConfigsRequest)
  | CallCreateTopics (req : CreateTopicsRequest)
  | CallDeleteTopics (req : DeleteTopicsRequest)
  | CallAlterConfigs (req : AlterConfigsRequest).

(** An admin handle: what each RPC answers. *)
Record Admin := {
  connect : Result unit;
  disconnect : Result unit;
  describeCluster : Result ClusterMetadata;
  listTopics : Result (list jsstring);
  fetchTopicMetadata : list jsstring -> Result (list ITopicMetadata);
  describeConfigs : DescribeConfigsRequest -> Result (list ConfigResource);
  createTopics : CreateTopicsRequest -> Result bool;
  deleteTopics : DeleteTopicsRequest -> Result unit;
  alterConfigs : AlterConfigsRequest -> Result unit
}.

(** A [Kafka] client object: [admin()] hands out an admin handle, or
    throws. *)
Record Kafka := {
  admin : Result Admin
}.

Definition is_CreateTopics (c : AdminCall) : bool :=
  match c with
  | CallCreateTopics _ => true
  | _ => false
  end.

End KafkaJS.

(** ** JSON values and the zod package (external) *)

(** A value produced by [JSON.parse]; a number is the value of a finite
    double. *)
#[local] Unset Elimination Schemes.
Inductive JSON : Type :=
  | JNull
  | JBool (b : bool)
  | JNumber (q : Q)
  | JString (s : jsstring)
  | JArray (items : list JSON)
  | JObject (fields : list (jsstring * JSON)).
#[local] Set Elimination Schemes.

(** The issues zod words by itself; the other messages are given by the
    schema. *)
Inductive ZodBuiltinIssue : Type :=
  | expected_object
  | expected_string
  | expected_number
  | expected_integer
  | expected_record.

(** What depends on the installed version of zod: the wording of its own
    messages, and whether a failed [int()] check stops the later checks
    of the same number. *)
Record ZodPackage := {
  builtin_message : ZodBuiltinIssue -> jsstring;
  int_check_aborts : bool
}.

(** ** The world a method runs in *)

(** What the JavaScript runtime and the KafkaJS package provide.  The
    natural number is the [ticks] counter of the [World]: two reads at
    different ticks may differ. *)
Record Runtime := {
  new_Kafka : nat -> KafkaJS.KafkaConfig -> Result KafkaJS.Kafka;
  Math_random : nat -> Q;
  Date_toISOString : nat -> jsstring;
  toLowerCase : jsstring -> jsstring;
  rejects_first : nat -> bool;
  zod : ZodPackage
}.

(** The private fields of [class KafkaService]. *)
Record KafkaService := {
  kafka : option KafkaJS.Kafka;
  admin : option KafkaJS.Admin;
  isConnected : bool;
  connectionConfig : option KafkaJS.KafkaConfig
}.

Record World := {
  runtime : Runtime;
  this : KafkaService;
  calls : list KafkaJS.AdminCall;
  ticks : nat
}.

(** The singleton as the module creates it: [new KafkaService()]. *)
Definition new_KafkaService : KafkaService :=
  {| kafka := None; admin := None; isConnected := false;
     connectionConfig := None |}.

Definition with_this (f : KafkaService -> KafkaService) (w : World) : World :=
  {| runtime := runtime w; this := f (this w); calls := calls w;
     ticks := ticks w |}.

Definition log_call (c : KafkaJS.AdminCall) (w : World) : World :=
  {| runtime := runtime w; this := this w; calls := calls w ++ [c];
     ticks := ticks w |}.

Definition tick (w : World) : World :=
  {| runtime := runtime w; this := this w; calls := calls w;
     ticks := S (ticks w) |}.

(** ** The monad of methods: state and exceptions *)

Definition M (A : Type) : Type := World -> Result A * World.

#[global] Instance M_ret : MRet M := fun A a w => (Ok a, w).

#[global] Instance M_bind : MBind M := fun A B f m w =>
  match m w with
  | (Ok a, w') => f a w'
  | (Throw e, w') => (Throw e, w')
  end.

#[global] Instance M_throw : MThrow thrown M := fun A e w => (Throw e, w).

(** [try { body } catch (error) { handler }] *)
Definition try_catch {A} (body : M A) (handler : thrown -> M A) : M A :=
  fun w =>
    match body w with
    | (Ok a, w') => (Ok a, w')
    | (Throw e, w') => handler e w'
    end.

(** [throw new Error(message)] *)
Definition throw_Error {A} (message : jsstring) : M A :=
  mthrow (JsError message).

Definition get_this : M KafkaService := fun w => (Ok (this w), w).

Definition modify_this (f : KafkaService -> KafkaService) : M unit :=
  fun w => (Ok tt, with_this f w).

(** [await this.admin.rpc(...)]: the call is logged, then its answer is
    returned or thrown. *)
Definition await_admin {A} (c : KafkaJS.AdminCall) (answer : Result A) : M A :=
  fun w => (answer, log_call c w).

(** A value that did not come from the admin client. *)
Definition lift_Result {A} (r : Result A) : M A := fun w => (r, w).

(** One read of the runtime's clock or random source. *)
Definition read_runtime {A} (f : Runtime -> nat -> A) : M A :=
  fun w => (Ok (f (runtime w) (ticks w)), tick w).

(** [xs.map(f)] for an effectful [f], left to right. *)
Fixpoint mapM {A B} (f : A -> M B) (xs : list A) : M (list B) :=
  match xs with
  | [] => mret []
  | x :: xs' => y ← f x; ys ← mapM f xs'; mret (y :: ys)
  end.

(** [await Promise.all([a.first(), a.second()])]: both calls are made, in
    this order; the result is the pair of answers, or the rejection of
    whichever call the runtime sees reject first. *)
Definition Promise_all2 {A B}
    (c1 : KafkaJS.AdminCall) (r1 : Result A)
    (c2 : KafkaJS.AdminCall) (r2 : Result B) : M (A * B) :=
  fun w =>
    let w' := tick (log_call c2 (log_call c1 w)) in
    match r1, r2 with
    | Ok a, Ok b => (Ok (a, b), w')
    | Throw e, Ok _ => (Throw e, w')
    | Ok _, Throw e => (Throw e, w')
    | Throw e1, Throw e2 =>
        (Throw (if rejects_first (runtime w) (ticks w) then e1 else e2), w')
    end.

(** ** The types of [types/kafka.ts] and [types/schemas.ts] *)

Inductive HealthStatus := healthy | warning | critical | unknown.

Module ClusterOverview.
Record t := {
  brokersOnline : Z;
  brokersTotal : Z;
  topicsCount : Z;
  partitionsCount : Z;
  consumerGroupsCount : Z;
  messagesPerSecond : Z;
  status : HealthStatus
}.
End ClusterOverview.

Inductive BrokerStatus := online | offline | degraded.

Module Broker.
Record Metrics := {
  diskUsage : Z;
  networkIn : Z;
  networkOut : Z;
  requestsPerSecond : Z
}.
Record t := {
  id : Z;
  host : jsstring;
  port : Z;
  rack : option jsstring;
  status : BrokerStatus;
  isController : bool;
  topicCount : Z;
  partitionCount : Z;
  config : list (jsstring * jsstring);
  metrics : Metrics
}.
End Broker.

Inductive TopicStatus := active | deleting | error.

(** ** Plain objects

    An object created by [{}] and used as a dictionary of strings is the
    list of its own properties in the order in which [Object.keys],
    [Object.entries] and [JSON.stringify] enumerate them: the array
    indices first, in ascending order, then the other names in the order
    of their creation.  Behind the own properties stands
    [Object.prototype]. *)
Definition StringRecord : Type := list (jsstring * jsstring).

(** The own property [key] of a record; [None] when there is none. *)
Fixpoint record_get (key : jsstring) (r : StringRecord) : option jsstring :=
  match r with
  | [] => None
  | (k, v) :: rest => if jsstring_eqb k key then Some v else record_get key rest
  end.

(** The number a string of decimal digits denotes, after [acc]. *)
Fixpoint decimal_value (acc : N) (s : jsstring) : option N :=
  match s with
  | [] => Some acc
  | c :: s' =>
      if (48 <=? c)%N && (c <=? 57)%N
      then decimal_value (10 * acc + (c - 48)) s'
      else None
  end.

(** The array index a property name denotes, if any: the name is the
    decimal text, without a leading zero, of an integer below
    [2 ^ 32 - 1]. *)
Definition array_index (key : jsstring) : option N :=
  match key with
  | [] => None
  | c :: rest =>
      if (c =? 48)%N && negb (bool_decide (rest = [])) then None
      else
        match decimal_value 0 key with
        | Some n => if (n <=? 4294967294)%N then Some n else None
        | None => None
        end
  end.

(** The value of an own property is replaced where it stands. *)
Fixpoint record_replace (key value : jsstring) (r : StringRecord)
    : StringRecord :=
  match r with
  | [] => []
  | (k, v) :: rest =>
      if jsstring_eqb k key then (k, value) :: rest
      else (k, v) :: record_replace key value rest
  end.

(** A new array index goes before the first property that is not an
    array index or is a larger one. *)
Fixpoint insert_index (i : N) (key value : jsstring) (r : StringRecord)
    : StringRecord :=
  match r with
  | [] => [(key, value)]
  | (k, v) :: rest =>
      match array_index k with
      | Some j =>
          if (j <? i)%N then (k, v) :: insert_index i key value rest
          else (key, value) :: r
      | None => (key, value) :: r
      end
  end.

(** [acc[key] = value] for a string [value]: the setter of
    [Object.prototype.__proto__] ignores a value that is not an object,
    so the name [__proto__] creates no property; any other name becomes
    or stays an own property. *)
Definition property_set (key value : jsstring) (acc : StringRecord)
    : StringRecord :=
  if jsstring_eqb key (js "__proto__") then acc
  else
    match record_get key acc with
    | Some _ => record_replace key value acc
    | None =>
        match array_index key with
        | Some i => insert_index i key value acc
        | None => acc ++ [(key, value)]
        end
    end.

(** The methods of [Object.prototype]: what a name that is no own
    property finds behind an object literal.  ([__proto__], the one
    accessor, is handled where it is read or written.) *)
Definition Object_prototype_methods : list jsstring :=
  List.map js
    ["constructor"; "__defineGetter__"; "__defineSetter__";
     "hasOwnProperty"; "__lookupGetter__"; "__lookupSetter__";
     "isPrototypeOf"; "propertyIsEnumerable"; "toString"; "valueOf";
     "toLocaleString"]%string.

(** What the [config] of a topic can be at run time: an object of
    strings, as its type says, or, when the lookup
    [topicConfigs[topic.name]] goes past the own properties, a string,
    a method of [Object.prototype], or [Object.prototype] itself. *)
Inductive ConfigValue : Type :=
  | ConfigObject (r : StringRecord)
  | InheritedString (s : jsstring)
  | PrototypeMethod (name : jsstring)
  | ObjectPrototype.

Module KafkaTopic.
Record Metrics := {
  messageCount : Z;
  sizeBytes : Z;
  consumerLag : Z
}.
Record t := {
  name : jsstring;
  partitions : Z;
  replicationFactor : Z;
  config : ConfigValue;
  metrics : Metrics;
  status : TopicStatus
}.
End KafkaTopic.

(** ** [class KafkaService]: the connection manager *)

(** [parseKafkaError(error)] *)
Definition parseKafkaError (rt : Runtime) (error : thrown) : jsstring :=
  match error with
  | NonError => js "Unknown Kafka connection error"
  | JsError error_message =>
      let message := toLowerCase rt error_message in
      if includes message (js "econnrefused")
         || includes message (js "connection refused")
      then js "Cannot connect to Kafka brokers. Please verify Kafka is running and bootstrap servers are correct."
      else if includes message (js "timeout")
              || includes message (js "timed out")
      then js "Connection timeout. Kafka brokers may be unreachable or overloaded."
      else if includes message (js "coordinator not available")
      then js "Kafka coordinator not available. The cluster may be starting up."
      else if includes message (js "broker not available")
      then js "Kafka brokers are not available. Check if your Kafka cluster is running."
      else js "Kafka connection failed: " ++ error_message
  end.

Definition set_kafka (k : option KafkaJS.Kafka) (s : KafkaService) :=
  {| kafka := k; admin := admin s; isConnected := isConnected s;
     connectionConfig := connectionConfig s |}.

Definition set_admin (a : option KafkaJS.Admin) (s : KafkaService) :=
  {| kafka := kafka s; admin := a; isConnected := isConnected s;
     connectionConfig := connectionConfig s |}.

Definition set_isConnected (b : bool) (s : KafkaService) :=
  {| kafka := kafka s; admin := admin s; isConnected := b;
     connectionConfig := connectionConfig s |}.

Definition set_connectionConfig (c : option KafkaJS.KafkaConfig)
    (s : KafkaService) :=
  {| kafka := kafka s; admin := admin s; isConnected := isConnected s;
     connectionConfig := c |}.

(** [async disconnect()] *)
Definition disconnect : M unit :=
  try_catch
    (s ← get_this;
     match admin s with
     | Some adm =>
         await_admin KafkaJS.CallDisconnect (KafkaJS.disconnect adm);;
         modify_this (set_admin None)
     | None => mret tt
     end;;
     modify_this (set_kafka None);;
     modify_this (set_isConnected false);;
     modify_this (set_connectionConfig None))
    (fun _ =>
       modify_this (set_kafka None);;
       modify_this (set_admin None);;
       modify_this (set_isConnected false);;
       modify_this (set_connectionConfig None)).

(** [private async connectWithConfig(config)] *)
Definition connectWithConfig (config : KafkaJS.KafkaConfig) : M unit :=
  try_catch
    (modify_this (set_connectionConfig (Some config));;
     k ← (fun w => (new_Kafka (runtime w) (ticks w) config, tick w));
     modify_this (set_kafka (Some k));;
     adm ← lift_Result (KafkaJS.admin k);
     modify_this (set_admin (Some adm));;
     await_admin KafkaJS.CallConnect (KafkaJS.connect adm);;
     modify_this (set_isConnected true))
    (fun error =>
       disconnect;;
       errorMessage ← (fun w => (Ok (parseKafkaError (runtime w) error), w));
       throw_Error errorMessage).

(** [async connect(bootstrapServers, clientId = 'kafka-ui')] *)
Definition connect (bootstrapServers : jsstring) (clientId : option jsstring)
    : M unit :=
  let config :=
    {| KafkaJS.clientId := default (js "kafka-ui") clientId;
       KafkaJS.brokers := List.map trim (split_comma bootstrapServers);
       KafkaJS.connectionTimeout := 10000;
       KafkaJS.requestTimeout := 30000;
       KafkaJS.retry := {| KafkaJS.initialRetryTime := 100;
                           KafkaJS.retries := 8 |} |} in
  connectWithConfig config.

(** [isConnectionActive()] *)
Definition isConnectionActive (s : KafkaService) : bool :=
  isConnected s && bool_decide (is_Some (kafka s)).

Module ConnectionInfo.
Record t := {
  brokers : jsstring;
  clientId : jsstring
}.
End ConnectionInfo.

(** [getConnectionInfo()]; [None] is [null]. *)
Definition getConnectionInfo (s : KafkaService) : option ConnectionInfo.t :=
  match connectionConfig s with
  | None => None
  | Some cfg =>
      Some {| ConnectionInfo.brokers := join_comma (KafkaJS.brokers cfg);
              ConnectionInfo.clientId :=
                match KafkaJS.clientId cfg with
                | [] => js "unknown"
                | c => c
                end |}
  end.

(** ** [class KafkaService]: the metadata aggregator *)

Definition not_connected : jsstring := js "Not connected to Kafka cluster".

(** [if (!this.admin || !this.isConnected) throw new Error(...)]: the guard
    every aggregation and command method starts with.  It hands the admin
    handle to the rest of the method: the method reads [this.admin] again
    at each RPC, and finds the same handle when no other call writes the
    fields meanwhile. *)
Definition require_connection : M KafkaJS.Admin :=
  s ← get_this;
  match admin s, isConnected s with
  | Some adm, true => mret adm
  | _, _ => throw_Error not_connected
  end.

(** [catch (error) { throw new Error(`${prefix}${message}`) }] *)
Definition rethrow_with {A} (prefix : jsstring) (error : thrown) : M A :=
  throw_Error (prefix ++ message_or (js "Unknown error") error).

Definition array_length {A} (xs : list A) : Z := Z.of_nat (List.length xs).

(** [xs.slice(0, n)] *)
Definition slice0 {A} (n : nat) (xs : list A) : list A := take n xs.

(** [topicMetadata.topics.reduce((total, topic) => total + topic.partitions.length, 0)] *)
Definition sum_partitions (topics : list KafkaJS.ITopicMetadata) : Z :=
  fold_left (fun total topic => total + array_length (KafkaJS.tm_partitions topic))
            topics 0.

(** The partition count of the overview (lines 217-240). *)
Definition count_partitions (adm : KafkaJS.Admin) (topics : list jsstring)
    : M Z :=
  try_catch
    (let sampleTopics := slice0 50 topics in
     if 0 <? array_length sampleTopics then
       topicMetadata ← await_admin (KafkaJS.CallFetchTopicMetadata sampleTopics)
                                   (KafkaJS.fetchTopicMetadata adm sampleTopics);
       let partitionsCount := sum_partitions topicMetadata in
       if 50 <? array_length topics then
         let avgPartitions :=
           Number_div (inject_Z partitionsCount)
                      (inject_Z (array_length sampleTopics)) in
         mret (Math_round (Number_mul avgPartitions
                                      (inject_Z (array_length topics))))
       else mret partitionsCount
     else mret 0)
    (fun _ => mret (array_length topics * 3)).

(** [async getClusterOverview()] *)
Definition getClusterOverview : M ClusterOverview.t :=
  adm ← require_connection;
  try_catch
    ('(metadata, topics) ←
        Promise_all2 KafkaJS.CallDescribeCluster (KafkaJS.describeCluster adm)
                     KafkaJS.CallListTopics (KafkaJS.listTopics adm);
     let brokersTotal := array_length (KafkaJS.cm_brokers metadata) in
     let brokersOnline := array_length (KafkaJS.cm_brokers metadata) in
     let topicsCount := array_length topics in
     partitionsCount ← count_partitions adm topics;
     let consumerGroupsCount := 0 in
     let messagesPerSecond := 0 in
     mret {| ClusterOverview.brokersOnline := brokersOnline;
             ClusterOverview.brokersTotal := brokersTotal;
             ClusterOverview.topicsCount := topicsCount;
             ClusterOverview.partitionsCount := partitionsCount;
             ClusterOverview.consumerGroupsCount := consumerGroupsCount;
             ClusterOverview.messagesPerSecond := messagesPerSecond;
             ClusterOverview.status :=
               if brokersOnline =? brokersTotal then healthy else warning |})
    (rethrow_with (js "Failed to fetch cluster overview: ")).

(** The entries of [brokerTopicCounts]. *)
Record TopicCounts := {
  topics : Z;
  partitions : Z
}.

(** [metadata.brokers.forEach(broker => { brokerTopicCounts[broker.nodeId] = { topics: 0, partitions: 0 } })] *)
Definition init_counts (brokers : list KafkaJS.BrokerMetadata)
    (brokerTopicCounts : gmap Z TopicCounts) : gmap Z TopicCounts :=
  fold_left
    (fun counts broker =>
       <[KafkaJS.nodeId broker := {| topics := 0; partitions := 0 |}]> counts)
    brokers brokerTopicCounts.

(** The body of [partition.replicas.forEach]: a replica on a known broker
    counts one partition for it and marks the broker for this topic. *)
Definition count_replica (acc : gmap Z TopicCounts * gset Z) (brokerId : Z)
    : gmap Z TopicCounts * gset Z :=
  let '(brokerTopicCounts, brokersForTopic) := acc in
  match brokerTopicCounts !! brokerId with
  | Some c =>
      (<[brokerId := {| topics := topics c; partitions := partitions c + 1 |}]>
         brokerTopicCounts,
       {[brokerId]} ∪ brokersForTopic)
  | None => acc
  end.

(** The body of [brokersForTopic.forEach]. *)
Definition count_topic_for (brokerId : Z) (brokerTopicCounts : gmap Z TopicCounts)
    : gmap Z TopicCounts :=
  match brokerTopicCounts !! brokerId with
  | Some c =>
      <[brokerId := {| topics := topics c + 1; partitions := partitions c |}]>
        brokerTopicCounts
  | None => brokerTopicCounts
  end.

(** The body of [topicMetadata.topics.forEach]. *)
Definition count_topic (brokerTopicCounts : gmap Z TopicCounts)
    (topic : KafkaJS.ITopicMetadata) : gmap Z TopicCounts :=
  let '(counts, brokersForTopic) :=
    fold_left
      (fun acc partition => fold_left count_replica (KafkaJS.replicas partition) acc)
      (KafkaJS.tm_partitions topic)
      (brokerTopicCounts, (∅ : gset Z)) in
  set_fold count_topic_for counts brokersForTopic.

(** The scaling of the estimates when only a sample was read. *)
Definition scale_counts (scaleFactor : Q) (c : TopicCounts) : TopicCounts :=
  {| topics := Math_round (Number_mul (inject_Z (topics c)) scaleFactor);
     partitions :=
       Math_round (Number_mul (inject_Z (partitions c)) scaleFactor) |}.

(** The topic distribution per broker (lines 273-324). *)
Definition broker_topic_counts (adm : KafkaJS.Admin)
    (metadata : KafkaJS.ClusterMetadata) : M (gmap Z TopicCounts) :=
  try_catch
    (all_topics ← await_admin KafkaJS.CallListTopics (KafkaJS.listTopics adm);
     if 0 <? array_length all_topics then
       let sampleTopics := slice0 20 all_topics in
       topicMetadata ← await_admin (KafkaJS.CallFetchTopicMetadata sampleTopics)
                                   (KafkaJS.fetchTopicMetadata adm sampleTopics);
       let initialised := init_counts (KafkaJS.cm_brokers metadata) ∅ in
       let counted := fold_left count_topic topicMetadata initialised in
       if array_length sampleTopics <? array_length all_topics then
         let scaleFactor :=
           Number_div (inject_Z (array_length all_topics))
                      (inject_Z (array_length sampleTopics)) in
         mret (scale_counts scaleFactor <$> counted)
       else mret counted
     else mret ∅)
    (fun _ => mret ∅).

(** [Math.floor(Math.random() * n)] *)
Definition random_below (n : Z) : M Z :=
  r ← read_runtime Math_random;
  mret (Math_floor (r * inject_Z n)%Q).

(** The object built for one broker by [metadata.brokers.map]. *)
Definition to_Broker (metadata : KafkaJS.ClusterMetadata)
    (brokerTopicCounts : gmap Z TopicCounts) (broker : KafkaJS.BrokerMetadata)
    : M Broker.t :=
  disk ← random_below 80;
  net_in ← random_below 1000;
  net_out ← random_below 800;
  requests ← random_below 5000;
  mret {| Broker.id := KafkaJS.nodeId broker;
          Broker.host := KafkaJS.host broker;
          Broker.port := KafkaJS.port broker;
          Broker.rack :=
            match KafkaJS.rack broker with
            | Some (c :: r) => Some (c :: r)
            | _ => None
            end;
          Broker.status := online;
          Broker.isController :=
            bool_decide (Some (KafkaJS.nodeId broker) = KafkaJS.controller metadata);
          Broker.topicCount :=
            default 0 (topics <$> brokerTopicCounts !! KafkaJS.nodeId broker);
          Broker.partitionCount :=
            default 0 (partitions <$> brokerTopicCounts !! KafkaJS.nodeId broker);
          Broker.config := [];
          Broker.metrics :=
            {| Broker.diskUsage :=
                 disk * 1024 * 1024 * 1024 + 10 * 1024 * 1024 * 1024;
               Broker.networkIn := net_in * 1024;
               Broker.networkOut := net_out * 1024;
               Broker.requestsPerSecond := requests + 1000 |} |}.

(** [async getBrokers()] *)
Definition getBrokers : M (list Broker.t) :=
  adm ← require_connection;
  try_catch
    (metadata ← await_admin KafkaJS.CallDescribeCluster
                            (KafkaJS.describeCluster adm);
     brokerTopicCounts ← broker_topic_counts adm metadata;
     mapM (to_Broker metadata brokerTopicCounts) (KafkaJS.cm_brokers metadata))
    (rethrow_with (js "Failed to fetch brokers: ")).

(** [resource.configEntries.reduce((acc, entry) => { acc[entry.configName] = entry.configValue; return acc }, {})] *)
Definition reduce_configEntries (entries : list KafkaJS.ConfigEntry)
    : StringRecord :=
  fold_left
    (fun acc entry =>
       property_set (KafkaJS.configName entry) (KafkaJS.configValue entry) acc)
    entries [].

(** [topic.partitions[0]?.replicas?.length || 1] *)
Definition replicationFactor_of (topic : KafkaJS.ITopicMetadata) : Z :=
  match KafkaJS.tm_partitions topic with
  | [] => 1
  | first :: _ =>
      let n := array_length (KafkaJS.replicas first) in
      if n =? 0 then 1 else n
  end.

(** The object built for one topic by [getTopics] and [getTopicDetails]. *)
Definition to_KafkaTopic (config : ConfigValue) (topic : KafkaJS.ITopicMetadata)
    : M KafkaTopic.t :=
  messages ← random_below 100000;
  size ← random_below 1000000;
  lag ← random_below 1000;
  mret {| KafkaTopic.name := KafkaJS.tm_name topic;
          KafkaTopic.partitions := array_length (KafkaJS.tm_partitions topic);
          KafkaTopic.replicationFactor := replicationFactor_of topic;
          KafkaTopic.config := config;
          KafkaTopic.metrics :=
            {| KafkaTopic.messageCount := messages;
               KafkaTopic.sizeBytes := size;
               KafkaTopic.consumerLag := lag |};
          KafkaTopic.status := active |}.

(** The lookup object [topicConfigs] of [getTopics]: its own properties,
    and the object that an assignment to [__proto__] has put in the place
    of [Object.prototype], if any. *)
Record TopicConfigs := {
  own_configs : gmap jsstring StringRecord;
  prototype : option StringRecord
}.

(** [{}] *)
Definition empty_topicConfigs : TopicConfigs :=
  {| own_configs := ∅; prototype := None |}.

(** [topicConfigs[name] = config] for an object [config]: the setter of
    [__proto__] makes an object the prototype. *)
Definition topicConfigs_set (name : jsstring) (config : StringRecord)
    (topicConfigs : TopicConfigs) : TopicConfigs :=
  if jsstring_eqb name (js "__proto__")
  then {| own_configs := own_configs topicConfigs;
          prototype := Some config |}
  else {| own_configs := <[name := config]> (own_configs topicConfigs);
          prototype := prototype topicConfigs |}.

(** [topicConfigs[name] || {}]: the own property, or what the chain of
    prototypes holds under that name; a name found nowhere and an
    inherited empty string give the empty object. *)
Definition topicConfigs_get (topicConfigs : TopicConfigs) (name : jsstring)
    : ConfigValue :=
  if jsstring_eqb name (js "__proto__") then
    match prototype topicConfigs with
    | Some config => ConfigObject config
    | None => ObjectPrototype
    end
  else
    match own_configs topicConfigs !! name with
    | Some config => ConfigObject config
    | None =>
        match prototype topicConfigs ≫= record_get name with
        | Some [] => ConfigObject []
        | Some s => InheritedString s
        | None =>
            if bool_decide (name ∈ Object_prototype_methods)
            then PrototypeMethod name
            else ConfigObject []
        end
    end.

(** The lookup object [topicConfigs] of [getTopics] (lines 384-407). *)
Definition fetch_topicConfigs (adm : KafkaJS.Admin) (topicNames : list jsstring)
    : M TopicConfigs :=
  try_catch
    (let req :=
       {| KafkaJS.dc_resources :=
            List.map (fun topic => {| KafkaJS.rq_type := 2;
                                      KafkaJS.rq_name := topic |})
                     topicNames;
          KafkaJS.includeSynonyms := false |} in
     configResponse ← await_admin (KafkaJS.CallDescribeConfigs req)
                                  (KafkaJS.describeConfigs adm req);
     mret (fold_left
             (fun topicConfigs resource =>
                topicConfigs_set
                  (KafkaJS.resourceName resource)
                  (reduce_configEntries (KafkaJS.configEntries resource))
                  topicConfigs)
             configResponse empty_topicConfigs))
    (fun _ => mret empty_topicConfigs).

(** [async getTopics()] *)
Definition getTopics : M (list KafkaTopic.t) :=
  adm ← require_connection;
  try_catch
    (topicNames ← await_admin KafkaJS.CallListTopics (KafkaJS.listTopics adm);
     if array_length topicNames =? 0 then mret []
     else
       topicDetails ← await_admin (KafkaJS.CallFetchTopicMetadata topicNames)
                                  (KafkaJS.fetchTopicMetadata adm topicNames);
       topicConfigs ← fetch_topicConfigs adm topicNames;
       mapM (fun topic =>
               to_KafkaTopic (topicConfigs_get topicConfigs
                                               (KafkaJS.tm_name topic))
                             topic)
            topicDetails)
    (rethrow_with (js "Failed to fetch topics: ")).

(** The configuration of one topic in [getTopicDetails] (lines 450-468). *)
Definition fetch_config (adm : KafkaJS.Admin) (topicName : jsstring)
    : M StringRecord :=
  try_catch
    (let req :=
       {| KafkaJS.dc_resources := [{| KafkaJS.rq_type := 2;
                                      KafkaJS.rq_name := topicName |}];
          KafkaJS.includeSynonyms := false |} in
     configResponse ← await_admin (KafkaJS.CallDescribeConfigs req)
                                  (KafkaJS.describeConfigs adm req);
     match configResponse with
     | resource :: _ =>
         mret (reduce_configEntries (KafkaJS.configEntries resource))
     | [] => mret []
     end)
    (fun _ => mret []).

(** [async getTopicDetails(topicName)] *)
Definition getTopicDetails (topicName : jsstring) : M KafkaTopic.t :=
  adm ← require_connection;
  try_catch
    (topicMetadata ← await_admin (KafkaJS.CallFetchTopicMetadata [topicName])
                                 (KafkaJS.fetchTopicMetadata adm [topicName]);
     match topicMetadata with
     | [] => throw_Error (js "Topic '" ++ topicName ++ js "' not found")
     | topic :: _ =>
         config ← fetch_config adm topicName;
         to_KafkaTopic (ConfigObject config) topic
     end)
    (rethrow_with (js "Failed to fetch topic details: ")).

(** ** [class KafkaService]: the topic command handler *)

(** One code unit of the class [[a-zA-Z0-9._-]]. *)
Definition is_topic_name_char (c : N) : bool :=
  (N.leb 97 c && N.leb c 122) || (N.leb 65 c && N.leb c 90)
  || (N.leb 48 c && N.leb c 57)
  || N.eqb c 46 || N.eqb c 95 || N.eqb c 45.

(** [/^[a-zA-Z0-9._-]+$/.test(s)] *)
Definition validNamePattern_test (s : jsstring) : bool :=
  match s with
  | [] => false
  | _ :: _ => forallb is_topic_name_char s
  end.

(** [Object.entries(config).map(([key, value]) => ({ name: key, value }))] *)
Definition to_configEntries (config : StringRecord)
    : list KafkaJS.IResourceConfigEntry :=
  List.map (fun '(key, value) => {| KafkaJS.ce_name := key;
                                    KafkaJS.ce_value := value |})
           config.

(** [existingTopics.includes(topicName)] *)
Definition array_includes (xs : list jsstring) (x : jsstring) : bool :=
  existsb (jsstring_eqb x) xs.

(** The request [createTopic] sends to [admin.createTopics]. *)
Definition createTopics_request (topicName : jsstring)
    (partitions replicationFactor : Z) (config : StringRecord)
    : KafkaJS.CreateTopicsRequest :=
  {| KafkaJS.ct_topics :=
       [{| KafkaJS.topic := topicName;
           KafkaJS.numPartitions := partitions;
           KafkaJS.replicationFactor := replicationFactor;
           KafkaJS.tc_configEntries := to_configEntries config |}];
     KafkaJS.ct_validateOnly := false;
     KafkaJS.waitForLeaders := true;
     KafkaJS.ct_timeout := 30000 |}.

(** [async createTopic(topicName, partitions, replicationFactor, config)] *)
Definition createTopic (topicName : jsstring) (partitions replicationFactor : Z)
    (config : StringRecord) : M unit :=
  adm ← require_connection;
  try_catch
    (if bool_decide (topicName = []) || bool_decide (trim topicName = [])
     then throw_Error (js "Topic name cannot be empty")
     else if 249 <? js_length topicName
     then throw_Error (js "Topic name cannot exceed 249 characters")
     else if negb (validNamePattern_test topicName)
     then throw_Error (js "Topic name can only contain letters, numbers, dots, hyphens, and underscores")
     else
       existingTopics ← await_admin KafkaJS.CallListTopics
                                    (KafkaJS.listTopics adm);
       if array_includes existingTopics topicName
       then throw_Error (js "Topic '" ++ topicName ++ js "' already exists")
       else
         metadata ← await_admin KafkaJS.CallDescribeCluster
                                (KafkaJS.describeCluster adm);
         if array_length (KafkaJS.cm_brokers metadata) <? replicationFactor
         then throw_Error
                (js "Replication factor " ++ show_Z replicationFactor
                 ++ js " cannot exceed broker count "
                 ++ show_Z (array_length (KafkaJS.cm_brokers metadata)))
         else
           let req := createTopics_request topicName partitions
                                           replicationFactor config in
           await_admin (KafkaJS.CallCreateTopics req)
                       (KafkaJS.createTopics adm req);;
           mret tt)
    (rethrow_with (js "Failed to create topic: ")).

(** [async deleteTopic(topicName)] *)
Definition deleteTopic (topicName : jsstring) : M unit :=
  adm ← require_connection;
  try_catch
    (existingTopics ← await_admin KafkaJS.CallListTopics
                                  (KafkaJS.listTopics adm);
     if negb (array_includes existingTopics topicName)
     then throw_Error (js "Topic '" ++ topicName ++ js "' does not exist")
     else
       let req := {| KafkaJS.dt_topics := [topicName];
                     KafkaJS.dt_timeout := 30000 |} in
       await_admin (KafkaJS.CallDeleteTopics req) (KafkaJS.deleteTopics adm req))
    (rethrow_with (js "Failed to delete topic: ")).

(** [async updateTopicConfig(topicName, configUpdates)] *)
Definition updateTopicConfig (topicName : jsstring)
    (configUpdates : StringRecord) : M unit :=
  adm ← require_connection;
  try_catch
    (existingTopics ← await_admin KafkaJS.CallListTopics
                                  (KafkaJS.listTopics adm);
     if negb (array_includes existingTopics topicName)
     then throw_Error (js "Topic '" ++ topicName ++ js "' does not exist")
     else
       let req :=
         {| KafkaJS.ac_validateOnly := false;
            KafkaJS.ac_resources :=
              [{| KafkaJS.rc_type := 2;
                  KafkaJS.rc_name := topicName;
                  KafkaJS.rc_configEntries := to_configEntries configUpdates |}]
         |} in
       await_admin (KafkaJS.CallAlterConfigs req) (KafkaJS.alterConfigs adm req))
    (rethrow_with (js "Failed to update topic configuration: ")).

(** ** [types/schemas.ts]: [createTopicFormSchema] *)

Module Schemas.

Record ZodIssue := {
  path : list jsstring;
  message : jsstring
}.

Record CreateTopicForm := {
  name : jsstring;
  partitions : Z;
  replicationFactor : Z;
  config : option StringRecord
}.

(** [body[key]] on a parsed object, whose keys are distinct; [None] is
    [undefined]. *)
Fixpoint get_field (key : jsstring) (fields : list (jsstring * JSON))
    : option JSON :=
  match fields with
  | [] => None
  | (k, v) :: rest => if jsstring_eqb k key then Some v else get_field key rest
  end.

Definition issue_if (failed : bool) (p : list jsstring) (m : jsstring)
    : list ZodIssue :=
  if failed then [{| path := p; message := m |}] else [].

Definition result_of {A} (value : A) (issues : list ZodIssue)
    : A + list ZodIssue :=
  match issues with
  | [] => inl value
  | _ :: _ => inr issues
  end.

(** [z.string().min(1, ...).max(249, ...).regex(/^[a-zA-Z0-9._-]+$/, ...)]
    at the key [name]: every failed check reports its issue. *)
Definition parse_name (z : ZodPackage) (v : option JSON)
    : jsstring + list ZodIssue :=
  match v with
  | Some (JString s) =>
      result_of s
        (issue_if (js_length s <? 1) [js "name"] (js "Topic name is required")
         ++ issue_if (249 <? js_length s) [js "name"]
              (js "Topic name cannot exceed 249 characters")
         ++ issue_if (negb (validNamePattern_test s)) [js "name"]
              (js "Topic name can only contain letters, numbers, dots, hyphens, and underscores"))
  | _ => inr [{| path := [js "name"];
                 message := builtin_message z expected_string |}]
  end.

Definition is_integer (q : Q) : bool := Qeq_bool q (inject_Z (Qfloor q)).

(** [z.number().int().min(lo, lo_message).max(hi, hi_message)] at the key
    [key]. *)
Definition parse_int_between (z : ZodPackage) (key : jsstring) (lo hi : Z)
    (lo_message hi_message : jsstring) (v : option JSON)
    : Z + list ZodIssue :=
  match v with
  | Some (JNumber q) =>
      let int_issue :=
        issue_if (negb (is_integer q)) [key]
                 (builtin_message z expected_integer) in
      let range_issues :=
        issue_if (negb (Qle_bool (inject_Z lo) q)) [key] lo_message
        ++ issue_if (negb (Qle_bool q (inject_Z hi))) [key] hi_message in
      result_of (Qfloor q)
        (if negb (is_integer q) && int_check_aborts z then int_issue
         else int_issue ++ range_issues)
  | _ => inr [{| path := [key];
                 message := builtin_message z expected_number |}]
  end.

(** One entry of [z.record(z.string(), z.string())]. *)
Definition parse_config_entry (z : ZodPackage) (entry : jsstring * JSON)
    : (jsstring * jsstring) + list ZodIssue :=
  match entry with
  | (k, JString s) => inl (k, s)
  | (k, _) => inr [{| path := [js "config"; k];
                      message := builtin_message z expected_string |}]
  end.

Fixpoint parse_config_entries (z : ZodPackage)
    (entries : list (jsstring * JSON)) : StringRecord + list ZodIssue :=
  match entries with
  | [] => inl []
  | entry :: rest =>
      match parse_config_entry z entry, parse_config_entries z rest with
      | inl kv, inl kvs => inl (kv :: kvs)
      | inl _, inr issues => inr issues
      | inr issues, inl _ => inr issues
      | inr issues, inr more => inr (issues ++ more)
      end
  end.

(** [z.record(z.string(), z.string()).optional()] at the key [config]. *)
Definition parse_config (z : ZodPackage) (v : option JSON)
    : option StringRecord + list ZodIssue :=
  match v with
  | None => inl None
  | Some (JObject entries) =>
      match parse_config_entries z entries with
      | inl kvs => inl (Some kvs)
      | inr issues => inr issues
      end
  | Some _ => inr [{| path := [js "config"];
                      message := builtin_message z expected_record |}]
  end.

Definition issues_of {A} (r : A + list ZodIssue) : list ZodIssue :=
  match r with
  | inl _ => []
  | inr issues => issues
  end.

(** [createTopicFormSchema.safeParse(body)]: the parsed form, or the
    issues of the four keys in the order of the schema. *)
Definition createTopicFormSchema_safeParse (z : ZodPackage) (body : JSON)
    : CreateTopicForm + list ZodIssue :=
  match body with
  | JObject fields =>
      let r_name := parse_name z (get_field (js "name") fields) in
      let r_partitions :=
        parse_int_between z (js "partitions") 1 1000
          (js "Must have at least 1 partition")
          (js "Maximum 1000 partitions allowed")
          (get_field (js "partitions") fields) in
      let r_replicationFactor :=
        parse_int_between z (js "replicationFactor") 1 10
          (js "Must have at least 1 replica")
          (js "Maximum 10 replicas allowed")
          (get_field (js "replicationFactor") fields) in
      let r_config := parse_config z (get_field (js "config") fields) in
      match r_name, r_partitions, r_replicationFactor, r_config with
      | inl n, inl p, inl r, inl c =>
          inl {| name := n; partitions := p; replicationFactor := r;
                 config := c |}
      | _, _, _, _ =>
          inr (issues_of r_name ++ issues_of r_partitions
               ++ issues_of r_replicationFactor ++ issues_of r_config)
      end
  | _ => inr [{| path := []; message := builtin_message z expected_object |}]
  end.

End Schemas.

(** ** [app/api/kafka/cluster/route.ts] *)

Module ClusterRoute.

(** The JSON object of a response; an absent key is [None]. *)
Record Body := {
  success : bool;
  error : option jsstring;
  message : option jsstring;
  data : option ClusterOverview.t;
  timestamp : option jsstring
}.

Record Response := {
  status : Z;
  body : Body
}.

(** The [data] of the 503 response. *)
Definition fallback_overview : ClusterOverview.t :=
  {| ClusterOverview.brokersOnline := 0;
     ClusterOverview.brokersTotal := 0;
     ClusterOverview.topicsCount := 0;
     ClusterOverview.partitionsCount := 0;
     ClusterOverview.consumerGroupsCount := 0;
     ClusterOverview.messagesPerSecond := 0;
     ClusterOverview.status := unknown |}.

(** [export async function GET()] *)
Definition GET : M Response :=
  try_catch
    (s ← get_this;
     if negb (isConnectionActive s) then
       mret {| status := 401;
               body := {| success := false;
                          error := Some (js "Not connected to Kafka cluster");
                          message := Some (js "Please establish a connection first");
                          data := None;
                          timestamp := None |} |}
     else
       try_catch
         (overview ← getClusterOverview;
          now ← read_runtime Date_toISOString;
          mret {| status := 200;
                  body := {| success := true;
                             error := None;
                             message := None;
                             data := Some overview;
                             timestamp := Some now |} |})
         (fun kafkaError =>
            let errorMessage :=
              message_or (js "Failed to fetch cluster information") kafkaError in
            mret {| status := 503;
                    body := {| success := false;
                               error := Some errorMessage;
                               message := None;
                               data := Some fallback_overview;
                               timestamp := None |} |}))
    (fun _ =>
       mret {| status := 500;
               body := {| success := false;
                          error := Some (js "Internal server error");
                          message := Some (js "An unexpected error occurred while fetching cluster information");
                          data := None;
                          timestamp := None |} |}).

End ClusterRoute.

(** ** [app/api/kafka/topics/route.ts]: [POST] *)

Module TopicsRoute.

(** A [NextRequest], as far as the handler reads it: [await request.json()]
    gives the parsed body or throws. *)
Record NextRequest := {
  json : Result JSON
}.

Record FieldError := {
  field : jsstring;
  fe_message : jsstring
}.

Record CreatedTopic := {
  ct_name : jsstring;
  ct_partitions : Z;
  ct_replicationFactor : Z;
  ct_config : StringRecord;
  ct_status : jsstring;
  createdAt : jsstring
}.

Record FailureDetails := {
  topicName : jsstring;
  fd_partitions : Z;
  fd_replicationFactor : Z;
  fd_timestamp : jsstring
}.

(** The [details] key: the list of violated fields of a 400 response, or
    the context of a 422 response. *)
Inductive Details : Type :=
  | ValidationDetails (fields : list FieldError)
  | CreationDetails (d : FailureDetails).

Record Body := {
  success : bool;
  error : option jsstring;
  message : option jsstring;
  data : option CreatedTopic;
  details : option Details
}.

Record Response := {
  status : Z;
  body : Body
}.

(** [issue.path.join('.')] *)
Fixpoint join_dot (parts : list jsstring) : jsstring :=
  match parts with
  | [] => []
  | [p] => p
  | p :: rest => p ++ 46%N :: join_dot rest
  end.

Definition to_FieldError (issue : Schemas.ZodIssue) : FieldError :=
  {| field := join_dot (Schemas.path issue);
     fe_message := Schemas.message issue |}.

Definition failure (code : Z) (err : jsstring) (msg : option jsstring)
    (d : option Details) : Response :=
  {| status := code;
     body := {| success := false; error := Some err; message := msg;
                data := None; details := d |} |}.

(** [export async function POST(request)] *)
Definition POST (request : NextRequest) : M Response :=
  try_catch
    (s ← get_this;
     if negb (isConnectionActive s) then
       mret (failure 401 (js "Not connected to Kafka cluster")
                     (Some (js "Please establish a connection to create topics"))
                     None)
     else
       parsed ← try_catch (body ← lift_Result (json request); mret (Some body))
                          (fun _ => mret None);
       match parsed with
       | None => mret (failure 400 (js "Invalid JSON in request body") None None)
       | Some body =>
           z ← (fun w => (Ok (zod (runtime w)), w));
           match Schemas.createTopicFormSchema_safeParse z body with
           | inr issues =>
               mret (failure 400 (js "Invalid topic creation parameters") None
                             (Some (ValidationDetails
                                      (List.map to_FieldError issues))))
           | inl form =>
               let name := Schemas.name form in
               let partitions := Schemas.partitions form in
               let replicationFactor := Schemas.replicationFactor form in
               let config := default [] (Schemas.config form) in
               try_catch
                 (createTopic name partitions replicationFactor config;;
                  now ← read_runtime Date_toISOString;
                  mret {| status := 200;
                          body :=
                            {| success := true;
                               error := None;
                               message :=
                                 Some (js "Topic '" ++ name
                                       ++ js "' created successfully");
                               data :=
                                 Some {| ct_name := name;
                                         ct_partitions := partitions;
                                         ct_replicationFactor := replicationFactor;
                                         ct_config := config;
                                         ct_status := js "active";
                                         createdAt := now |};
                               details := None |} |})
                 (fun kafkaError =>
                    let errorMessage :=
                      message_or (js "Failed to create topic") kafkaError in
                    now ← read_runtime Date_toISOString;
                    mret (failure 422 errorMessage None
                            (Some (CreationDetails
                                     {| topicName := name;
                                        fd_partitions := partitions;
                                        fd_replicationFactor := replicationFactor;
                                        fd_timestamp := now |}))))
           end
       end)
    (fun _ =>
       mret (failure 500 (js "Internal server error")
                     (Some (js "An unexpected error occurred while creating the topic"))
                     None)).

End TopicsRoute.

(** ** Runs of the service *)

(** [async initialize()].  [getKafkaConfig()] reads [process.env], which is
    outside the model: [env_config] is [None] when
    [KAFKA_BOOTSTRAP_SERVERS] is not set and is the configuration
    [getKafkaConfig()] builds otherwise.  A failure is logged and dropped. *)
Definition initialize (env_config : option KafkaJS.KafkaConfig) : M unit :=
  match env_config with
  | Some config => try_catch (connectWithConfig config) (fun _ => mret tt)
  | None => mret tt
  end.

(** One call of a public method of the singleton. *)
Inductive Invocation : Type :=
  | Initialize (env_config : option KafkaJS.KafkaConfig)
  | Connect (bootstrapServers : jsstring) (clientId : option jsstring)
  | Disconnect
  | GetClusterOverview
  | GetBrokers
  | GetTopics
  | GetTopicDetails (topicName : jsstring)
  | CreateTopic (topicName : jsstring) (partitions replicationFactor : Z)
                (config : StringRecord)
  | DeleteTopic (topicName : jsstring)
  | UpdateTopicConfig (topicName : jsstring) (configUpdates : StringRecord).

(** The world after a call, whatever it returned or threw. *)
Definition after {A} (m : M A) (w : World) : World := snd (m w).

Definition run (i : Invocation) (w : World) : World :=
  match i with
  | Initialize env_config => after (initialize env_config) w
  | Connect bootstrapServers clientId => after (connect bootstrapServers clientId) w
  | Disconnect => after disconnect w
  | GetClusterOverview => after getClusterOverview w
  | GetBrokers => after getBrokers w
  | GetTopics => after getTopics w
  | GetTopicDetails topicName => after (getTopicDetails topicName) w
  | CreateTopic topicName partitions replicationFactor config =>
      after (createTopic topicName partitions replicationFactor config) w
  | DeleteTopic topicName => after (deleteTopic topicName) w
  | UpdateTopicConfig topicName configUpdates =>
      after (updateTopicConfig topicName configUpdates) w
  end.

(** The world at module load: [new KafkaService()], nothing called yet. *)
Definition start (rt : Runtime) : World :=
  {| runtime := rt; this := new_KafkaService; calls := []; ticks := 0 |}.

(** The worlds the singleton can be in between two calls. *)
Definition reachable (w : World) : Prop :=
  exists rt history, w = fold_left (fun w i => run i w) history (start rt).

(** ** Sample clusters, for the examples *)

Module Sample.

Definition ascii_toLowerCase (s : jsstring) : jsstring :=
  List.map (fun c => if (N.leb 65 c && N.leb c 90)%bool then (c + 32)%N else c) s.

Definition zod3 : ZodPackage :=
  {| builtin_message := fun i =>
       match i with
       | expected_integer => js "Expected integer, received float"
       | _ => js "Required"
       end;
     int_check_aborts := false |}.

Definition broker (n : Z) : KafkaJS.BrokerMetadata :=
  {| KafkaJS.nodeId := n; KafkaJS.host := js "localhost";
     KafkaJS.port := 9092 + n; KafkaJS.rack := None |}.

Definition partition (n : Z) (replicas : list Z) : KafkaJS.PartitionMetadata :=
  {| KafkaJS.partitionId := n; KafkaJS.leader := default 0 (head replicas);
     KafkaJS.replicas := replicas; KafkaJS.isr := replicas |}.

(** A cluster with the given brokers, controller and topics; every RPC
    succeeds. *)
Definition cluster (brokers : list Z) (controller : option Z)
    (topics : list KafkaJS.ITopicMetadata) : KafkaJS.Admin :=
  {| KafkaJS.connect := Ok tt;
     KafkaJS.disconnect := Ok tt;
     KafkaJS.describeCluster :=
       Ok {| KafkaJS.cm_brokers := List.map broker brokers;
             KafkaJS.controller := controller;
             KafkaJS.clusterId := js "sample" |};
     KafkaJS.listTopics := Ok (List.map KafkaJS.tm_name topics);
     KafkaJS.fetchTopicMetadata := fun names =>
       Ok (List.filter (fun t => array_includes names (KafkaJS.tm_name t)) topics);
     KafkaJS.describeConfigs := fun _ => Ok [];
     KafkaJS.createTopics := fun _ => Ok true;
     KafkaJS.deleteTopics := fun _ => Ok tt;
     KafkaJS.alterConfigs := fun _ => Ok tt |}.

Definition runtime_of (adm : KafkaJS.Admin) : Runtime :=
  {| new_Kafka := fun _ _ => Ok {| KafkaJS.admin := Ok adm |};
     Math_random := fun _ => (1 # 2)%Q;
     Date_toISOString := fun _ => js "2025-01-01T00:00:00.000Z";
     toLowerCase := ascii_toLowerCase;
     rejects_first := fun _ => true;
     zod := zod3 |}.

(** The world after a successful [connect("localhost:9092")]. *)
Definition connected (adm : KafkaJS.Admin) : World :=
  run (Connect (js "localhost:9092") None) (start (runtime_of adm)).

(** The world after that connection was closed again. *)
Definition closed_again (adm : KafkaJS.Admin) : World :=
  fold_left (fun w i => run i w)
            [Connect (js "localhost:9092") None; Disconnect]
            (start (runtime_of adm)).

Definition orders : KafkaJS.ITopicMetadata :=
  {| KafkaJS.tm_name := js "orders";
     KafkaJS.tm_partitions := [partition 0 [1; 2]; partition 1 [2; 1]] |}.

(** A topic whose first partition lists no replica. *)
Definition unassigned : KafkaJS.ITopicMetadata :=
  {| KafkaJS.tm_name := js "unassigned";
     KafkaJS.tm_partitions := [partition 0 []] |}.

Definition two_brokers : KafkaJS.Admin :=
  cluster [1; 2] (Some 1) [orders; unassigned].

(** What [getClusterOverview] returns on [two_brokers]. *)
Definition two_brokers_overview : ClusterOverview.t :=
  {| ClusterOverview.brokersOnline := 2;
     ClusterOverview.brokersTotal := 2;
     ClusterOverview.topicsCount := 2;
     ClusterOverview.partitionsCount := 3;
     ClusterOverview.consumerGroupsCount := 0;
     ClusterOverview.messagesPerSecond := 0;
     ClusterOverview.status := healthy |}.

(** Topic number [i], with one, two or three partitions. *)
Definition numbered (i : nat) : KafkaJS.ITopicMetadata :=
  {| KafkaJS.tm_name := js "t" ++ show_Z (Z.of_nat i);
     KafkaJS.tm_partitions :=
       List.map (fun p => partition (Z.of_nat p) [1]) (seq 0 (S (i mod 3))) |}.

(** Sixty topics, 120 partitions in all, 99 of them in the first fifty
    topics. *)
Definition sixty_topics : KafkaJS.Admin :=
  cluster [1] (Some 1) (List.map numbered (seq 0 60)).

(** What [getTopicDetails("orders")] returns on [two_brokers]. *)
Definition orders_topic : KafkaTopic.t :=
  {| KafkaTopic.name := js "orders";
     KafkaTopic.partitions := 2;
     KafkaTopic.replicationFactor := 2;
     KafkaTopic.config := ConfigObject [];
     KafkaTopic.metrics :=
       {| KafkaTopic.messageCount := 50000;
          KafkaTopic.sizeBytes := 500000;
          KafkaTopic.consumerLag := 500 |};
     KafkaTopic.status := active |}.

Definition request_of (fields : list (jsstring * JSON))
    : TopicsRoute.NextRequest :=
  {| TopicsRoute.json := Ok (JObject fields) |}.

Definition create_request (name : string) (partitions replicationFactor : Z)
    : TopicsRoute.NextRequest :=
  request_of [(js "name", JString (js name));
              (js "partitions", JNumber (inject_Z partitions));
              (js "replicationFactor", JNumber (inject_Z replicationFactor))].

End Sample.

(** ** Notions used in the statements *)

(** The four fields are back to what the constructor set. *)
Definition cleared (s : KafkaService) : Prop :=
  kafka s = None /\ admin s = None /\ isConnected s = false
  /\ connectionConfig s = None.

(** A computation that does not write the fields of the singleton. *)
Definition keeps_this {A} (m : M A) : Prop :=
  forall w, this (after m w) = this w.

(** No admin handle without a client: whenever [kafka] is null, [admin]
    is null. *)
Definition handles_paired (s : KafkaService) : Prop :=
  kafka s = None -> admin s = None.

(** The service is single-threaded but its methods are [async]: a method
    runs undisturbed from one [await] to the next, and between two such
    blocks any other call may start or resume.  Only [connectWithConfig]
    and [disconnect] write the fields; these are their blocks, each as the
    change it makes to the fields by the time it suspends or returns.
    - [connect_suspends]: lines 120-129, the configuration, the client and
      the handle are stored and [admin.connect()] is awaited;
    - [connect_without_client]: [new Kafka(config)] threw after line 120,
      and the [disconnect()] of the handler awaits the close of the handle
      that was there;
    - [connect_without_admin]: [kafka.admin()] threw after line 123, and
      the [disconnect()] of the handler awaits the close of the handle
      that was there;
    - [connect_resumes]: line 131, after [admin.connect()] resolved;
    - [fields_cleared]: lines 180-184 after the close resolved, lines
      188-191 after it threw, or lines 182-184 at once when there was no
      handle to close. *)
Inductive segment : KafkaService -> KafkaService -> Prop :=
  | connect_suspends s config k adm :
      segment s {| kafka := Some k; admin := Some adm;
                   isConnected := isConnected s;
                   connectionConfig := Some config |}
  | connect_without_client s config :
      is_Some (admin s) ->
      segment s (set_connectionConfig (Some config) s)
  | connect_without_admin s config k :
      is_Some (admin s) ->
      segment s (set_kafka (Some k) (set_connectionConfig (Some config) s))
  | connect_resumes s :
      segment s (set_isConnected true s)
  | fields_cleared s :
      segment s new_KafkaService.

(** The states the singleton can be in when a method is invoked: those
    the blocks lead to from [new KafkaService()], in any order. *)
Definition interleaved (s : KafkaService) : Prop :=
  rtc segment new_KafkaService s.

(** The overview [getClusterOverview] builds from the two answers and the
    partition count. *)
Definition overview_of (metadata : KafkaJS.ClusterMetadata)
    (topics : list jsstring) (partitionsCount : Z) : ClusterOverview.t :=
  {| ClusterOverview.brokersOnline := array_length (KafkaJS.cm_brokers metadata);
     ClusterOverview.brokersTotal := array_length (KafkaJS.cm_brokers metadata);
     ClusterOverview.topicsCount := array_length topics;
     ClusterOverview.partitionsCount := partitionsCount;
     ClusterOverview.consumerGroupsCount := 0;
     ClusterOverview.messagesPerSecond := 0;
     ClusterOverview.status := healthy |}.

(** The number of partitions of a list of topics, summed topic by topic. *)
Definition total_partitions (tms : list KafkaJS.ITopicMetadata) : nat :=
  sum_list_with (fun t => List.length (KafkaJS.tm_partitions t)) tms.

(** What a returned broker owes to the broker metadata it was built from. *)
Definition built_from (metadata : KafkaJS.ClusterMetadata)
    (b : Broker.t) (bm : KafkaJS.BrokerMetadata) : Prop :=
  Broker.id b = KafkaJS.nodeId bm
  /\ Broker.isController b
     = bool_decide (Some (KafkaJS.nodeId bm) = KafkaJS.controller metadata).

(** The brokers marked as controller. *)
Definition controllers (bs : list Broker.t) : list Broker.t :=
  List.filter Broker.isController bs.

(** The reported brokers whose id is the reported controller id. *)
Definition controller_nodes (metadata : KafkaJS.ClusterMetadata)
    : list KafkaJS.BrokerMetadata :=
  List.filter
    (fun bm => bool_decide (Some (KafkaJS.nodeId bm) = KafkaJS.controller metadata))
    (KafkaJS.cm_brokers metadata).

(** The number of replicas of the first partition of a topic; [None] when
    the topic has no partition. *)
Definition first_partition_replicas (tm : KafkaJS.ITopicMetadata) : option nat :=
  (fun p => List.length (KafkaJS.replicas p)) <$> head (KafkaJS.tm_partitions tm).

(** The replication factor as amended: the replica count of the first
    partition when there is one and it is not zero, and 1 otherwise. *)
Definition replicas_or_one (tm : KafkaJS.ITopicMetadata) : Z :=
  match first_partition_replicas tm with
  | Some (S n) => Z.of_nat (S n)
  | Some O | None => 1
  end.

(** What a returned topic owes to the metadata it was built from. *)
Definition describes (t : KafkaTopic.t) (tm : KafkaJS.ITopicMetadata) : Prop :=
  KafkaTopic.name t = KafkaJS.tm_name tm
  /\ KafkaTopic.replicationFactor t = replicas_or_one tm.

(** The calls before the creation RPC: the existence check and the broker
    count. *)
Definition is_precheck (c : KafkaJS.AdminCall) : Prop :=
  c = KafkaJS.CallListTopics \/ c = KafkaJS.CallDescribeCluster.

(** The body of the 401 response. *)
Definition not_connected_response : ClusterRoute.Response :=
  {| ClusterRoute.status := 401;
     ClusterRoute.body :=
       {| ClusterRoute.success := false;
          ClusterRoute.error := Some (js "Not connected to Kafka cluster");
          ClusterRoute.message := Some (js "Please establish a connection first");
          ClusterRoute.data := None;
          ClusterRoute.timestamp := None |} |}.

(** The 503 response that carries the fallback overview. *)
Definition degraded_response (errorMessage : jsstring) : ClusterRoute.Response :=
  {| ClusterRoute.status := 503;
     ClusterRoute.body :=
       {| ClusterRoute.success := false;
          ClusterRoute.error := Some errorMessage;
          ClusterRoute.message := None;
          ClusterRoute.data := Some ClusterRoute.fallback_overview;
          ClusterRoute.timestamp := None |} |}.

(** A name the schema and the service accept: the pattern
    [[a-zA-Z0-9._-]+] and at most 249 code units. *)
Definition valid_topic_name (s : jsstring) : Prop :=
  validNamePattern_test s = true /\ js_length s <= 249.

(** The 400 response of a body that fails the schema. *)
Definition validation_failure (fields : list TopicsRoute.FieldError)
    : TopicsRoute.Response :=
  TopicsRoute.failure 400 (js "Invalid topic creation parameters") None
                      (Some (TopicsRoute.ValidationDetails fields)).

(** The 401 response of the create-topic route. *)
Definition create_not_connected : TopicsRoute.Response :=
  TopicsRoute.failure 401 (js "Not connected to Kafka cluster")
                      (Some (js "Please establish a connection to create topics"))
                      None.

(** The form the schema makes of [Sample.create_request "payments" 3 1]. *)
Definition payments_form : Schemas.CreateTopicForm :=
  {| Schemas.name := js "payments"; Schemas.partitions := 3;
     Schemas.replicationFactor := 1; Schemas.config := None |}.

(** ** [app/api/kafka/topics/route.ts]: [GET] *)

Module TopicsRouteGET.

Record Metadata := {
  totalTopics : Z;
  avgPartitions : Z;
  avgReplicationFactor : Z
}.

(** The JSON object of a response; an absent key is [None]. *)
Record Body := {
  success : bool;
  error : option jsstring;
  message : option jsstring;
  data : option (list KafkaTopic.t);
  count : option Z;
  metadata : option Metadata;
  timestamp : option jsstring
}.

Record Response := {
  status : Z;
  body : Body
}.

(** [topics.length > 0 ? Math.round(topics.reduce((sum, t) => sum + f(t), 0) / topics.length) : 0] *)
Definition average (f : KafkaTopic.t -> Z) (topics : list KafkaTopic.t) : Z :=
  if 0 <? array_length topics then
    let total := fold_left (fun sum t => sum + f t) topics 0 in
    Math_round (inject_Z total / inject_Z (array_length topics))%Q
  else 0.

(** [export async function GET()] *)
Definition GET : M Response :=
  try_catch
    (s ← get_this;
     if negb (isConnectionActive s) then
       mret {| status := 401;
               body := {| success := false;
                          error := Some (js "Not connected to Kafka cluster");
                          message := Some (js "Please establish a connection to view topics");
                          data := None; count := None; metadata := None;
                          timestamp := None |} |}
     else
       try_catch
         (topics ← getTopics;
          now ← read_runtime Date_toISOString;
          mret {| status := 200;
                  body := {| success := true;
                             error := None;
                             message := None;
                             data := Some topics;
                             count := Some (array_length topics);
                             metadata :=
                               Some {| totalTopics := array_length topics;
                                       avgPartitions :=
                                         average KafkaTopic.partitions topics;
                                       avgReplicationFactor :=
                                         average KafkaTopic.replicationFactor topics |};
                             timestamp := Some now |} |})
         (fun kafkaError =>
            let errorMessage :=
              message_or (js "Failed to fetch topic information") kafkaError in
            mret {| status := 503;
                    body := {| success := false;
                               error := Some errorMessage;
                               message := None;
                               data := Some [];
                               count := Some 0;
                               metadata := None;
                               timestamp := None |} |}))
    (fun _ =>
       mret {| status := 500;
               body := {| success := false;
                          error := Some (js "Internal server error");
                          message := Some (js "Failed to fetch topic information");
                          data := None; count := None; metadata := None;
                          timestamp := None |} |}).

End TopicsRouteGET.

(** ** [types/schemas.ts]: [deleteTopicSchema] *)

Module DeleteSchema.

(** [deleteTopicSchema.safeParse(body)]: the [topicName] of the body, or
    the issues. *)
Definition deleteTopicSchema_safeParse (z : ZodPackage) (body : JSON)
    : jsstring + list Schemas.ZodIssue :=
  match body with
  | JObject fields =>
      match Schemas.get_field (js "topicName") fields with
      | Some (JString s) =>
          Schemas.result_of s
            (Schemas.issue_if (js_length s <? 1) [js "topicName"]
                              (js "Topic name is required"))
      | _ => inr [{| Schemas.path := [js "topicName"];
                     Schemas.message := builtin_message z expected_string |}]
      end
  | _ => inr [{| Schemas.path := [];
                 Schemas.message := builtin_message z expected_object |}]
  end.

End DeleteSchema.

(** ** [app/api/kafka/topics/route.ts]: [DELETE] *)

Module TopicsRouteDELETE.

Record DeletedTopic := {
  dd_topicName : jsstring;
  deletedAt : jsstring;
  warning : jsstring
}.

Record FailureDetails := {
  topicName : jsstring;
  fd_timestamp : jsstring
}.

(** The [details] key: the list of violated fields of a 400 response, or
    the context of a 422 response. *)
Inductive Details : Type :=
  | ValidationDetails (fields : list TopicsRoute.FieldError)
  | DeletionDetails (d : FailureDetails).

Record Body := {
  success : bool;
  error : option jsstring;
  message : option jsstring;
  data : option DeletedTopic;
  details : option Details
}.

Record Response := {
  status : Z;
  body : Body
}.

Definition failure (code : Z) (err : jsstring) (msg : option jsstring)
    (d : option Details) : Response :=
  {| status := code;
     body := {| success := false; error := Some err; message := msg;
                data := None; details := d |} |}.

(** [export async function DELETE(request)] *)
Definition DELETE (request : TopicsRoute.NextRequest) : M Response :=
  try_catch
    (s ← get_this;
     if negb (isConnectionActive s) then
       mret (failure 401 (js "Not connected to Kafka cluster")
                     (Some (js "Please establish a connection to delete topics"))
                     None)
     else
       parsed ← try_catch (body ← lift_Result (TopicsRoute.json request);
                           mret (Some body))
                          (fun _ => mret None);
       match parsed with
       | None => mret (failure 400 (js "Invalid JSON in request body") None None)
       | Some body =>
           z ← (fun w => (Ok (zod (runtime w)), w));
           match DeleteSchema.deleteTopicSchema_safeParse z body with
           | inr issues =>
               mret (failure 400 (js "Invalid topic deletion parameters") None
                             (Some (ValidationDetails
                                      (List.map TopicsRoute.to_FieldError issues))))
           | inl topicName =>
               try_catch
                 (deleteTopic topicName;;
                  now ← read_runtime Date_toISOString;
                  mret {| status := 200;
                          body :=
                            {| success := true;
                               error := None;
                               message :=
                                 Some (js "Topic '" ++ topicName
                                       ++ js "' deleted successfully");
                               data :=
                                 Some {| dd_topicName := topicName;
                                         deletedAt := now;
                                         warning := js "This operation is permanent - all topic data has been lost" |};
                               details := None |} |})
                 (fun kafkaError =>
                    let errorMessage :=
                      message_or (js "Failed to delete topic") kafkaError in
                    now ← read_runtime Date_toISOString;
                    mret (failure 422 errorMessage None
                            (Some (DeletionDetails
                                     {| topicName := topicName;
                                        fd_timestamp := now |}))))
           end
       end)
    (fun _ =>
       mret (failure 500 (js "Internal server error")
                     (Some (js "An unexpected error occurred while deleting the topic"))
                     None)).

End TopicsRouteDELETE.

(** ** [app/api/kafka/brokers/route.ts] *)

Module BrokersRoute.

Record Body := {
  success : bool;
  error : option jsstring;
  message : option jsstring;
  data : option (list Broker.t);
  count : option Z;
  timestamp : option jsstring
}.

Record Response := {
  status : Z;
  body : Body
}.

(** [export async function GET()] *)
Definition GET : M Response :=
  try_catch
    (s ← get_this;
     if negb (isConnectionActive s) then
       mret {| status := 401;
               body := {| success := false;
                          error := Some (js "Not connected to Kafka cluster");
                          message := Some (js "Please establish a connection to view brokers");
                          data := None; count := None; timestamp := None |} |}
     else
       try_catch
         (brokers ← getBrokers;
          now ← read_runtime Date_toISOString;
          mret {| status := 200;
                  body := {| success := true;
                             error := None;
                             message := None;
                             data := Some brokers;
                             count := Some (array_length brokers);
                             timestamp := Some now |} |})
         (fun kafkaError =>
            let errorMessage :=
              message_or (js "Failed to fetch broker information") kafkaError in
            mret {| status := 503;
                    body := {| success := false;
                               error := Some errorMessage;
                               message := None;
                               data := Some [];
                               count := None;
                               timestamp := None |} |}))
    (fun _ =>
       mret {| status := 500;
               body := {| success := false;
                          error := Some (js "Internal server error");
                          message := Some (js "Failed to fetch broker information");
                          data := None; count := None; timestamp := None |} |}).

End BrokersRoute.

(** ** [app/cluster/page.tsx] and [app/topics/page.tsx]: the brokers card *)

(** The [status] of the card that shows [brokersOnline/brokersTotal]:
    [brokersOnline === 0 ? 'critical' :
     brokersOnline === brokersTotal ? 'healthy' : 'warning']
    (the cluster page reads each field as [overview?.field || 0], which
    is the field itself when the overview is there). *)
Definition brokers_card_status (brokersOnline brokersTotal : Z)
    : HealthStatus :=
  if brokersOnline =? 0 then critical
  else if brokersOnline =? brokersTotal then healthy
  else warning.

(** ** [lib/utils.ts]: [truncate] *)

(** [text.slice(0, n)] for an integer [n]: a negative [n] counts from the
    end of the text. *)
Definition slice_to (n : Z) (text : jsstring) : jsstring :=
  if n <? 0 then take (Z.to_nat (js_length text + n)) text
  else take (Z.to_nat n) text.

(** [truncate(text, length)], for an integer [length]. *)
Definition truncate (text : jsstring) (length : Z) : jsstring :=
  if js_length text <=? length then text
  else slice_to length text ++ js "...".

(** ** Notions used in the further properties *)

(** The messages of a connection error: the one of a cause that is not an
    [Error], the four known causes, or the original message after
    [Kafka connection failed: ]. *)
Definition connection_error_category (message : jsstring) : Prop :=
  message = js "Unknown Kafka connection error"
  \/ message = js "Cannot connect to Kafka brokers. Please verify Kafka is running and bootstrap servers are correct."
  \/ message = js "Connection timeout. Kafka brokers may be unreachable or overloaded."
  \/ message = js "Kafka coordinator not available. The cluster may be starting up."
  \/ message = js "Kafka brokers are not available. Check if your Kafka cluster is running."
  \/ exists original, message = js "Kafka connection failed: " ++ original.

(** A cluster whose brokers refuse the connection. *)
Definition refusing : KafkaJS.Admin :=
  {| KafkaJS.connect := Throw (JsError (js "connect ECONNREFUSED 127.0.0.1:9092"));
     KafkaJS.disconnect := Throw (JsError (js "socket closed"));
     KafkaJS.describeCluster := Throw NonError;
     KafkaJS.listTopics := Throw NonError;
     KafkaJS.fetchTopicMetadata := fun _ => Throw NonError;
     KafkaJS.describeConfigs := fun _ => Throw NonError;
     KafkaJS.createTopics := fun _ => Throw NonError;
     KafkaJS.deleteTopics := fun _ => Throw NonError;
     KafkaJS.alterConfigs := fun _ => Throw NonError |}.

(** The [clientId] that [getConnectionInfo] reports after
    [connect(_, clientId)]. *)
Definition reported_clientId (clientId : option jsstring) : jsstring :=
  match clientId with
  | None => js "kafka-ui"
  | Some [] => js "unknown"
  | Some c => c
  end.

(** The request [getTopics] sends to [describeConfigs]. *)
Definition describeConfigs_request (topicNames : list jsstring)
    : KafkaJS.DescribeConfigsRequest :=
  {| KafkaJS.dc_resources :=
       List.map (fun topic => {| KafkaJS.rq_type := 2;
                                 KafkaJS.rq_name := topic |})
                topicNames;
     KafkaJS.includeSynonyms := false |}.

(** The configuration of a topic for which [topicConfigs] holds nothing:
    the empty object, unless the name of the topic is a member of
    [Object.prototype], which the lookup then finds. *)
Definition unconfigured (t : KafkaTopic.t) : Prop :=
  let name := KafkaTopic.name t in
  (name = js "__proto__" -> KafkaTopic.config t = ObjectPrototype)
  /\ (name ∈ Object_prototype_methods
      -> KafkaTopic.config t = PrototypeMethod name)
  /\ (name <> js "__proto__" -> name ∉ Object_prototype_methods
      -> KafkaTopic.config t = ConfigObject []).

(** What [getTopics] copies from the metadata of a topic. *)
Definition lists_topic (t : KafkaTopic.t) (tm : KafkaJS.ITopicMetadata) : Prop :=
  KafkaTopic.name t = KafkaJS.tm_name tm
  /\ KafkaTopic.partitions t = Z.of_nat (List.length (KafkaJS.tm_partitions tm))
  /\ KafkaTopic.status t = active.

(** A topic that bears the name of a method of [Object.prototype]. *)
Definition constructor_topic : KafkaJS.ITopicMetadata :=
  {| KafkaJS.tm_name := js "constructor";
     KafkaJS.tm_partitions := [Sample.partition 0 [1]] |}.

(** A cluster with the topics [orders] and [constructor] whose
    configurations cannot be read. *)
Definition unreadable_constructor : KafkaJS.Admin :=
  {| KafkaJS.connect := Ok tt;
     KafkaJS.disconnect := Ok tt;
     KafkaJS.describeCluster := KafkaJS.describeCluster Sample.two_brokers;
     KafkaJS.listTopics := Ok [js "orders"; js "constructor"];
     KafkaJS.fetchTopicMetadata := fun _ =>
       Ok [Sample.orders; constructor_topic];
     KafkaJS.describeConfigs := fun _ => Throw (JsError (js "not authorized"));
     KafkaJS.createTopics := fun _ => Ok true;
     KafkaJS.deleteTopics := fun _ => Ok tt;
     KafkaJS.alterConfigs := fun _ => Ok tt |}.

(** A cluster of two topics whose configurations cannot be read. *)
Definition unreadable_configs : KafkaJS.Admin :=
  {| KafkaJS.connect := Ok tt;
     KafkaJS.disconnect := Ok tt;
     KafkaJS.describeCluster := KafkaJS.describeCluster Sample.two_brokers;
     KafkaJS.listTopics := KafkaJS.listTopics Sample.two_brokers;
     KafkaJS.fetchTopicMetadata := KafkaJS.fetchTopicMetadata Sample.two_brokers;
     KafkaJS.describeConfigs := fun _ => Throw (JsError (js "not authorized"));
     KafkaJS.createTopics := fun _ => Ok true;
     KafkaJS.deleteTopics := fun _ => Ok tt;
     KafkaJS.alterConfigs := fun _ => Ok tt |}.

(** The message a method rethrows for a cause. *)
Definition wrapped (prefix : string) (cause : thrown) : thrown :=
  JsError (js prefix ++ message_or (js "Unknown error") cause).

(** A cluster that stops answering after the connection. *)
Definition silent : KafkaJS.Admin :=
  {| KafkaJS.connect := Ok tt;
     KafkaJS.disconnect := Ok tt;
     KafkaJS.describeCluster := Throw (JsError (js "request timed out"));
     KafkaJS.listTopics := Throw NonError;
     KafkaJS.fetchTopicMetadata := fun _ => Throw NonError;
     KafkaJS.describeConfigs := fun _ => Throw NonError;
     KafkaJS.createTopics := fun _ => Throw NonError;
     KafkaJS.deleteTopics := fun _ => Throw NonError;
     KafkaJS.alterConfigs := fun _ => Throw NonError |}.

(** The order of two property names in an enumeration: an array index
    comes before a larger array index and before any other name. *)
Definition enumerated_before (a b : jsstring) : Prop :=
  match array_index a, array_index b with
  | Some i, Some j => (i <= j)%N
  | Some _, None => True
  | None, Some _ => False
  | None, None => True
  end.

(** The names of a list, each at its first occurrence. *)
Fixpoint first_occurrences (names : list jsstring) : list jsstring :=
  match names with
  | [] => []
  | x :: rest =>
      x :: List.filter (fun y => negb (jsstring_eqb y x)) (first_occurrences rest)
  end.

(** A name that is neither an array index nor [__proto__]. *)
Definition ordinary_name (key : jsstring) : bool :=
  negb (bool_decide (is_Some (array_index key)))
  && negb (jsstring_eqb key (js "__proto__")).

(** A name that is an array index. *)
Definition is_index (key : jsstring) : bool :=
  bool_decide (is_Some (array_index key)).

(** The entries of the first resource of a configuration answer; none
    when the call threw or answered with no resource. *)
Definition first_resource_entries
    (answer : Result (list KafkaJS.ConfigResource))
    : list KafkaJS.ConfigEntry :=
  match answer with
  | Ok (resource :: _) => KafkaJS.configEntries resource
  | _ => []
  end.

(** A cluster whose configuration answer for [orders] names an array
    index after another name. *)
Definition configured : KafkaJS.Admin :=
  {| KafkaJS.connect := Ok tt;
     KafkaJS.disconnect := Ok tt;
     KafkaJS.describeCluster := KafkaJS.describeCluster Sample.two_brokers;
     KafkaJS.listTopics := KafkaJS.listTopics Sample.two_brokers;
     KafkaJS.fetchTopicMetadata := KafkaJS.fetchTopicMetadata Sample.two_brokers;
     KafkaJS.describeConfigs := fun _ =>
       Ok [{| KafkaJS.resourceName := js "orders";
              KafkaJS.configEntries :=
                [{| KafkaJS.configName := js "segment.bytes";
                    KafkaJS.configValue := js "1073741824" |};
                 {| KafkaJS.configName := js "10";
                    KafkaJS.configValue := js "ten" |};
                 {| KafkaJS.configName := js "__proto__";
                    KafkaJS.configValue := js "ignored" |};
                 {| KafkaJS.configName := js "2";
                    KafkaJS.configValue := js "two" |};
                 {| KafkaJS.configName := js "segment.bytes";
                    KafkaJS.configValue := js "536870912" |}] |}];
     KafkaJS.createTopics := fun _ => Ok true;
     KafkaJS.deleteTopics := fun _ => Ok tt;
     KafkaJS.alterConfigs := fun _ => Ok tt |}.

(** The value of the last entry named [key]. *)
Definition last_value (key : jsstring) (entries : list KafkaJS.ConfigEntry)
    : option jsstring :=
  KafkaJS.configValue
  <$> last (List.filter (fun e => jsstring_eqb (KafkaJS.configName e) key)
                        entries).

(** The broker ids of the replica sets of a topic, partition after
    partition. *)
Definition replica_ids (tm : KafkaJS.ITopicMetadata) : list Z :=
  concat (List.map KafkaJS.replicas (KafkaJS.tm_partitions tm)).

(** How many replicas of the partitions of a topic a broker holds. *)
Definition replicas_on (brokerId : Z) (tm : KafkaJS.ITopicMetadata) : nat :=
  List.length (List.filter (fun x => bool_decide (x = brokerId)) (replica_ids tm)).

(** Whether a broker holds a replica of some partition of a topic. *)
Definition hosts (brokerId : Z) (tm : KafkaJS.ITopicMetadata) : bool :=
  bool_decide (brokerId ∈ replica_ids tm).

(** The topics, among [tms], of which a broker holds a replica. *)
Definition topics_on (brokerId : Z) (tms : list KafkaJS.ITopicMetadata) : nat :=
  List.length (List.filter (hosts brokerId) tms).

(** The replicas, over the partitions of [tms], that a broker holds. *)
Definition partitions_on (brokerId : Z) (tms : list KafkaJS.ITopicMetadata)
    : nat :=
  sum_list_with (replicas_on brokerId) tms.

(** An entry of [brokerTopicCounts] with both counters raised. *)
Definition bump (dt dp : nat) (c : TopicCounts) : TopicCounts :=
  {| topics := topics c + Z.of_nat dt;
     partitions := partitions c + Z.of_nat dp |}.

(** What [getBrokers] copies from the metadata of a broker, and the two
    counters it reads from [brokerTopicCounts]. *)
Definition counted_for (counts : gmap Z TopicCounts)
    (b : Broker.t) (bm : KafkaJS.BrokerMetadata) : Prop :=
  Broker.id b = KafkaJS.nodeId bm
  /\ Broker.host b = KafkaJS.host bm
  /\ Broker.port b = KafkaJS.port bm
  /\ Broker.status b = online
  /\ Broker.topicCount b
     = default 0 (topics <$> counts !! KafkaJS.nodeId bm)
  /\ Broker.partitionCount b
     = default 0 (partitions <$> counts !! KafkaJS.nodeId bm).

(** [Math.random()] answers in the interval from 0 to 1, 1 excluded. *)
Definition random_in_unit_interval (rt : Runtime) : Prop :=
  forall n, (0 <= Math_random rt n)%Q /\ (Math_random rt n < 1)%Q.

(** The ranges of the placeholder metrics of a broker: 10 to 89 GiB of
    disk, below 1000 and 800 KiB/s of traffic, 1000 to 5999 requests. *)
Definition broker_metrics_in_range (b : Broker.t) : Prop :=
  let m := Broker.metrics b in
  10 * 1024 * 1024 * 1024 <= Broker.diskUsage m <= 89 * 1024 * 1024 * 1024
  /\ 0 <= Broker.networkIn m <= 999 * 1024
  /\ 0 <= Broker.networkOut m <= 799 * 1024
  /\ 1000 <= Broker.requestsPerSecond m <= 5999.

(** The counters of the sample, before any scaling. *)
Definition sample_counts (metadata : KafkaJS.ClusterMetadata)
    (tms : list KafkaJS.ITopicMetadata) : gmap Z TopicCounts :=
  fold_left count_topic tms (init_counts (KafkaJS.cm_brokers metadata) ∅).

(** Counters in which no broker has more topics than partitions. *)
Definition ordered_counts (counts : gmap Z TopicCounts) : Prop :=
  forall b c, counts !! b = Some c -> 0 <= topics c <= partitions c.

(** Forty topics of which only the first twenty are sampled. *)
Definition forty_topics : KafkaJS.Admin :=
  Sample.cluster [1; 2] (Some 1) (List.map Sample.numbered (seq 0 40)).

(** The request [deleteTopic] sends to [admin.deleteTopics]. *)
Definition deleteTopics_request (topicName : jsstring)
    : KafkaJS.DeleteTopicsRequest :=
  {| KafkaJS.dt_topics := [topicName]; KafkaJS.dt_timeout := 30000 |}.

(** The request [updateTopicConfig] sends to [admin.alterConfigs]. *)
Definition alterConfigs_request (topicName : jsstring)
    (configUpdates : StringRecord) : KafkaJS.AlterConfigsRequest :=
  {| KafkaJS.ac_validateOnly := false;
     KafkaJS.ac_resources :=
       [{| KafkaJS.rc_type := 2;
           KafkaJS.rc_name := topicName;
           KafkaJS.rc_configEntries := to_configEntries configUpdates |}] |}.

(** What a service method may throw: the not-connected error, or an
    [Error] whose message starts with the prefix of the method. *)
Definition method_error (prefix : string) (e : thrown) : Prop :=
  e = JsError not_connected \/ exists m, e = JsError (js prefix ++ m).

(** The ranges of the placeholder metrics of a topic: below 100000
    messages, 1000000 bytes and a lag of 1000. *)
Definition topic_metrics_in_range (t : KafkaTopic.t) : Prop :=
  let m := KafkaTopic.metrics t in
  0 <= KafkaTopic.messageCount m <= 99999
  /\ 0 <= KafkaTopic.sizeBytes m <= 999999
  /\ 0 <= KafkaTopic.consumerLag m <= 999.

(** A body [deleteTopicSchema] accepts: an object whose [topicName] is a
    string that is not empty. *)
Definition names_topic (body : JSON) (topicName : jsstring) : Prop :=
  exists fields,
    body = JObject fields
    /\ Schemas.get_field (js "topicName") fields = Some (JString topicName)
    /\ topicName <> [].

(** The JSON number at a key is the integer [n]. *)
Definition integer_field (v : option JSON) (n : Z) : Prop :=
  exists q, v = Some (JNumber q) /\ (q == inject_Z n)%Q.

(** The JSON value at the key [config] is absent, or an object whose
    values are all strings. *)
Definition config_field (v : option JSON) (c : option StringRecord) : Prop :=
  match v, c with
  | None, None => True
  | Some (JObject entries), Some kvs =>
      entries = List.map (fun '(k, s) => (k, JString s)) kvs
  | _, _ => False
  end.

(** A body [createTopicFormSchema] parses into [form]. *)
Definition well_formed_creation (body : JSON) (form : Schemas.CreateTopicForm)
    : Prop :=
  exists fields,
    body = JObject fields
    /\ Schemas.get_field (js "name") fields
       = Some (JString (Schemas.name form))
    /\ valid_topic_name (Schemas.name form)
    /\ integer_field (Schemas.get_field (js "partitions") fields)
                     (Schemas.partitions form)
    /\ 1 <= Schemas.partitions form <= 1000
    /\ integer_field (Schemas.get_field (js "replicationFactor") fields)
                     (Schemas.replicationFactor form)
    /\ 1 <= Schemas.replicationFactor form <= 10
    /\ config_field (Schemas.get_field (js "config") fields)
                    (Schemas.config form).

(** The relative error of one rounding: [2 ^ -53]. *)
Definition unit_roundoff : Q := (2 ^ (-53))%Q.

(** The doubles from [2 ^ -1022] on have their 53 significant bits. *)
Definition normal (x : Q) : Prop := (2 ^ (-1022) <= x)%Q.

(** The estimate of [count_partitions] for a sample of [d] topics holding
    [s] partitions among [n] topics, computed with the reference doubles. *)
Definition reference_estimate (s d n : Z) : option Q :=
  Q_of_double
    (SpecFloat.SFmul 53 1024
       (SpecFloat.SFdiv 53 1024 (double_of_Z s) (double_of_Z d))
       (double_of_Z n)).

(** A count [c] scaled as [scale_counts] does for a sample of [d] topics
    among [n], computed with the reference doubles. *)
Definition reference_scaling (c n d : Z) : option Q :=
  Q_of_double
    (SpecFloat.SFmul 53 1024
       (double_of_Z c)
       (SpecFloat.SFdiv 53 1024 (double_of_Z n) (double_of_Z d))).

(** Whether a reference double is the Number [q]. *)
Definition same_Number (d : option Q) (q : Q) : bool :=
  match d with
  | Some q' => Qeq_bool q' q
  | None => false
  end.

(** The topic [t<i>] with [n] partitions, each on broker 1. *)
Definition topic_of_size (i n : nat) : KafkaJS.ITopicMetadata :=
  {| KafkaJS.tm_name := js "t" ++ show_Z (Z.of_nat i);
     KafkaJS.tm_partitions :=
       List.map (fun p => Sample.partition (Z.of_nat p) [1]) (seq 0 n) |}.

(** Fifty-five topics; the first fifty hold 115 partitions. *)
Definition fifty_five_topics : KafkaJS.Admin :=
  Sample.cluster [1] (Some 1)
    (List.map (fun i => topic_of_size i (if (i <? 15)%nat then 3 else 2)%nat)
              (seq 0 55)).

(** Fifty-one topics; the first fifty hold 75 partitions. *)
Definition fifty_one_topics : KafkaJS.Admin :=
  Sample.cluster [1] (Some 1)
    (List.map (fun i => topic_of_size i (if (i <? 25)%nat then 2 else 1)%nat)
              (seq 0 51)).

(** The product the estimate of [count_partitions] stands for, taken in
    the rationals: the partitions of the first 50 topics, divided by 50,
    times the number of topics. *)
Definition exact_estimate (adm : KafkaJS.Admin) : option Q :=
  match KafkaJS.listTopics adm with
  | Ok topics =>
      match KafkaJS.fetchTopicMetadata adm (take 50 topics) with
      | Ok tms =>
          Some (inject_Z (Z.of_nat (total_partitions tms)) / 50
                * inject_Z (Z.of_nat (List.length topics)))%Q
      | Throw _ => None
      end
  | Throw _ => None
  end.

(** The [partitionsCount] of the overview of a cluster, if there is an
    overview. *)
Definition reported_partitions (adm : KafkaJS.Admin) : option Z :=
  match fst (getClusterOverview (Sample.connected adm)) with
  | Ok ov => Some (ClusterOverview.partitionsCount ov)
  | Throw _ => None
  end.

(** * Properties *)

(** ** Examples of the helpers *)

Example show_Z_examples :
  show_Z 3 = js "3" /\ show_Z 0 = js "0" /\ show_Z (-12) = js "-12".
Proof. repeat split; reflexivity. Qed.

Example split_trim_example :
  List.map trim (split_comma (js "a:1, b:2")) = [js "a:1"; js "b:2"].
Proof. reflexivity. Qed.

Example round_examples :
  Math_round (5 # 2) = 3 /\ Math_round (-5 # 2) = -2 /\ Math_round (7 # 3) = 2.
Proof. repeat split; reflexivity. Qed.

(** One tenth is not a double; the Number value for it is the nearest
    one, which the reference doubles of the Standard Library give too. *)
Example Number_value_examples :
  Number_div 1 10 = (3602879701896397 # 36028797018963968)%Q
  /\ Q_of_double (SpecFloat.SFdiv 53 1024 (double_of_Z 1) (double_of_Z 10))
     = Some (Number_div 1 10)
  /\ Number_mul (Number_div 115 50) 55 = (8901646138474495 # 70368744177664)%Q
  /\ Math_round (Number_mul (Number_div 115 50) 55) = 126
  /\ Math_round (Number_mul 50 (Number_div 23 20)) = 57.
Proof. repeat split; vm_compute; reflexivity. Qed.

(** [Number_div] and [Number_mul] agree with the reference doubles on the
    estimates of [count_partitions] and on the scalings of [scale_counts],
    for the samples of up to 150 partitions among up to 80 topics. *)
Example Number_agrees_with_reference :
  forallb
    (fun s =>
       forallb
         (fun n =>
            same_Number
              (reference_estimate s 50 n)
              (Number_mul (Number_div (inject_Z s) 50) (inject_Z n))
            && same_Number
                 (reference_scaling s n 20)
                 (Number_mul (inject_Z s) (Number_div (inject_Z n) 20)))
         (List.map Z.of_nat (seq 21 60)))
    (List.map Z.of_nat (seq 0 151))
  = true.
Proof. vm_compute. reflexivity. Qed.

Example valid_name_examples :
  validNamePattern_test (js "user-events.v2_raw") = true
  /\ validNamePattern_test (js "My Topic!") = false
  /\ validNamePattern_test (js "") = false.
Proof. repeat split; reflexivity. Qed.

(** ** Reasoning about computations in [M] *)

(** Unfolds the monad down to a [match] on the results of the sub-computations. *)
Ltac unfold_M :=
  unfold after, mbind, M_bind, mret, M_ret, mthrow, M_throw, try_catch,
    throw_Error, rethrow_with, get_this, modify_this, await_admin,
    lift_Result, read_runtime in *.

Ltac destruct_results :=
  repeat match goal with
    | |- context [match ?r with Ok _ => _ | Throw _ => _ end] =>
        destruct r eqn:?; simpl
    | |- context [match ?o with Some _ => _ | None => _ end] =>
        destruct o eqn:?; simpl
    | |- context [if ?b then _ else _] => destruct b eqn:?; simpl
    end.

(** ** The connection manager *)

(** [disconnect()] never throws and always leaves the four fields cleared,
    whether the admin handle closes or throws. *)
Lemma disconnect_clears (w : World) :
  fst (disconnect w) = Ok tt /\ cleared (this (after disconnect w)).
Proof.
  unfold disconnect, cleared. unfold_M.
  destruct (admin (this w)) as [adm|] eqn:Hadm; simpl.
  - destruct (KafkaJS.disconnect adm) as [[]|e]; simpl; auto.
  - auto.
Qed.

Lemma cleared_inactive (s : KafkaService) :
  cleared s -> isConnectionActive s = false /\ getConnectionInfo s = None.
Proof.
  intros (Hk & _ & Hc & Hcfg). unfold isConnectionActive, getConnectionInfo.
  rewrite Hc, Hcfg. auto.
Qed.

(** C6. After [connect(bootstrapServers, clientId)] followed immediately by
    [disconnect()], [isConnectionActive()] is false and
    [getConnectionInfo()] is null; the world [w] fixes whether the connect
    attempt succeeds or fails partway and whether the admin handle throws
    when it is closed, and is arbitrary.  [disconnect()] itself returns
    normally. *)
Theorem connect_then_disconnect_inactive
    (w : World) (bootstrapServers : jsstring) (clientId : option jsstring) :
  let w1 := after (connect bootstrapServers clientId) w in
  let w2 := after disconnect w1 in
  fst (disconnect w1) = Ok tt
  /\ isConnectionActive (this w2) = false
  /\ getConnectionInfo (this w2) = None.
Proof.
  intros w1 w2. destruct (disconnect_clears w1) as [Hret Hclr].
  split; [exact Hret|]. apply cleared_inactive. exact Hclr.
Qed.

(** ** Methods that leave the fields of the singleton alone *)

Lemma keeps_ret {A} (a : A) : keeps_this (mret a).
Proof. intros w. reflexivity. Qed.

Lemma keeps_throw {A} (e : thrown) : keeps_this (mthrow e : M A).
Proof. intros w. reflexivity. Qed.

Lemma keeps_throw_Error {A} (m : jsstring) : keeps_this (throw_Error m : M A).
Proof. intros w. reflexivity. Qed.

Lemma keeps_bind {A B} (m : M A) (f : A -> M B) :
  keeps_this m -> (forall a, keeps_this (f a)) -> keeps_this (m ≫= f).
Proof.
  intros Hm Hf w. specialize (Hm w). unfold_M.
  destruct (m w) as [[a|e] w1]; simpl in *; [|exact Hm].
  rewrite <- Hm. apply Hf.
Qed.

Lemma keeps_try_catch {A} (body : M A) (handler : thrown -> M A) :
  keeps_this body -> (forall e, keeps_this (handler e)) ->
  keeps_this (try_catch body handler).
Proof.
  intros Hm Hf w. specialize (Hm w). unfold_M.
  destruct (body w) as [[a|e] w1]; simpl in *; [exact Hm|].
  rewrite <- Hm. apply Hf.
Qed.

Lemma keeps_get_this : keeps_this get_this.
Proof. intros w. reflexivity. Qed.

Lemma keeps_await_admin {A} c (r : Result A) : keeps_this (await_admin c r).
Proof. intros w. reflexivity. Qed.

Lemma keeps_read_runtime {A} (f : Runtime -> nat -> A) :
  keeps_this (read_runtime f).
Proof. intros w. reflexivity. Qed.

Lemma keeps_Promise_all2 {A B} c1 (r1 : Result A) c2 (r2 : Result B) :
  keeps_this (Promise_all2 c1 r1 c2 r2).
Proof. intros w. unfold after, Promise_all2. destruct r1, r2; reflexivity. Qed.

Lemma keeps_mapM {A B} (f : A -> M B) (xs : list A) :
  (forall x, keeps_this (f x)) -> keeps_this (mapM f xs).
Proof.
  intros Hf. induction xs as [|x xs IH]; simpl.
  - apply keeps_ret.
  - apply keeps_bind; [apply Hf|]. intros y.
    apply keeps_bind; [exact IH|]. intros ys. apply keeps_ret.
Qed.

Create HintDb keeps.
#[local] Hint Resolve keeps_ret keeps_throw keeps_throw_Error keeps_get_this
  keeps_await_admin keeps_read_runtime keeps_Promise_all2 : keeps.

(** Walks down a method body: binds, handlers and branches. *)
Ltac keeps :=
  repeat first
    [ solve [auto with keeps]
    | apply keeps_bind; [|intros ?]
    | apply keeps_try_catch; [|intros ?]
    | apply keeps_mapM; intros ?
    | match goal with
      | |- keeps_this (if ?b then _ else _) => destruct b
      | |- keeps_this (match ?x with _ => _ end) => destruct x
      | |- keeps_this (let '(_, _) := ?p in _) => destruct p
      end ].

Lemma keeps_require_connection : keeps_this require_connection.
Proof. unfold require_connection. keeps. Qed.

Lemma keeps_random_below n : keeps_this (random_below n).
Proof. unfold random_below. keeps. Qed.

#[local] Hint Resolve keeps_require_connection keeps_random_below : keeps.

Lemma keeps_getClusterOverview : keeps_this getClusterOverview.
Proof. unfold getClusterOverview, count_partitions, rethrow_with. keeps. Qed.

Lemma keeps_getBrokers : keeps_this getBrokers.
Proof.
  unfold getBrokers, broker_topic_counts, to_Broker, rethrow_with. keeps.
Qed.

Lemma keeps_getTopics : keeps_this getTopics.
Proof.
  unfold getTopics, fetch_topicConfigs, to_KafkaTopic, rethrow_with. keeps.
Qed.

Lemma keeps_getTopicDetails n : keeps_this (getTopicDetails n).
Proof.
  unfold getTopicDetails, fetch_config, to_KafkaTopic, rethrow_with. keeps.
Qed.

Lemma keeps_createTopic n p r c : keeps_this (createTopic n p r c).
Proof. unfold createTopic, rethrow_with. keeps. Qed.

Lemma keeps_deleteTopic n : keeps_this (deleteTopic n).
Proof. unfold deleteTopic, rethrow_with. keeps. Qed.

Lemma keeps_updateTopicConfig n c : keeps_this (updateTopicConfig n c).
Proof. unfold updateTopicConfig, rethrow_with. keeps. Qed.

(** ** The two handles are set and cleared together *)

Lemma cleared_new (s : KafkaService) : cleared s -> s = new_KafkaService.
Proof.
  destruct s as [k a c cfg]. intros (Hk & Ha & Hc & Hcfg). simpl in *.
  subst. reflexivity.
Qed.

(** [connectWithConfig] ends either connected, with the client, the handle
    and the configuration stored, or with the four fields cleared by the
    [disconnect()] of its handler. *)
Lemma connectWithConfig_outcome (config : KafkaJS.KafkaConfig) (w : World) :
  let w' := after (connectWithConfig config) w in
  (fst (connectWithConfig config w) = Ok tt
   /\ exists k adm,
        this w' = {| kafka := Some k; admin := Some adm; isConnected := true;
                     connectionConfig := Some config |})
  \/ ((exists m, fst (connectWithConfig config w) = Throw (JsError m))
      /\ this w' = new_KafkaService).
Proof.
  unfold connectWithConfig.
  set (handler := fun error : thrown => _).
  assert (Hh : forall e w0,
             (exists m, fst (handler e w0) = Throw (JsError m))
             /\ this (after (handler e) w0) = new_KafkaService).
  { intros e w0. subst handler. cbv beta.
    pose proof (disconnect_clears w0) as [Hr Hc]. unfold_M.
    destruct (disconnect w0) as [[[]|e'] w1]; simpl in *; [|discriminate].
    split; [eauto | apply cleared_new, Hc]. }
  clearbody handler. unfold_M. simpl.
  destruct (new_Kafka (runtime w) (ticks w) config) as [k|e]; simpl;
    [|right; apply Hh].
  destruct (KafkaJS.admin k) as [adm|e]; simpl; [|right; apply Hh].
  destruct (KafkaJS.connect adm) as [[]|e]; simpl; [|right; apply Hh].
  left. split; [reflexivity|]. exists k, adm. reflexivity.
Qed.

(** A whole [connectWithConfig] is a run of its blocks. *)
Lemma connectWithConfig_segments config w :
  rtc segment (this w) (this (after (connectWithConfig config) w)).
Proof.
  destruct (connectWithConfig_outcome config w)
    as [(_ & k & adm & ->) | [_ ->]].
  - eapply rtc_l; [apply (connect_suspends _ config k adm)|].
    apply rtc_once. apply (connect_resumes
      {| kafka := Some k; admin := Some adm;
         isConnected := isConnected (this w);
         connectionConfig := Some config |}).
  - apply rtc_once, fields_cleared.
Qed.

Lemma initialize_segments env_config w :
  rtc segment (this w) (this (after (initialize env_config) w)).
Proof.
  destruct env_config as [config|]; simpl; [|apply rtc_refl].
  pose proof (connectWithConfig_segments config w) as H.
  unfold after, try_catch in *.
  destruct (connectWithConfig config w) as [[[]|e] w1]; exact H.
Qed.

(** Every public method is a run of blocks: between two calls made one
    after the other the singleton is in an [interleaved] state. *)
Lemma run_segments (i : Invocation) (w : World) :
  rtc segment (this w) (this (run i w)).
Proof.
  destruct i; simpl.
  - apply initialize_segments.
  - apply connectWithConfig_segments.
  - rewrite (cleared_new _ (proj2 (disconnect_clears w))).
    apply rtc_once, fields_cleared.
  - rewrite keeps_getClusterOverview. apply rtc_refl.
  - rewrite keeps_getBrokers. apply rtc_refl.
  - rewrite keeps_getTopics. apply rtc_refl.
  - rewrite keeps_getTopicDetails. apply rtc_refl.
  - rewrite keeps_createTopic. apply rtc_refl.
  - rewrite keeps_deleteTopic. apply rtc_refl.
  - rewrite keeps_updateTopicConfig. apply rtc_refl.
Qed.

Lemma reachable_interleaved (w : World) : reachable w -> interleaved (this w).
Proof.
  intros (rt & history & ->). unfold interleaved.
  induction history as [|i history IH] using rev_ind.
  - apply rtc_refl.
  - rewrite fold_left_app. simpl. eapply rtc_trans; [exact IH|].
    apply run_segments.
Qed.

Lemma segment_paired (s s' : KafkaService) :
  segment s s' -> handles_paired s -> handles_paired s'.
Proof.
  unfold handles_paired.
  intros Hseg Hs. destruct Hseg; simpl; auto; discriminate.
Qed.

Lemma segments_paired (s s' : KafkaService) :
  rtc segment s s' -> handles_paired s -> handles_paired s'.
Proof.
  induction 1 as [s|s1 s2 s3 Hseg _ IH]; intros Hs; [exact Hs|].
  apply IH. eapply segment_paired; eassumption.
Qed.

Lemma interleaved_paired (s : KafkaService) : interleaved s -> handles_paired s.
Proof.
  intros H. apply (segments_paired _ _ H). intros _. reflexivity.
Qed.

(** The guard of the methods rejects exactly when it should: in a paired
    state, an inactive connection is one the guard refuses. *)
Lemma require_connection_refuses (w : World) :
  handles_paired (this w) -> isConnectionActive (this w) = false ->
  require_connection w = (Throw (JsError not_connected), w).
Proof.
  intros Hp Hin. unfold require_connection, isConnectionActive in *. unfold_M.
  destruct (isConnected (this w)) eqn:Hc; simpl in *.
  - destruct (kafka (this w)) as [k|] eqn:Hk; [discriminate|].
    rewrite (Hp Hk). reflexivity.
  - destruct (admin (this w)); reflexivity.
Qed.

(** C3. Whenever a method can be invoked (between two calls, or while a
    [connect] or a [disconnect] is suspended at an [await]) and
    [isConnectionActive()] returns false, each of the seven aggregation and
    command methods throws the not-connected error and leaves the world as
    it was: in particular the log of calls on the admin client is
    unchanged, no method of the client was invoked. *)
Theorem inactive_methods_throw_not_connected (w : World) :
  interleaved (this w) ->
  isConnectionActive (this w) = false ->
  getClusterOverview w = (Throw (JsError not_connected), w)
  /\ getBrokers w = (Throw (JsError not_connected), w)
  /\ getTopics w = (Throw (JsError not_connected), w)
  /\ (forall topicName,
        getTopicDetails topicName w = (Throw (JsError not_connected), w))
  /\ (forall topicName partitions replicationFactor config,
        createTopic topicName partitions replicationFactor config w
        = (Throw (JsError not_connected), w))
  /\ (forall topicName,
        deleteTopic topicName w = (Throw (JsError not_connected), w))
  /\ (forall topicName configUpdates,
        updateTopicConfig topicName configUpdates w
        = (Throw (JsError not_connected), w)).
Proof.
  intros Hr Hin.
  pose proof (require_connection_refuses w (interleaved_paired _ Hr) Hin) as Hg.
  repeat split; intros;
    unfold getClusterOverview, getBrokers, getTopics, getTopicDetails,
      createTopic, deleteTopic, updateTopicConfig, mbind, M_bind;
    rewrite Hg; reflexivity.
Qed.

(** C3 at a world where a connection was opened and closed again. *)
Lemma inactive_methods_throw_not_connected_witness :
  getBrokers (Sample.closed_again (Sample.cluster [1] (Some 1) []))
  = (Throw (JsError not_connected),
     Sample.closed_again (Sample.cluster [1] (Some 1) []))
  /\ calls (after getBrokers (Sample.closed_again (Sample.cluster [1] (Some 1) [])))
     = [KafkaJS.CallConnect; KafkaJS.CallDisconnect].
Proof.
  set (w := Sample.closed_again (Sample.cluster [1] (Some 1) [])).
  assert (Hr : interleaved (this w))
    by (apply reachable_interleaved; eexists _, _; reflexivity).
  assert (Hin : isConnectionActive (this w) = false) by reflexivity.
  destruct (inactive_methods_throw_not_connected w Hr Hin) as (_ & Hb & _).
  split; [exact Hb|]. unfold after. rewrite Hb. reflexivity.
Defined.

(** While a first [connect] awaits [admin.connect()], both handles are
    stored but the connection is not active yet: a method invoked then is
    refused without touching the handle. *)
Example method_refused_while_connecting :
  let connecting :=
    {| runtime := Sample.runtime_of Sample.two_brokers;
       this := {| kafka := Some {| KafkaJS.admin := Ok Sample.two_brokers |};
                  admin := Some Sample.two_brokers;
                  isConnected := false;
                  connectionConfig := None |};
       calls := []; ticks := 1 |} in
  getTopics connecting = (Throw (JsError not_connected), connecting).
Proof. reflexivity. Qed.

(** ** The cluster overview *)

(** The partition count never throws: a failed fetch falls back. *)
Lemma count_partitions_returns adm topics w :
  exists n, fst (count_partitions adm topics w) = Ok n.
Proof.
  unfold count_partitions. unfold_M. destruct_results; eauto.
Qed.

(** A successful overview comes from a connected singleton whose two
    first RPCs succeeded, and has the shape [overview_of]. *)
Lemma getClusterOverview_inv (w w' : World) (ov : ClusterOverview.t) :
  getClusterOverview w = (Ok ov, w') ->
  exists adm metadata topics w1,
    admin (this w) = Some adm /\ isConnected (this w) = true
    /\ KafkaJS.describeCluster adm = Ok metadata
    /\ KafkaJS.listTopics adm = Ok topics
    /\ ov = overview_of metadata topics (ClusterOverview.partitionsCount ov)
    /\ fst (count_partitions adm topics w1)
       = Ok (ClusterOverview.partitionsCount ov).
Proof.
  unfold getClusterOverview, require_connection. unfold_M.
  destruct (admin (this w)) as [adm|] eqn:Ha; simpl; [|discriminate].
  destruct (isConnected (this w)) eqn:Hc; simpl; [|discriminate].
  unfold Promise_all2.
  destruct (KafkaJS.describeCluster adm) as [metadata|e1] eqn:Hd;
    destruct (KafkaJS.listTopics adm) as [topics|e2] eqn:Hl; simpl;
    try discriminate.
  match goal with
  | |- context [count_partitions adm topics ?w0] =>
      destruct (count_partitions adm topics w0) as [[n|e] w2] eqn:Hn; simpl
  end; [|discriminate].
  intros H. injection H as <- <-.
  exists adm, metadata, topics. eexists.
  repeat split; try reflexivity; try assumption.
  - unfold overview_of. simpl. rewrite Z.eqb_refl. reflexivity.
  - simpl. rewrite Hn. reflexivity.
Qed.

(** With a connection and the two first RPCs answered, the overview is
    returned. *)
Lemma getClusterOverview_returns (w : World) adm metadata topics :
  admin (this w) = Some adm -> isConnected (this w) = true ->
  KafkaJS.describeCluster adm = Ok metadata ->
  KafkaJS.listTopics adm = Ok topics ->
  exists ov w', getClusterOverview w = (Ok ov, w').
Proof.
  intros Ha Hc Hd Hl.
  unfold getClusterOverview, require_connection. unfold_M.
  rewrite Ha, Hc. simpl. unfold Promise_all2. rewrite Hd, Hl. simpl.
  match goal with
  | |- context [count_partitions adm topics ?w0] =>
      destruct (count_partitions_returns adm topics w0) as [n Hn];
      destruct (count_partitions adm topics w0) as [r w2]
  end.
  simpl in Hn. subst r. simpl. eauto.
Qed.

(** C10. Every successful [getClusterOverview()] result has
    [consumerGroupsCount] 0 and [messagesPerSecond] 0, whatever the
    cluster answers. *)
Theorem overview_unmeasured_fields_zero (w w' : World) (ov : ClusterOverview.t) :
  getClusterOverview w = (Ok ov, w') ->
  ClusterOverview.consumerGroupsCount ov = 0
  /\ ClusterOverview.messagesPerSecond ov = 0.
Proof.
  intros H.
  destruct (getClusterOverview_inv w w' ov H)
    as (adm & metadata & topics & w1 & _ & _ & _ & _ & -> & _).
  split; reflexivity.
Qed.

(** C10 on a cluster of two brokers and two topics. *)
Lemma overview_unmeasured_fields_zero_witness :
  getClusterOverview (Sample.connected Sample.two_brokers)
  = (Ok Sample.two_brokers_overview,
     after getClusterOverview (Sample.connected Sample.two_brokers))
  /\ ClusterOverview.consumerGroupsCount Sample.two_brokers_overview = 0
  /\ ClusterOverview.messagesPerSecond Sample.two_brokers_overview = 0.
Proof.
  assert (H : getClusterOverview (Sample.connected Sample.two_brokers)
              = (Ok Sample.two_brokers_overview,
                 after getClusterOverview (Sample.connected Sample.two_brokers)))
    by (vm_compute; reflexivity).
  split; [exact H|].
  exact (overview_unmeasured_fields_zero _ _ _ H).
Defined.

(** In every successful [getClusterOverview()] result [brokersOnline]
    equals [brokersTotal] (both are the number of brokers
    [describeCluster] returned) and [status] is [healthy], whatever that
    number is. *)
Lemma overview_status_is_healthy (w w' : World) (ov : ClusterOverview.t) :
  getClusterOverview w = (Ok ov, w') ->
  ClusterOverview.brokersOnline ov = ClusterOverview.brokersTotal ov
  /\ ClusterOverview.status ov = healthy.
Proof.
  intros H.
  destruct (getClusterOverview_inv w w' ov H)
    as (adm & metadata & topics & w1 & _ & _ & _ & _ & -> & _).
  simpl. split; reflexivity.
Qed.

(** C1, on the code.  When [describeCluster] returns no broker,
    [getClusterOverview()] succeeds with [brokersOnline = 0],
    [brokersTotal = 0] and [status] [healthy]: [status] is computed as
    [brokersOnline === brokersTotal ? 'healthy' : 'warning'], without
    the test [brokersTotal > 0] of the claim, so on this result the
    equivalence of the claim fails.  The brokers card of the pages tests
    [brokersOnline === 0] first and shows the same two numbers as
    [critical]. *)
Lemma overview_healthy_without_brokers :
  exists ov w',
    getClusterOverview (Sample.connected (Sample.cluster [] None []))
    = (Ok ov, w')
    /\ ClusterOverview.brokersOnline ov = 0
    /\ ClusterOverview.brokersTotal ov = 0
    /\ ClusterOverview.status ov = healthy
    /\ brokers_card_status (ClusterOverview.brokersOnline ov)
                           (ClusterOverview.brokersTotal ov)
       = critical
    /\ ~ (ClusterOverview.status ov = healthy
          <-> ClusterOverview.brokersOnline ov = ClusterOverview.brokersTotal ov
              /\ ClusterOverview.brokersTotal ov > 0).
Proof.
  eexists _, _. split; [vm_compute; reflexivity|]. simpl.
  repeat split. intros [H _]. specialize (H eq_refl). lia.
Qed.

(** ** The partition count of the overview *)

#[local] Arguments slice0 {A} n xs : simpl never.

Lemma sum_partitions_from (tms : list KafkaJS.ITopicMetadata) (acc : Z) :
  fold_left (fun total topic => total + array_length (KafkaJS.tm_partitions topic))
            tms acc
  = acc + Z.of_nat (total_partitions tms).
Proof.
  revert acc. induction tms as [|t tms IH]; intros acc; simpl.
  - lia.
  - rewrite IH. unfold array_length. lia.
Qed.

Lemma sum_partitions_total (tms : list KafkaJS.ITopicMetadata) :
  sum_partitions tms = Z.of_nat (total_partitions tms).
Proof. unfold sum_partitions. rewrite sum_partitions_from. lia. Qed.

Lemma Math_round_nonneg (q : Q) : (0 <= q)%Q -> 0 <= Math_round q.
Proof.
  intros Hq. unfold Math_round.
  change 0 with (Qfloor 0). apply Qfloor_resp_le.
  apply Qle_trans with q; [exact Hq|].
  rewrite <- (Qplus_0_r q) at 1. apply Qplus_le_r. discriminate.
Qed.

Lemma slice0_length {A} (n : nat) (xs : list A) :
  (n < List.length xs)%nat -> array_length (slice0 n xs) = Z.of_nat n.
Proof.
  intros H. unfold array_length, slice0. rewrite length_take. lia.
Qed.

Lemma slice0_all {A} (n : nat) (xs : list A) :
  (List.length xs <= n)%nat -> slice0 n xs = xs.
Proof. intros H. unfold slice0. apply take_ge. exact H. Qed.

(** ** Numbers: rounding to the nearest integer *)

Lemma Qfloor_bounds (y : Q) :
  (inject_Z (Qfloor y) <= y /\ y < inject_Z (Qfloor y) + 1)%Q.
Proof.
  split; [apply Qfloor_le|].
  pose proof (Qlt_floor y) as H. rewrite inject_Z_plus in H. exact H.
Qed.

Lemma round_half_even_floor (y : Q) :
  Qfloor y <= round_half_even y <= Qfloor y + 1.
Proof.
  unfold round_half_even.
  destruct (y - inject_Z (Qfloor y) ?= 1 # 2)%Q; [destruct (Z.even _)| |]; lia.
Qed.

Lemma round_half_even_near (y : Q) :
  (y - (1 # 2) <= inject_Z (round_half_even y)
   /\ inject_Z (round_half_even y) <= y + (1 # 2))%Q.
Proof.
  unfold round_half_even. destruct (Qfloor_bounds y) as [Hlo Hhi].
  destruct (Qcompare_spec (y - inject_Z (Qfloor y)) (1 # 2)) as [He|Hl|Hg].
  - destruct (Z.even (Qfloor y));
      [|rewrite inject_Z_plus; change (inject_Z 1) with 1%Q]; split; lra.
  - split; lra.
  - rewrite inject_Z_plus. change (inject_Z 1) with 1%Q. split; lra.
Qed.

Lemma round_half_even_ge (y : Q) (n : Z) :
  (inject_Z n <= y)%Q -> n <= round_half_even y.
Proof.
  intros H. apply Qfloor_resp_le in H. rewrite Qfloor_Z in H.
  pose proof (round_half_even_floor y). lia.
Qed.

Lemma round_half_even_le (y : Q) (n : Z) :
  (y <= inject_Z n)%Q -> round_half_even y <= n.
Proof.
  intros H. pose proof (round_half_even_floor y) as Hf.
  destruct (Z.lt_ge_cases (Qfloor y) n) as [Hlt|Hge]; [lia|].
  apply Qfloor_resp_le in H as Hfl. rewrite Qfloor_Z in Hfl.
  assert (Heq : Qfloor y = n) by lia.
  unfold round_half_even. rewrite Heq.
  destruct (Qcompare_spec (y - inject_Z n) (1 # 2)) as [He|Hl|Hg];
    [lra|lia|lra].
Qed.

Lemma round_half_even_mono (x y : Q) :
  (x <= y)%Q -> round_half_even x <= round_half_even y.
Proof.
  intros H. apply Qfloor_resp_le in H as Hf.
  pose proof (round_half_even_floor x) as Hx.
  pose proof (round_half_even_floor y) as Hy.
  destruct (Z.eq_dec (Qfloor x) (Qfloor y)) as [Heq|Hne]; [|lia].
  unfold round_half_even. rewrite Heq.
  destruct (Qcompare_spec (x - inject_Z (Qfloor y)) (1 # 2));
    destruct (Qcompare_spec (y - inject_Z (Qfloor y)) (1 # 2));
    try destruct (Z.even (Qfloor y)); try lia; lra.
Qed.

(** ** Numbers: powers of two *)

Lemma pow2_pos (e : Z) : (0 < 2 ^ e)%Q.
Proof. apply Qpower_0_lt. reflexivity. Qed.

Lemma pow2_plus (a b : Z) : (2 ^ (a + b) == 2 ^ a * 2 ^ b)%Q.
Proof. apply Qpower_plus. discriminate. Qed.

Lemma pow2_le (a b : Z) : a <= b -> (2 ^ a <= 2 ^ b)%Q.
Proof. intros H. apply Qpower_le_compat_l; [exact H|]. discriminate. Qed.

Lemma pow2_inject (n : Z) : 0 <= n -> (inject_Z (2 ^ n) == 2 ^ n)%Q.
Proof. intros H. apply (Zpower_Qpower 2 n H). Qed.

Lemma pow2_succ (a : Z) : (2 ^ (a + 1) == 2 * 2 ^ a)%Q.
Proof. rewrite pow2_plus. change (2 ^ 1)%Q with 2%Q. ring. Qed.

(** ** Numbers: the binade of a positive rational *)

Lemma Qdiv_le_cross (a b c d : Z) :
  0 < b -> 0 < d -> a * d <= c * b ->
  (inject_Z a / inject_Z b <= inject_Z c / inject_Z d)%Q.
Proof.
  intros Hb Hd H.
  assert (HbQ : (0 < inject_Z b)%Q) by (rewrite <- (Zlt_Qlt 0); exact Hb).
  assert (HdQ : (0 < inject_Z d)%Q) by (rewrite <- (Zlt_Qlt 0); exact Hd).
  apply Qle_shift_div_r; [exact HbQ|].
  assert (E : (inject_Z c / inject_Z d * inject_Z b
               == inject_Z c * inject_Z b / inject_Z d)%Q)
    by (field; intros E0; rewrite E0 in HdQ; discriminate).
  rewrite E. apply Qle_shift_div_l; [exact HdQ|].
  rewrite <- !inject_Z_mult, <- Zle_Qle. exact H.
Qed.

Lemma Qdiv_lt_cross (a b c d : Z) :
  0 < b -> 0 < d -> a * d < c * b ->
  (inject_Z a / inject_Z b < inject_Z c / inject_Z d)%Q.
Proof.
  intros Hb Hd H.
  assert (HbQ : (0 < inject_Z b)%Q) by (rewrite <- (Zlt_Qlt 0); exact Hb).
  assert (HdQ : (0 < inject_Z d)%Q) by (rewrite <- (Zlt_Qlt 0); exact Hd).
  apply Qlt_shift_div_r; [exact HbQ|].
  assert (E : (inject_Z c / inject_Z d * inject_Z b
               == inject_Z c * inject_Z b / inject_Z d)%Q)
    by (field; intros E0; rewrite E0 in HdQ; discriminate).
  rewrite E. apply Qlt_shift_div_l; [exact HdQ|].
  rewrite <- !inject_Z_mult, <- Zlt_Qlt. exact H.
Qed.

Lemma pow2_quotient (a b : Z) :
  0 <= a -> 0 <= b ->
  (2 ^ (a - b) == inject_Z (2 ^ a) / inject_Z (2 ^ b))%Q.
Proof.
  intros Ha Hb. rewrite (pow2_inject a Ha), (pow2_inject b Hb).
  apply Qpower_minus. discriminate.
Qed.

Lemma binade_spec (x : Q) :
  (0 < x)%Q -> (2 ^ binade x <= x /\ x < 2 ^ (binade x + 1))%Q.
Proof.
  destruct x as [a b]. intros Hx.
  assert (Ha : 0 < a) by (unfold Qlt in Hx; simpl in Hx; lia).
  unfold binade. cbn [Qnum Qden]. rewrite (Z.abs_eq a) by lia.
  set (la := Z.log2 a). set (lb := Z.log2 (Z.pos b)).
  assert (Hla : 0 <= la) by apply Z.log2_nonneg.
  assert (Hlb : 0 <= lb) by apply Z.log2_nonneg.
  destruct (Z.log2_spec a Ha) as [Ha1 Ha2]. fold la in Ha1, Ha2.
  destruct (Z.log2_spec (Z.pos b) eq_refl) as [Hb1 Hb2]. fold lb in Hb1, Hb2.
  replace (Z.succ la) with (la + 1) in Ha2 by lia.
  replace (Z.succ lb) with (lb + 1) in Hb2 by lia.
  assert (Hpa : 0 < 2 ^ la) by (apply Z.pow_pos_nonneg; lia).
  assert (Hpb : 0 < 2 ^ lb) by (apply Z.pow_pos_nonneg; lia).
  assert (Hsa : 2 ^ (la + 1) = 2 * 2 ^ la) by (rewrite Z.pow_add_r by lia; lia).
  assert (Hsb : 2 ^ (lb + 1) = 2 * 2 ^ lb) by (rewrite Z.pow_add_r by lia; lia).
  rewrite (Qmake_Qdiv a b).
  destruct (Z.ltb_spec (a * 2 ^ lb) (Z.pos b * 2 ^ la)) as [Hlt|Hge].
  - split.
    + replace (la - lb - 1) with (la - (lb + 1)) by lia.
      rewrite pow2_quotient by lia.
      apply Qdiv_le_cross; [lia|lia|]. nia.
    + replace (la - lb - 1 + 1) with (la - lb) by lia.
      rewrite pow2_quotient by lia.
      apply Qdiv_lt_cross; [lia|lia|]. lia.
  - split.
    + rewrite pow2_quotient by lia.
      apply Qdiv_le_cross; [lia|lia|]. lia.
    + replace (la - lb + 1) with (la + 1 - lb) by lia.
      rewrite pow2_quotient by lia.
      apply Qdiv_lt_cross; [lia|lia|]. nia.
Qed.

Lemma binade_mono (x y : Q) :
  (0 < x)%Q -> (x <= y)%Q -> binade x <= binade y.
Proof.
  intros Hx Hxy. assert (Hy : (0 < y)%Q) by lra.
  destruct (binade_spec x Hx) as [Hx1 _].
  destruct (binade_spec y Hy) as [_ Hy2].
  destruct (Z.le_gt_cases (binade x) (binade y)) as [H|H]; [exact H|].
  pose proof (pow2_le (binade y + 1) (binade x) ltac:(lia)). lra.
Qed.

Lemma binade_ge (x : Q) (b : Z) : (2 ^ b <= x)%Q -> b <= binade x.
Proof.
  intros H. pose proof (pow2_pos b) as Hb.
  destruct (binade_spec x ltac:(lra)) as [_ Hx2].
  destruct (Z.le_gt_cases b (binade x)) as [Hle|Hgt]; [exact Hle|].
  pose proof (pow2_le (binade x + 1) b ltac:(lia)). lra.
Qed.

(** ** Numbers: the Number value of a rational in the normal range *)

Lemma normal_pos (x : Q) : normal x -> (0 < x)%Q.
Proof. unfold normal. pose proof (pow2_pos (-1022)). lra. Qed.

Lemma Number_value_0 : Number_value 0 = 0%Q.
Proof. reflexivity. Qed.

Lemma Number_value_normal (x : Q) :
  normal x ->
  (Number_value x
   == inject_Z (round_half_even (x / 2 ^ (binade x - 52)))
      * 2 ^ (binade x - 52))%Q.
Proof.
  intros Hn. pose proof (normal_pos x Hn) as Hx.
  pose proof (binade_ge x (-1022) Hn) as Hb.
  unfold Number_value.
  destruct (Qeq_bool x 0) eqn:E.
  { apply Qeq_bool_iff in E. lra. }
  rewrite Z.max_l by lia. apply Qred_correct.
Qed.

Lemma scaled_back (x : Q) (e : Z) : (x / 2 ^ e * 2 ^ e == x)%Q.
Proof.
  pose proof (pow2_pos e) as Hp. field. intros E. rewrite E in Hp.
  discriminate.
Qed.

(** One rounding moves a number by at most its [2 ^ -53]th part. *)
Lemma Number_value_error (x : Q) :
  normal x ->
  (x - x * unit_roundoff <= Number_value x
   /\ Number_value x <= x + x * unit_roundoff)%Q.
Proof.
  intros Hn. pose proof (normal_pos x Hn) as Hx.
  rewrite (Number_value_normal x Hn).
  set (e := binade x - 52).
  destruct (round_half_even_near (x / 2 ^ e)) as [Hlo Hhi].
  pose proof (pow2_pos e) as Hp.
  pose proof (scaled_back x e) as Hback.
  destruct (binade_spec x Hx) as [Hb _].
  assert (He : (2 ^ e == 2 ^ binade x * (2 * unit_roundoff))%Q).
  { unfold e. replace (binade x - 52) with (binade x + -52) by lia.
    rewrite pow2_plus. apply Qmult_comp; reflexivity. }
  apply (Qmult_le_compat_r _ _ (2 ^ e)) in Hlo; [|lra].
  apply (Qmult_le_compat_r _ _ (2 ^ e)) in Hhi; [|lra].
  assert (Hu : (0 < unit_roundoff)%Q) by reflexivity.
  assert (Hbu : (2 ^ binade x * unit_roundoff <= x * unit_roundoff)%Q)
    by (apply Qmult_le_compat_r; lra).
  set (m := (inject_Z (round_half_even (x / 2 ^ e)) * 2 ^ e)%Q) in *.
  set (q := (2 ^ binade x)%Q) in *. set (p := (2 ^ e)%Q) in *.
  set (y := (x / p)%Q) in *. clearbody y p q m.
  assert (E1 : ((y - (1 # 2)) * p == x - q * unit_roundoff)%Q)
    by (rewrite <- Hback, He; ring).
  assert (E2 : ((y + (1 # 2)) * p == x + q * unit_roundoff)%Q)
    by (rewrite <- Hback, He; ring).
  rewrite E1 in Hlo. rewrite E2 in Hhi. split; lra.
Qed.

(** A rounded number stays in its binade, ends included. *)
Lemma Number_value_binade (x : Q) :
  normal x ->
  (2 ^ binade x <= Number_value x /\ Number_value x <= 2 ^ (binade x + 1))%Q.
Proof.
  intros Hn. pose proof (normal_pos x Hn) as Hx.
  rewrite (Number_value_normal x Hn).
  set (e := binade x - 52).
  destruct (binade_spec x Hx) as [Hb1 Hb2].
  pose proof (pow2_pos e) as Hp.
  assert (E52 : (2 ^ binade x == inject_Z (2 ^ 52) * 2 ^ e)%Q).
  { unfold e. replace (binade x) with (52 + (binade x - 52)) at 1 by lia.
    rewrite pow2_plus. rewrite <- (pow2_inject 52) by lia. reflexivity. }
  assert (E53 : (2 ^ (binade x + 1) == inject_Z (2 ^ 53) * 2 ^ e)%Q).
  { unfold e. replace (binade x + 1) with (53 + (binade x - 52)) by lia.
    rewrite pow2_plus. rewrite <- (pow2_inject 53) by lia. reflexivity. }
  split.
  - rewrite E52. apply Qmult_le_compat_r; [|lra].
    rewrite <- Zle_Qle. apply round_half_even_ge.
    apply Qle_shift_div_l; [exact Hp|]. rewrite <- E52. exact Hb1.
  - rewrite E53. apply Qmult_le_compat_r; [|lra].
    rewrite <- Zle_Qle. apply round_half_even_le.
    apply Qle_shift_div_r; [exact Hp|]. rewrite <- E53. lra.
Qed.

Lemma Number_value_normal_stays (x : Q) : normal x -> normal (Number_value x).
Proof.
  intros Hn. destruct (Number_value_binade x Hn) as [H _].
  pose proof (pow2_le (-1022) (binade x) (binade_ge x (-1022) Hn)).
  unfold normal in *. lra.
Qed.

(** Rounding keeps the order. *)
Lemma Number_value_mono (x y : Q) :
  normal x -> (x <= y)%Q -> (Number_value x <= Number_value y)%Q.
Proof.
  intros Hx Hxy. pose proof (normal_pos x Hx) as Hx0.
  assert (Hy : normal y) by (unfold normal in *; lra).
  pose proof (binade_mono x y Hx0 Hxy) as Hb.
  destruct (Z.eq_dec (binade x) (binade y)) as [Heq|Hne].
  - rewrite (Number_value_normal x Hx), (Number_value_normal y Hy), Heq.
    pose proof (pow2_pos (binade y - 52)) as Hp.
    apply Qmult_le_compat_r; [|lra].
    rewrite <- Zle_Qle. apply round_half_even_mono.
    apply Qmult_le_compat_r; [exact Hxy|].
    apply Qlt_le_weak, Qinv_lt_0_compat, Hp.
  - destruct (Number_value_binade x Hx) as [_ Hx2].
    destruct (Number_value_binade y Hy) as [Hy1 _].
    pose proof (pow2_le (binade x + 1) (binade y) ltac:(lia)). lra.
Qed.

Lemma Number_value_nonneg (x : Q) : (0 <= x)%Q -> (0 <= Number_value x)%Q.
Proof.
  intros Hx. unfold Number_value. destruct (Qeq_bool x 0); [discriminate|].
  rewrite Qred_correct.
  set (e := Z.max (binade x - 52) (-1074)). pose proof (pow2_pos e) as Hp.
  apply Qmult_le_0_compat; [|lra].
  rewrite <- (Zle_Qle 0). apply round_half_even_ge.
  apply Qle_shift_div_l; [exact Hp|].
  change (inject_Z 0) with 0%Q. rewrite Qmult_0_l. exact Hx.
Qed.

Lemma Number_value_zero (x : Q) : (x == 0)%Q -> Number_value x = 0%Q.
Proof.
  intros H. unfold Number_value. apply Qeq_bool_iff in H. rewrite H.
  reflexivity.
Qed.

Lemma normal_one : normal 1.
Proof. unfold normal. apply (pow2_le (-1022) 0). lia. Qed.

Lemma normal_above (x y : Q) : normal x -> (x <= y)%Q -> normal y.
Proof. unfold normal. intros. lra. Qed.

(** The estimate of a total from a sample of 50: the quotient and the
    product are rounded, and the result is still an integer nearest to
    the exact product, as long as that product is below [2 ^ 51 / 50]. *)
Lemma sampled_estimate_near (s n : Z) :
  0 <= s -> 0 < n -> s * n <= 2 ^ 51 ->
  let exact := (inject_Z s / 50 * inject_Z n)%Q in
  let r := Math_round (Number_mul (Number_div (inject_Z s) 50) (inject_Z n)) in
  (exact - (1 # 2) <= inject_Z r /\ inject_Z r <= exact + (1 # 2))%Q.
Proof.
  intros Hs Hn Hsn exact r.
  assert (HnQ : (1 <= inject_Z n)%Q) by (rewrite <- (Zle_Qle 1); lia).
  destruct (Z.eq_dec s 0) as [->|Hs0].
  { subst exact r. unfold Number_mul, Number_div.
    rewrite (Number_value_zero (inject_Z 0 / 50)) by reflexivity.
    rewrite (Number_value_zero (0 * inject_Z n)) by ring.
    vm_compute. split; discriminate. }
  assert (HsQ : (1 <= inject_Z s)%Q) by (rewrite <- (Zle_Qle 1); lia).
  set (x0 := (inject_Z s / 50)%Q).
  assert (Hx0 : (1 # 50 <= x0)%Q).
  { unfold x0. apply Qle_shift_div_l; [reflexivity|]. lra. }
  assert (Hn0 : normal x0).
  { apply (normal_above (1 # 50)); [|exact Hx0].
    unfold normal. apply Qlt_le_weak. reflexivity. }
  set (a := Number_value x0).
  destruct (Number_value_error x0 Hn0) as [Ha1 Ha2]. fold a in Ha1, Ha2.
  pose proof (Number_value_normal_stays x0 Hn0) as Hna. fold a in Hna.
  pose proof (normal_pos a Hna) as Hapos.
  set (N := inject_Z n) in *.
  assert (Hny : normal (a * N)).
  { apply (normal_above a); [exact Hna|].
    rewrite <- (Qmult_1_r a) at 1. apply Qmult_le_l; lra. }
  set (p := Number_value (a * N)).
  destruct (Number_value_error (a * N) Hny) as [Hp1 Hp2]. fold p in Hp1, Hp2.
  set (u := unit_roundoff) in *.
  assert (Hu0 : (0 < u)%Q) by reflexivity.
  assert (Hu1 : (u <= 1)%Q) by (apply Qlt_le_weak; reflexivity).
  assert (Hexact : (exact == x0 * N)%Q) by reflexivity.
  (* the first rounding, carried through the product *)
  assert (Hy1 : (exact - exact * u <= a * N)%Q).
  { rewrite Hexact.
    apply (Qmult_le_compat_r _ _ N) in Ha1; [|lra]. lra. }
  assert (Hy2 : (a * N <= exact + exact * u)%Q).
  { rewrite Hexact.
    apply (Qmult_le_compat_r _ _ N) in Ha2; [|lra]. lra. }
  assert (Hex0 : (0 <= exact)%Q).
  { rewrite Hexact. apply Qmult_le_0_compat; lra. }
  set (t := (exact * u)%Q) in *.
  assert (Ht0 : (0 <= t)%Q) by (apply Qmult_le_0_compat; lra).
  assert (Htu : (t * u <= t)%Q).
  { pose proof (Qmult_le_compat_r u 1 t Hu1 Ht0). lra. }
  assert (Hyu : (a * N * u <= t + t * u)%Q).
  { pose proof (Qmult_le_compat_r _ _ u Hy2 (Qlt_le_weak _ _ Hu0)) as H.
    assert (E2 : ((exact + t) * u == t + t * u)%Q) by (unfold t; ring).
    rewrite E2 in H. exact H. }
  (* the size of the exact product *)
  assert (Hbound : (exact <= inject_Z (2 ^ 51) / 50)%Q).
  { unfold exact, N.
    assert (E : (inject_Z s / 50 * inject_Z n == inject_Z (s * n) / 50)%Q)
      by (rewrite inject_Z_mult; field).
    rewrite E. apply Qmult_le_compat_r; [|discriminate].
    rewrite <- Zle_Qle. exact Hsn. }
  assert (Ht : (t <= 1 # 200)%Q).
  { unfold t. apply (Qmult_le_compat_r _ _ u) in Hbound; [|lra].
    assert (E : (inject_Z (2 ^ 51) / 50 * u == 1 # 200)%Q) by reflexivity.
    lra. }
  assert (Hnear : (exact - (3 # 200) <= p /\ p <= exact + (3 # 200))%Q)
    by (split; lra).
  (* the rounding of the product to an integer *)
  destruct (Qfloor_bounds (p + (1 # 2))) as [Hr1 Hr2].
  fold (Math_round p) in Hr1, Hr2.
  change (Math_round p) with r in Hr1, Hr2.
  assert (E : (exact == inject_Z (s * n) / 50)%Q)
    by (unfold exact, N; rewrite inject_Z_mult; field).
  set (K := s * n) in *.
  assert (HZ1 : 200 * r <= 4 * K + 103).
  { rewrite Zle_Qle, inject_Z_plus, !inject_Z_mult.
    change (inject_Z 200) with 200%Q. change (inject_Z 4) with 4%Q.
    change (inject_Z 103) with 103%Q.
    assert (E' : (inject_Z K == 50 * exact)%Q) by (rewrite E; field).
    lra. }
  assert (HZ2 : 4 * K < 200 * r + 103).
  { rewrite Zlt_Qlt, inject_Z_plus, !inject_Z_mult.
    change (inject_Z 200) with 200%Q. change (inject_Z 4) with 4%Q.
    change (inject_Z 103) with 103%Q.
    assert (E' : (inject_Z K == 50 * exact)%Q) by (rewrite E; field).
    lra. }
  assert (HZ1' : 50 * r <= K + 25) by (clear - HZ1; clearbody K r; lia).
  assert (HZ2' : K <= 50 * r + 25) by (clear - HZ2; clearbody K r; lia).
  rewrite Zle_Qle, inject_Z_plus, inject_Z_mult in HZ1', HZ2'.
  change (inject_Z 50) with 50%Q in *. change (inject_Z 25) with 25%Q in *.
  assert (E' : (inject_Z K == 50 * exact)%Q) by (rewrite E; field).
  split; lra.
Qed.

Lemma Math_round_mono (p q : Q) : (p <= q)%Q -> Math_round p <= Math_round q.
Proof.
  intros H. unfold Math_round. apply Qfloor_resp_le. lra.
Qed.

Lemma Number_mul_count_nonneg (c : Z) (f : Q) :
  0 <= c -> (0 <= f)%Q -> (0 <= Number_mul (inject_Z c) f)%Q.
Proof.
  intros Hc Hf. apply Number_value_nonneg, Qmult_le_0_compat; [|exact Hf].
  rewrite <- (Zle_Qle 0). exact Hc.
Qed.

(** A count scaled by a Number keeps its sign, and two counts scaled by
    the same Number keep their order. *)
Lemma scaled_counts_ordered (t p : Z) (f : Q) :
  0 <= t <= p -> normal f ->
  0 <= Math_round (Number_mul (inject_Z t) f)
  <= Math_round (Number_mul (inject_Z p) f).
Proof.
  intros [Ht Htp] Hf. pose proof (normal_pos f Hf) as Hf0. split.
  - apply Math_round_nonneg, Number_mul_count_nonneg; [exact Ht|lra].
  - apply Math_round_mono. unfold Number_mul.
    destruct (Z.eq_dec t 0) as [->|Hne].
    + rewrite (Number_value_zero (inject_Z 0 * f)) by ring.
      apply (Number_mul_count_nonneg p f); [lia|lra].
    + assert (HtQ : (1 <= inject_Z t)%Q) by (rewrite <- (Zle_Qle 1); lia).
      apply Number_value_mono.
      * apply (normal_above f); [exact Hf|].
        pose proof (Qmult_le_compat_r 1 (inject_Z t) f HtQ). lra.
      * apply Qmult_le_compat_r; [|lra]. rewrite <- Zle_Qle. exact Htp.
Qed.

(** The quotient of two counts, the first the larger, is a Number of at
    least 1. *)
Lemma Number_div_counts_normal (n d : Z) :
  0 < d <= n -> normal (Number_div (inject_Z n) (inject_Z d)).
Proof.
  intros [Hd Hn]. unfold Number_div.
  apply Number_value_normal_stays, (normal_above 1); [apply normal_one|].
  apply Qle_shift_div_l; [rewrite <- (Zlt_Qlt 0); exact Hd|].
  rewrite Qmult_1_l, <- Zle_Qle. exact Hn.
Qed.

(** ** The partition count of the overview, continued *)

(** The four cases of the partition count, and its sign. *)
Lemma count_partitions_cases adm (topics : list jsstring) (w : World) :
  exists n,
    fst (count_partitions adm topics w) = Ok n
    /\ 0 <= n
    /\ (topics = [] -> n = 0)
    /\ (forall tms,
          topics <> [] -> (List.length topics <= 50)%nat ->
          KafkaJS.fetchTopicMetadata adm topics = Ok tms ->
          n = Z.of_nat (total_partitions tms))
    /\ (forall tms,
          (50 < List.length topics)%nat ->
          KafkaJS.fetchTopicMetadata adm (take 50 topics) = Ok tms ->
          n = Math_round
                (Number_mul
                   (Number_div (inject_Z (Z.of_nat (total_partitions tms))) 50)
                   (inject_Z (Z.of_nat (List.length topics)))))
    /\ (forall e,
          topics <> [] ->
          KafkaJS.fetchTopicMetadata adm (take 50 topics) = Throw e ->
          n = Z.of_nat (List.length topics) * 3).
Proof.
  unfold count_partitions. unfold_M.
  destruct (0 <? array_length (slice0 50 topics)) eqn:Hpos.
  - (* a sample is fetched *)
    assert (Hne : topics <> []).
    { intros ->. discriminate. }
    apply Z.ltb_lt in Hpos.
    destruct (KafkaJS.fetchTopicMetadata adm (slice0 50 topics))
      as [tms|e] eqn:Hfetch; cbv beta iota.
    + rewrite sum_partitions_total.
      destruct (50 <? array_length topics) eqn:Hbig.
      * (* more than 50 topics: the sample is scaled *)
        apply Z.ltb_lt in Hbig. unfold array_length in Hbig.
        rewrite slice0_length by lia.
        eexists. split; [reflexivity|]. repeat split.
        -- apply Math_round_nonneg, Number_value_nonneg.
           apply Qmult_le_0_compat.
           ++ apply Number_value_nonneg.
              apply Qle_shift_div_l; [reflexivity|].
              rewrite Qmult_0_l. rewrite <- (Zle_Qle 0). lia.
           ++ rewrite <- (Zle_Qle 0). unfold array_length. lia.
        -- intros ->. contradiction.
        -- intros tms' _ Hle. lia.
        -- intros tms' _ Hf. unfold slice0 in Hfetch.
           rewrite Hf in Hfetch. injection Hfetch as ->. reflexivity.
        -- intros e _ Hf. unfold slice0 in Hfetch. congruence.
      * (* at most 50 topics: the count is exact *)
        apply Z.ltb_ge in Hbig. unfold array_length in Hbig.
        rewrite slice0_all in Hfetch by lia.
        eexists. split; [reflexivity|]. repeat split.
        -- lia.
        -- intros ->. contradiction.
        -- intros tms' _ _ Hf. congruence.
        -- intros tms' Hgt. lia.
        -- intros e _ Hf. rewrite take_ge in Hf by lia. congruence.
    + (* the fetch failed: three partitions per topic *)
      eexists. split; [reflexivity|]. unfold array_length. repeat split.
      * lia.
      * intros ->. contradiction.
      * intros tms' _ Hle Hf. rewrite slice0_all in Hfetch by lia. congruence.
      * intros tms' _ Hf. unfold slice0 in Hfetch. congruence.
  - (* no topic: nothing is fetched *)
    assert (Hnil : topics = []).
    { destruct topics; [reflexivity|]. discriminate. }
    subst topics. simpl. eexists. split; [reflexivity|].
    repeat split; intros; simpl in *; solve [lia | contradiction].
Qed.

(** C7, as the code has it.  On a connected singleton whose
    [describeCluster] and [listTopics] succeed, [getClusterOverview()]
    returns an overview whose [partitionsCount]
    - is the sum of the partition counts of all topics when there are at
      most 50 topics (0 when there is none);
    - is, when there are more than 50, [Math.round] of the product that
      the code takes in doubles: the sum over the metadata of the first
      50 topics, divided by 50, times the number of topics.  As long as
      the sum times the number of topics is at most [2 ^ 51], this is an
      integer nearest to the exact product [sum / 50 * topicCount]: it
      differs from it by a half at most;
    - is [topicCount * 3] when the metadata fetch of the sample fails;
    - is in every case non-negative. *)
Theorem overview_partitionsCount_sampling
    (w : World) adm metadata (topics : list jsstring) :
  admin (this w) = Some adm ->
  isConnected (this w) = true ->
  KafkaJS.describeCluster adm = Ok metadata ->
  KafkaJS.listTopics adm = Ok topics ->
  exists ov w',
    getClusterOverview w = (Ok ov, w')
    /\ 0 <= ClusterOverview.partitionsCount ov
    /\ (topics = [] -> ClusterOverview.partitionsCount ov = 0)
    /\ (forall tms,
          topics <> [] -> (List.length topics <= 50)%nat ->
          KafkaJS.fetchTopicMetadata adm topics = Ok tms ->
          ClusterOverview.partitionsCount ov = Z.of_nat (total_partitions tms))
    /\ (forall tms,
          (50 < List.length topics)%nat ->
          KafkaJS.fetchTopicMetadata adm (take 50 topics) = Ok tms ->
          let sum := Z.of_nat (total_partitions tms) in
          let topicCount := Z.of_nat (List.length topics) in
          ClusterOverview.partitionsCount ov
          = Math_round (Number_mul (Number_div (inject_Z sum) 50)
                                   (inject_Z topicCount))
          /\ (sum * topicCount <= 2 ^ 51 ->
              (inject_Z sum / 50 * inject_Z topicCount - (1 # 2)
               <= inject_Z (ClusterOverview.partitionsCount ov))%Q
              /\ (inject_Z (ClusterOverview.partitionsCount ov)
                  <= inject_Z sum / 50 * inject_Z topicCount + (1 # 2))%Q))
    /\ (forall e,
          topics <> [] ->
          KafkaJS.fetchTopicMetadata adm (take 50 topics) = Throw e ->
          ClusterOverview.partitionsCount ov = Z.of_nat (List.length topics) * 3).
Proof.
  intros Ha Hc Hd Hl.
  destruct (getClusterOverview_returns w adm metadata topics Ha Hc Hd Hl)
    as (ov & w' & Hov).
  exists ov, w'. split; [exact Hov|].
  destruct (getClusterOverview_inv w w' ov Hov)
    as (adm' & metadata' & topics' & w1 & Ha' & _ & Hd' & Hl' & _ & Hn).
  assert (adm' = adm) by congruence. subst adm'.
  assert (topics' = topics) by congruence. subst topics'.
  destruct (count_partitions_cases adm topics w1)
    as (n & Hn' & Hsign & Hnone & Hexact & Hsampled & Hfailed).
  assert (n = ClusterOverview.partitionsCount ov) by congruence. subst n.
  split; [exact Hsign|]. split; [exact Hnone|]. split; [exact Hexact|].
  split; [|exact Hfailed].
  intros tms Hbig Hf sum topicCount.
  split; [exact (Hsampled tms Hbig Hf)|].
  intros Hsize. rewrite (Hsampled tms Hbig Hf).
  apply (sampled_estimate_near sum topicCount); unfold sum, topicCount; lia.
Qed.

(** C7 on a cluster of sixty topics: the first fifty hold 99 partitions,
    the exact product is [99 / 50 * 60 = 118.8] and the overview reports
    119 (the cluster has 120). *)
Lemma overview_partitionsCount_sampling_witness :
  exists ov w',
    getClusterOverview (Sample.connected Sample.sixty_topics) = (Ok ov, w')
    /\ ClusterOverview.partitionsCount ov = 119
    /\ ((594 # 5) - (1 # 2) <= inject_Z (ClusterOverview.partitionsCount ov))%Q
    /\ (inject_Z (ClusterOverview.partitionsCount ov) <= (594 # 5) + (1 # 2))%Q.
Proof.
  destruct (overview_partitionsCount_sampling
              (Sample.connected Sample.sixty_topics) Sample.sixty_topics
              {| KafkaJS.cm_brokers := [Sample.broker 1];
                 KafkaJS.controller := Some 1;
                 KafkaJS.clusterId := js "sample" |}
              (List.map KafkaJS.tm_name (List.map Sample.numbered (seq 0 60)))
              eq_refl eq_refl eq_refl eq_refl)
    as (ov & w' & Hov & _ & _ & _ & Hsampled & _).
  exists ov, w'. split; [exact Hov|].
  destruct (Hsampled (List.map Sample.numbered (seq 0 50)))
    as [Hvalue Hnear].
  - vm_compute. lia.
  - vm_compute. reflexivity.
  - split; [rewrite Hvalue; vm_compute; reflexivity|].
    destruct Hnear as [Hlo Hhi]; [vm_compute; discriminate|].
    assert (E : (inject_Z (Z.of_nat (total_partitions
                                       (List.map Sample.numbered (seq 0 50))))
                 / 50
                 * inject_Z (Z.of_nat
                      (List.length
                         (List.map KafkaJS.tm_name
                            (List.map Sample.numbered (seq 0 60)))))
                 == 594 # 5)%Q) by (vm_compute; reflexivity).
    rewrite E in Hlo, Hhi. split; assumption.
Defined.

(** C7 as stated fails where the exact product ends in a half.  On
    [fifty_five_topics] the product [115 / 50 * 55] is 126.5, of which
    [Math.round] is 127; but 2.3 is not a double, the product of the
    doubles falls just short of 126.5, and the overview reports 126.  No
    rule for the halves gives the code's result: on [fifty_one_topics]
    the product [75 / 50 * 51 = 76.5] is exact in doubles and the
    overview reports 77, the odd neighbour. *)
Lemma overview_partitionsCount_half_way :
  (exists x,
      exact_estimate fifty_five_topics = Some x
      /\ (x == 253 # 2)%Q
      /\ Math_round x = 127
      /\ reported_partitions fifty_five_topics = Some 126
      /\ reported_partitions fifty_five_topics <> Some (Math_round x))
  /\ (exists x,
         exact_estimate fifty_one_topics = Some x
         /\ (x == 153 # 2)%Q
         /\ round_half_even x = 76
         /\ reported_partitions fifty_one_topics = Some 77
         /\ reported_partitions fifty_one_topics <> Some (round_half_even x)).
Proof.
  split; eexists; (split; [vm_compute; reflexivity|]);
    repeat split; try (vm_compute; reflexivity);
    vm_compute; discriminate.
Qed.

(** With at most fifty topics the count is exact, and a failed fetch gives
    three partitions per topic. *)
Example overview_partitionsCount_exact :
  fst (count_partitions Sample.two_brokers [js "orders"; js "unassigned"]
                        (Sample.connected Sample.two_brokers))
  = Ok 3.
Proof. vm_compute. reflexivity. Qed.

Example overview_partitionsCount_fallback :
  let failing :=
    {| KafkaJS.connect := Ok tt;
       KafkaJS.disconnect := Ok tt;
       KafkaJS.describeCluster := KafkaJS.describeCluster Sample.two_brokers;
       KafkaJS.listTopics := Ok [js "orders"; js "unassigned"];
       KafkaJS.fetchTopicMetadata := fun _ => Throw (JsError (js "timed out"));
       KafkaJS.describeConfigs := fun _ => Ok [];
       KafkaJS.createTopics := fun _ => Ok true;
       KafkaJS.deleteTopics := fun _ => Ok tt;
       KafkaJS.alterConfigs := fun _ => Ok tt |} in
  ClusterOverview.partitionsCount
  <$> (match fst (getClusterOverview (Sample.connected failing)) with
       | Ok ov => Some ov
       | Throw _ => None
       end)
  = Some 6.
Proof. vm_compute. reflexivity. Qed.

(** ** The broker list *)

Lemma random_below_returns n w : exists z, random_below n w = (Ok z, tick w).
Proof. unfold random_below. unfold_M. eauto. Qed.

Lemma to_Broker_returns metadata counts bm w :
  exists b w', to_Broker metadata counts bm w = (Ok b, w')
               /\ built_from metadata b bm.
Proof.
  unfold to_Broker, random_below. unfold_M. simpl.
  eexists _, _. split; [reflexivity|]. split; reflexivity.
Qed.

Lemma map_to_Broker_returns metadata counts bms w :
  exists bs w', mapM (to_Broker metadata counts) bms w = (Ok bs, w')
                /\ Forall2 (built_from metadata) bs bms.
Proof.
  revert w. induction bms as [|bm bms IH]; intros w; simpl.
  - eexists _, _. split; [reflexivity|]. constructor.
  - destruct (to_Broker_returns metadata counts bm w) as (b & w1 & Hb & Hrel).
    destruct (IH w1) as (bs & w2 & Hbs & Hrels).
    exists (b :: bs), w2. unfold mbind, M_bind. rewrite Hb, Hbs.
    split; [reflexivity|]. constructor; assumption.
Qed.

(** The topic distribution never throws: a failure leaves it empty. *)
Lemma broker_topic_counts_returns adm metadata w :
  exists counts w', broker_topic_counts adm metadata w = (Ok counts, w').
Proof.
  unfold broker_topic_counts. unfold_M. destruct_results; eauto.
Qed.

Lemma controllers_length metadata bs bms :
  Forall2 (built_from metadata) bs bms ->
  List.length (controllers bs)
  = List.length
      (List.filter
         (fun bm => bool_decide (Some (KafkaJS.nodeId bm) = KafkaJS.controller metadata))
         bms).
Proof.
  induction 1 as [|b bm bs bms [_ Hc] _ IH]; simpl; [reflexivity|].
  rewrite Hc. destruct (bool_decide _); simpl; congruence.
Qed.

Lemma filter_eq_NoDup_one (c : Z) (ids : list Z) :
  NoDup ids -> c ∈ ids ->
  List.length (List.filter (fun x => bool_decide (x = c)) ids) = 1%nat.
Proof.
  induction 1 as [|x ids Hx Hnd IH]; intros Hin.
  - inversion Hin.
  - simpl. destruct (bool_decide_reflect (x = c)) as [->|Hne]; simpl.
    + f_equal. apply length_zero_iff_nil.
      clear IH Hin Hnd. induction ids as [|y ids IH]; simpl; [reflexivity|].
      destruct (bool_decide_reflect (y = c)) as [->|_].
      * exfalso. apply Hx. left.
      * apply IH. intros Hc. apply Hx. right. exact Hc.
    + apply IH. inversion Hin; subst; [contradiction|assumption].
Qed.

Lemma controller_nodes_length metadata :
  List.length (controller_nodes metadata)
  = match KafkaJS.controller metadata with
    | None => 0%nat
    | Some c =>
        List.length
          (List.filter (fun x => bool_decide (x = c))
                       (List.map KafkaJS.nodeId (KafkaJS.cm_brokers metadata)))
    end.
Proof.
  unfold controller_nodes.
  destruct (KafkaJS.controller metadata) as [c|].
  - induction (KafkaJS.cm_brokers metadata) as [|bm bms IH]; simpl;
      [reflexivity|].
    destruct (bool_decide_reflect (Some (KafkaJS.nodeId bm) = Some c)) as [E|N];
      destruct (bool_decide_reflect (KafkaJS.nodeId bm = c)) as [E'|N'];
      simpl; try congruence.
  - induction (KafkaJS.cm_brokers metadata) as [|bm bms IH]; simpl;
      [reflexivity|].
    destruct (bool_decide_reflect (Some (KafkaJS.nodeId bm) = None));
      [discriminate|exact IH].
Qed.

(** C8, as the code has it.  On a connected singleton whose
    [describeCluster] succeeds, [getBrokers()] returns one broker per
    reported broker, and a broker has [isController = true] exactly when
    its id is the controller id [describeCluster] reported.  So the number
    of controllers in the list is the number of reported brokers with that
    id: none when the reported controller is null, exactly one when the
    broker ids are distinct and the reported controller is one of them. *)
Theorem brokers_controller_flag_follows_metadata
    (w : World) adm (metadata : KafkaJS.ClusterMetadata) :
  admin (this w) = Some adm ->
  isConnected (this w) = true ->
  KafkaJS.describeCluster adm = Ok metadata ->
  exists bs w',
    getBrokers w = (Ok bs, w')
    /\ Forall2 (built_from metadata) bs (KafkaJS.cm_brokers metadata)
    /\ List.length (controllers bs) = List.length (controller_nodes metadata)
    /\ (KafkaJS.controller metadata = None -> controllers bs = [])
    /\ (forall c,
          KafkaJS.controller metadata = Some c ->
          NoDup (List.map KafkaJS.nodeId (KafkaJS.cm_brokers metadata)) ->
          c ∈ List.map KafkaJS.nodeId (KafkaJS.cm_brokers metadata) ->
          List.length (controllers bs) = 1%nat).
Proof.
  intros Ha Hc Hd.
  unfold getBrokers, require_connection. unfold_M. rewrite Ha, Hc. simpl.
  rewrite Hd. simpl.
  match goal with
  | |- context [broker_topic_counts adm metadata ?w0] =>
      destruct (broker_topic_counts_returns adm metadata w0)
        as (counts & w1 & ->)
  end.
  simpl.
  destruct (map_to_Broker_returns metadata counts (KafkaJS.cm_brokers metadata) w1)
    as (bs & w2 & -> & Hrel).
  simpl. exists bs, w2. split; [reflexivity|]. split; [exact Hrel|].
  pose proof (controllers_length _ _ _ Hrel) as Hlen.
  fold (controller_nodes metadata) in Hlen.
  split; [exact Hlen|]. split.
  - intros Hnone. apply length_zero_iff_nil.
    rewrite Hlen, controller_nodes_length, Hnone. reflexivity.
  - intros c Hsome Hnd Hin.
    rewrite Hlen, controller_nodes_length, Hsome.
    apply filter_eq_NoDup_one; assumption.
Qed.

(** C8 on a cluster of two brokers whose controller is broker 1. *)
Lemma brokers_controller_flag_follows_metadata_witness :
  exists bs w',
    getBrokers (Sample.connected Sample.two_brokers) = (Ok bs, w')
    /\ List.length (controllers bs) = 1%nat.
Proof.
  destruct (brokers_controller_flag_follows_metadata
              (Sample.connected Sample.two_brokers) Sample.two_brokers
              {| KafkaJS.cm_brokers := [Sample.broker 1; Sample.broker 2];
                 KafkaJS.controller := Some 1;
                 KafkaJS.clusterId := js "sample" |}
              eq_refl eq_refl eq_refl)
    as (bs & w' & Hbs & _ & _ & _ & Hone).
  exists bs, w'. split; [exact Hbs|].
  apply (Hone 1); [reflexivity| |].
  - simpl. apply NoDup_cons. split; [|apply NoDup_singleton].
    intros Hin. apply list_elem_of_singleton in Hin. discriminate.
  - simpl. left.
Defined.

(** C8 as stated fails: when [describeCluster] reports no controller
    ([controller: null]), no returned broker is marked. *)
Lemma brokers_without_controller :
  exists bs w',
    getBrokers (Sample.connected (Sample.cluster [1; 2] None [])) = (Ok bs, w')
    /\ List.length bs = 2%nat
    /\ List.length (controllers bs) <> 1%nat.
Proof.
  eexists _, _. split; [vm_compute; reflexivity|].
  split; [reflexivity|]. simpl. discriminate.
Qed.

(** ** The replication factor of a topic *)

Lemma replicationFactor_of_amended (tm : KafkaJS.ITopicMetadata) :
  replicationFactor_of tm = replicas_or_one tm.
Proof.
  unfold replicationFactor_of, replicas_or_one, first_partition_replicas,
    array_length.
  destruct (KafkaJS.tm_partitions tm) as [|p ps]; simpl; [reflexivity|].
  destruct (List.length (KafkaJS.replicas p)) as [|n]; [reflexivity|].
  destruct (Z.eqb_spec (Z.of_nat (S n)) 0); [lia|reflexivity].
Qed.

Lemma to_KafkaTopic_inv config tm w t w' :
  to_KafkaTopic config tm w = (Ok t, w') -> describes t tm.
Proof.
  unfold to_KafkaTopic, random_below. unfold_M. simpl.
  intros H. injection H as <- _. split; [reflexivity|].
  apply replicationFactor_of_amended.
Qed.

Lemma map_to_KafkaTopic_inv (config_of : KafkaJS.ITopicMetadata -> ConfigValue)
    tms w ts w' :
  mapM (fun tm => to_KafkaTopic (config_of tm) tm) tms w = (Ok ts, w') ->
  Forall2 describes ts tms.
Proof.
  revert w ts w'. induction tms as [|tm tms IH]; intros w ts w'; simpl.
  - unfold mret, M_ret. intros H. injection H as <- _. constructor.
  - unfold mbind, M_bind.
    destruct (to_KafkaTopic (config_of tm) tm w) as [[t|e] w1] eqn:Ht;
      [|discriminate].
    destruct (mapM _ tms w1) as [[ts'|e] w2] eqn:Hts; [|discriminate].
    unfold mret, M_ret. intros H. injection H as <- _.
    constructor; [eapply to_KafkaTopic_inv, Ht | eapply IH, Hts].
Qed.

(** C9, as the code has it.  Every topic object returned by [getTopics()]
    or [getTopicDetails()] is built from a topic of the metadata fetched
    from the cluster, and its [replicationFactor] is the number of
    replicas of that topic's first partition when the partition exists
    and lists at least one replica, and 1 otherwise. *)
Theorem topic_replicationFactor_first_partition_or_one (w w' : World) :
  (forall ts,
      getTopics w = (Ok ts, w') ->
      ts = []
      \/ exists adm topicNames tms,
           admin (this w) = Some adm
           /\ KafkaJS.listTopics adm = Ok topicNames
           /\ KafkaJS.fetchTopicMetadata adm topicNames = Ok tms
           /\ Forall2 describes ts tms)
  /\ (forall topicName t,
        getTopicDetails topicName w = (Ok t, w') ->
        exists adm tm rest,
          admin (this w) = Some adm
          /\ KafkaJS.fetchTopicMetadata adm [topicName] = Ok (tm :: rest)
          /\ describes t tm).
Proof.
  split.
  - intros ts. unfold getTopics, require_connection. unfold_M.
    destruct (admin (this w)) as [adm|] eqn:Ha; cbv beta iota; [|discriminate].
    destruct (isConnected (this w)); cbv beta iota; [|discriminate].
    destruct (KafkaJS.listTopics adm) as [topicNames|e] eqn:Hl; cbv beta iota;
      [|discriminate].
    destruct (array_length topicNames =? 0); cbv beta iota.
    { intros H. injection H as <- _. left. reflexivity. }
    destruct (KafkaJS.fetchTopicMetadata adm topicNames) as [tms|e] eqn:Hf;
      cbv beta iota; [|discriminate].
    match goal with
    | |- context [fetch_topicConfigs adm topicNames ?w0] =>
        destruct (fetch_topicConfigs adm topicNames w0) as [[cfgs|e] w1]
    end; cbv beta iota; [|discriminate].
    match goal with
    | |- context [mapM ?f tms w1] =>
        destruct (mapM f tms w1) as [[ts'|e] w2] eqn:Hm
    end; cbv beta iota; [|discriminate].
    intros H. injection H as <- _. right.
    exists adm, topicNames, tms. do 3 (split; [first [reflexivity|assumption]|]).
    eapply (map_to_KafkaTopic_inv
              (fun tm => topicConfigs_get cfgs (KafkaJS.tm_name tm))), Hm.
  - intros topicName t. unfold getTopicDetails, require_connection. unfold_M.
    destruct (admin (this w)) as [adm|] eqn:Ha; cbv beta iota; [|discriminate].
    destruct (isConnected (this w)); cbv beta iota; [|discriminate].
    destruct (KafkaJS.fetchTopicMetadata adm [topicName]) as [[|tm rest]|e]
      eqn:Hf; cbv beta iota; try discriminate.
    match goal with
    | |- context [fetch_config adm topicName ?w0] =>
        destruct (fetch_config adm topicName w0) as [[cfg|e] w1]
    end; cbv beta iota; [|discriminate].
    destruct (to_KafkaTopic (ConfigObject cfg) tm w1) as [[t'|e] w2] eqn:Ht;
      cbv beta iota;
      [|discriminate].
    intros H. injection H as <- _.
    exists adm, tm, rest. do 2 (split; [first [reflexivity|assumption]|]).
    eapply to_KafkaTopic_inv, Ht.
Qed.

(** C9 on the topic [orders], whose first partition has two replicas. *)
Lemma topic_replicationFactor_first_partition_or_one_witness :
  getTopicDetails (js "orders") (Sample.connected Sample.two_brokers)
  = (Ok Sample.orders_topic,
     after (getTopicDetails (js "orders")) (Sample.connected Sample.two_brokers))
  /\ exists tm rest,
       KafkaJS.fetchTopicMetadata Sample.two_brokers [js "orders"]
       = Ok (tm :: rest)
       /\ describes Sample.orders_topic tm.
Proof.
  assert (Hrun : getTopicDetails (js "orders")
                   (Sample.connected Sample.two_brokers)
                 = (Ok Sample.orders_topic,
                    after (getTopicDetails (js "orders"))
                          (Sample.connected Sample.two_brokers)))
    by (vm_compute; reflexivity).
  split; [exact Hrun|].
  destruct (topic_replicationFactor_first_partition_or_one
              (Sample.connected Sample.two_brokers)
              (after (getTopicDetails (js "orders"))
                     (Sample.connected Sample.two_brokers)))
    as [_ Hdetails].
  destruct (Hdetails _ _ Hrun) as (adm & tm & rest & Ha & Hf & Hd).
  injection Ha as <-. exists tm, rest. split; assumption.
Defined.

(** C9 as stated fails: the first partition of [unassigned] lists no
    replica, and the topic object has [replicationFactor = 1], not 0. *)
Lemma topic_replicationFactor_without_replicas :
  exists t w',
    getTopicDetails (js "unassigned") (Sample.connected Sample.two_brokers)
    = (Ok t, w')
    /\ first_partition_replicas Sample.unassigned = Some 0%nat
    /\ KafkaTopic.replicationFactor t = 1
    /\ Some (KafkaTopic.replicationFactor t)
       <> (Z.of_nat <$> first_partition_replicas Sample.unassigned).
Proof.
  eexists _, _. split; [vm_compute; reflexivity|].
  split; [reflexivity|]. split; [reflexivity|]. simpl. discriminate.
Qed.

(** ** Creating a topic *)

(** C5. On a connected singleton whose [describeCluster] reports fewer
    brokers than [replicationFactor], [createTopic] throws an error for
    every name, partition count and configuration, and the only calls it
    made on the admin client are [listTopics] and [describeCluster]:
    [createTopics] was not attempted. *)
Theorem createTopic_rejects_replication_above_brokers
    (w : World) adm (metadata : KafkaJS.ClusterMetadata)
    (topicName : jsstring) (partitions replicationFactor : Z)
    (config : StringRecord) :
  admin (this w) = Some adm ->
  isConnected (this w) = true ->
  KafkaJS.describeCluster adm = Ok metadata ->
  array_length (KafkaJS.cm_brokers metadata) < replicationFactor ->
  exists message w' made,
    createTopic topicName partitions replicationFactor config w
    = (Throw (JsError message), w')
    /\ calls w' = calls w ++ made
    /\ Forall is_precheck made
    /\ List.filter KafkaJS.is_CreateTopics made = [].
Proof.
  intros Ha Hc Hd Hrf.
  unfold createTopic, require_connection. unfold_M. rewrite Ha, Hc.
  cbv beta iota.
  destruct (bool_decide (topicName = []) || bool_decide (trim topicName = [])).
  { eexists _, _, []. rewrite app_nil_r. repeat split; constructor. }
  destruct (249 <? js_length topicName).
  { eexists _, _, []. rewrite app_nil_r. repeat split; constructor. }
  destruct (negb (validNamePattern_test topicName)).
  { eexists _, _, []. rewrite app_nil_r. repeat split; constructor. }
  destruct (KafkaJS.listTopics adm) as [existingTopics|e]; cbv beta iota.
  2: { eexists _, _, [KafkaJS.CallListTopics].
       repeat split. constructor; [left; reflexivity|constructor]. }
  destruct (array_includes existingTopics topicName).
  { eexists _, _, [KafkaJS.CallListTopics].
    repeat split. constructor; [left; reflexivity|constructor]. }
  rewrite Hd. cbv beta iota.
  apply Z.ltb_lt in Hrf. rewrite Hrf.
  eexists _, _, [KafkaJS.CallListTopics; KafkaJS.CallDescribeCluster].
  split; [reflexivity|]. split.
  { simpl. rewrite <- app_assoc. reflexivity. }
  split; [|reflexivity].
  constructor; [left; reflexivity|].
  constructor; [right; reflexivity|]. constructor.
Qed.

(** C5 on a cluster of two brokers: replication factor 3 is refused after
    the two checks. *)
Lemma createTopic_rejects_replication_above_brokers_witness :
  exists message w' made,
    createTopic (js "payments") 6 3 [] (Sample.connected Sample.two_brokers)
    = (Throw (JsError message), w')
    /\ calls w' = calls (Sample.connected Sample.two_brokers) ++ made
    /\ Forall is_precheck made
    /\ List.filter KafkaJS.is_CreateTopics made = [].
Proof.
  apply (createTopic_rejects_replication_above_brokers
           (Sample.connected Sample.two_brokers) Sample.two_brokers
           {| KafkaJS.cm_brokers := [Sample.broker 1; Sample.broker 2];
              KafkaJS.controller := Some 1;
              KafkaJS.clusterId := js "sample" |}
           (js "payments") 6 3 []);
    [reflexivity | reflexivity | reflexivity | vm_compute; reflexivity].
Defined.

Example createTopic_replication_message :
  fst (createTopic (js "payments") 6 3 [] (Sample.connected Sample.two_brokers))
  = Throw (JsError (js "Failed to create topic: Replication factor 3 cannot exceed broker count 2")).
Proof. vm_compute. reflexivity. Qed.

(** ** The cluster route *)

(** C2, as the code has it.  A GET of [/kafka/cluster] while no connection
    is active answers 401 with [success: false], the error and the message,
    and no overview object; the service is not called and the world is
    unchanged.  The fallback overview (all counts 0, status [unknown]) is
    the [data] of the 503 response, which is given when a connection is
    active and [getClusterOverview()] throws. *)
Theorem cluster_route_not_connected_401_fallback_503 (w : World) :
  (isConnectionActive (this w) = false ->
   ClusterRoute.GET w = (Ok not_connected_response, w))
  /\ (forall e w',
        isConnectionActive (this w) = true ->
        getClusterOverview w = (Throw e, w') ->
        ClusterRoute.GET w
        = (Ok (degraded_response
                 (message_or (js "Failed to fetch cluster information") e)),
           w')).
Proof.
  split.
  - intros Hin. unfold ClusterRoute.GET. unfold_M. rewrite Hin. reflexivity.
  - intros e w' Hact Hov. unfold ClusterRoute.GET. unfold_M.
    rewrite Hact. cbv beta iota. unfold negb. rewrite Hov. reflexivity.
Qed.

(** C2 before any connection: the 401 response, as computed. *)
Lemma cluster_route_not_connected_401_fallback_503_witness :
  ClusterRoute.GET (start (Sample.runtime_of Sample.two_brokers))
  = (Ok not_connected_response, start (Sample.runtime_of Sample.two_brokers)).
Proof.
  apply (cluster_route_not_connected_401_fallback_503
           (start (Sample.runtime_of Sample.two_brokers))).
  reflexivity.
Defined.

(** C2 as stated fails: with no active connection the body of the 401
    response has no [data] key, so it contains no fallback overview. *)
Lemma cluster_route_401_without_overview :
  isConnectionActive (this (start (Sample.runtime_of Sample.two_brokers))) = false
  /\ exists r,
       fst (ClusterRoute.GET (start (Sample.runtime_of Sample.two_brokers))) = Ok r
       /\ ClusterRoute.status r = 401
       /\ ClusterRoute.data (ClusterRoute.body r) = None
       /\ ClusterRoute.data (ClusterRoute.body r)
          <> Some ClusterRoute.fallback_overview.
Proof.
  split; [reflexivity|]. eexists. split; [vm_compute; reflexivity|].
  simpl. repeat split. discriminate.
Qed.

(** The fallback overview reaches the client with status 503. *)
Example cluster_route_503_when_cluster_fails :
  let failing :=
    {| KafkaJS.connect := Ok tt;
       KafkaJS.disconnect := Ok tt;
       KafkaJS.describeCluster := Throw (JsError (js "broker not available"));
       KafkaJS.listTopics := Ok [];
       KafkaJS.fetchTopicMetadata := fun _ => Ok [];
       KafkaJS.describeConfigs := fun _ => Ok [];
       KafkaJS.createTopics := fun _ => Ok true;
       KafkaJS.deleteTopics := fun _ => Ok tt;
       KafkaJS.alterConfigs := fun _ => Ok tt |} in
  fst (ClusterRoute.GET (Sample.connected failing))
  = Ok (degraded_response
          (js "Failed to fetch cluster overview: broker not available")).
Proof. vm_compute. reflexivity. Qed.

(** ** The create-topic route *)

Lemma topic_name_char_not_whitespace (c : N) :
  is_topic_name_char c = true -> is_js_whitespace c = false.
Proof.
  unfold is_topic_name_char, is_js_whitespace. simpl existsb.
  intros H. apply not_true_is_false. intros W.
  rewrite !orb_true_iff, !andb_true_iff, !N.leb_le, !N.eqb_eq in H.
  rewrite !orb_true_iff, !andb_true_iff, !N.leb_le, !N.eqb_eq in W.
  lia.
Qed.

Lemma trimStart_valid (s : jsstring) :
  forallb is_topic_name_char s = true -> trimStart s = s.
Proof.
  destruct s as [|c s]; simpl; [reflexivity|].
  intros H. apply andb_true_iff in H as [Hc _].
  rewrite (topic_name_char_not_whitespace c Hc). reflexivity.
Qed.

(** [trim] leaves a name of the pattern as it is: the service's emptiness
    test does not reject it. *)
Lemma trim_valid (s : jsstring) :
  forallb is_topic_name_char s = true -> trim s = s.
Proof.
  intros H. unfold trim. rewrite (trimStart_valid s H).
  rewrite trimStart_valid; [apply rev_involutive|].
  apply forallb_forall. intros c Hc. apply in_rev in Hc.
  rewrite forallb_forall in H. apply H, Hc.
Qed.

Lemma valid_name_passes_service_checks (s : jsstring) :
  valid_topic_name s ->
  bool_decide (s = []) || bool_decide (trim s = []) = false
  /\ (249 <? js_length s) = false
  /\ negb (validNamePattern_test s) = false.
Proof.
  intros [Hp Hl]. unfold validNamePattern_test in Hp.
  destruct s as [|c s]; [discriminate|].
  rewrite (trim_valid _ Hp). repeat split.
  - apply Z.ltb_ge. exact Hl.
  - unfold validNamePattern_test. rewrite Hp. reflexivity.
Qed.

(** The run of [createTopic] once every check passes: the existence
    check, the broker count, then the one creation RPC. *)
Lemma createTopic_issues_creation (w : World) adm metadata existingTopics
    (topicName : jsstring) (partitions replicationFactor : Z)
    (config : StringRecord) :
  admin (this w) = Some adm ->
  isConnected (this w) = true ->
  valid_topic_name topicName ->
  KafkaJS.listTopics adm = Ok existingTopics ->
  array_includes existingTopics topicName = false ->
  KafkaJS.describeCluster adm = Ok metadata ->
  replicationFactor <= array_length (KafkaJS.cm_brokers metadata) ->
  let req := createTopics_request topicName partitions replicationFactor config in
  createTopic topicName partitions replicationFactor config w
  = (match KafkaJS.createTopics adm req with
     | Ok _ => Ok tt
     | Throw e =>
         Throw (JsError (js "Failed to create topic: "
                         ++ message_or (js "Unknown error") e))
     end,
     log_call (KafkaJS.CallCreateTopics req)
       (log_call KafkaJS.CallDescribeCluster
          (log_call KafkaJS.CallListTopics w))).
Proof.
  intros Ha Hc Hv Hl Hex Hd Hrf req.
  destruct (valid_name_passes_service_checks _ Hv) as (H1 & H2 & H3).
  unfold createTopic, require_connection. unfold_M. rewrite Ha, Hc.
  cbv beta iota. rewrite H1, H2, H3, Hl. cbv beta iota. rewrite Hex, Hd.
  cbv beta iota. apply Z.ltb_ge in Hrf. rewrite Hrf.
  fold req. destruct (KafkaJS.createTopics adm req); reflexivity.
Qed.

(** A name outside the pattern or above the length never reaches the
    cluster from [createTopic] either. *)
Lemma createTopic_invalid_name_no_call (w : World) adm
    (topicName : jsstring) (partitions replicationFactor : Z)
    (config : StringRecord) :
  admin (this w) = Some adm ->
  isConnected (this w) = true ->
  ~ valid_topic_name topicName ->
  exists message,
    createTopic topicName partitions replicationFactor config w
    = (Throw (JsError message), w).
Proof.
  intros Ha Hc Hinv.
  unfold createTopic, require_connection. unfold_M. rewrite Ha, Hc.
  cbv beta iota.
  destruct (bool_decide (topicName = []) || bool_decide (trim topicName = []));
    [eauto|].
  destruct (249 <? js_length topicName) eqn:Hlen; [eauto|].
  destruct (validNamePattern_test topicName) eqn:Hpat; [|simpl; eauto].
  exfalso. apply Hinv. split; [exact Hpat|]. apply Z.ltb_ge. exact Hlen.
Qed.

(** The schema reports a rejected name under the path [name]. *)
Lemma parse_name_rejects (z : ZodPackage) (s : jsstring) :
  ~ valid_topic_name s ->
  exists issue issues,
    Schemas.parse_name z (Some (JString s)) = inr (issue :: issues)
    /\ Schemas.path issue = [js "name"].
Proof.
  intros Hinv. unfold Schemas.parse_name, Schemas.issue_if.
  destruct (js_length s <? 1); simpl; [eauto|].
  destruct (249 <? js_length s) eqn:Hlen; simpl; [eauto|].
  destruct (validNamePattern_test s) eqn:Hpat; simpl; [|eauto].
  exfalso. apply Hinv. split; [exact Hpat|]. apply Z.ltb_ge. exact Hlen.
Qed.

(** The schema accepts a string as a name exactly when it is valid. *)
Lemma parse_name_accepts (z : ZodPackage) (v : option JSON) (s : jsstring) :
  Schemas.parse_name z v = inl s <-> v = Some (JString s) /\ valid_topic_name s.
Proof.
  unfold Schemas.parse_name, Schemas.issue_if, valid_topic_name. split.
  - destruct v as [[]|]; try discriminate.
    destruct (js_length s0 <? 1); simpl; [discriminate|].
    destruct (249 <? js_length s0) eqn:Hlen; simpl; [discriminate|].
    destruct (validNamePattern_test s0) eqn:Hpat; simpl; [|discriminate].
    intros H. injection H as <-. apply Z.ltb_ge in Hlen. auto.
  - intros [-> [Hpat Hlen]].
    assert (Hne : (js_length s <? 1) = false).
    { destruct s; [discriminate|]. apply Z.ltb_ge. unfold js_length.
      simpl List.length. lia. }
    apply Z.ltb_ge in Hlen. rewrite Hne, Hlen, Hpat. reflexivity.
Qed.

(** The integers the schema accepts lie between its bounds. *)
Lemma parse_int_between_accepts z key lo hi lo_message hi_message v n :
  Schemas.parse_int_between z key lo hi lo_message hi_message v = inl n ->
  lo <= n <= hi.
Proof.
  unfold Schemas.parse_int_between, Schemas.issue_if, Schemas.is_integer.
  destruct v as [[]|]; try discriminate.
  destruct (Qeq_bool q (inject_Z (Qfloor q))) eqn:Hint; simpl;
    [|destruct (int_check_aborts z); discriminate].
  destruct (Qle_bool (inject_Z lo) q) eqn:Hlo; simpl; [|discriminate].
  destruct (Qle_bool q (inject_Z hi)) eqn:Hhi; simpl; [|discriminate].
  intros H. injection H as <-.
  apply Qeq_bool_iff in Hint. apply Qle_bool_iff in Hlo, Hhi.
  rewrite Hint in Hlo, Hhi. rewrite <- Zle_Qle in Hlo, Hhi. lia.
Qed.

(** What a body that passes [createTopicFormSchema] guarantees. *)
Lemma safeParse_accepts (z : ZodPackage) (body : JSON)
    (form : Schemas.CreateTopicForm) :
  Schemas.createTopicFormSchema_safeParse z body = inl form ->
  valid_topic_name (Schemas.name form)
  /\ 1 <= Schemas.partitions form <= 1000
  /\ 1 <= Schemas.replicationFactor form <= 10.
Proof.
  unfold Schemas.createTopicFormSchema_safeParse.
  destruct body as [| | | | |fields]; try discriminate.
  destruct (Schemas.parse_name z _) as [n|] eqn:Hn.
  2: { destruct (Schemas.parse_int_between _ _ _ _ _ _ _);
       destruct (Schemas.parse_int_between _ _ _ _ _ _ _);
       destruct (Schemas.parse_config _ _); discriminate. }
  destruct (Schemas.parse_int_between z (js "partitions") _ _ _ _ _)
    as [p|] eqn:Hp.
  2: { destruct (Schemas.parse_int_between _ _ _ _ _ _ _);
       destruct (Schemas.parse_config _ _); discriminate. }
  destruct (Schemas.parse_int_between z (js "replicationFactor") _ _ _ _ _)
    as [r|] eqn:Hr.
  2: { destruct (Schemas.parse_config _ _); discriminate. }
  destruct (Schemas.parse_config _ _) as [c|]; [|discriminate].
  intros H. injection H as <-. simpl.
  apply parse_name_accepts in Hn as [_ Hn].
  apply parse_int_between_accepts in Hp, Hr. auto.
Qed.

(** A body whose [name] is a rejected string fails the schema, and the
    first issue is at the path [name]. *)
Lemma safeParse_rejects_name (z : ZodPackage) fields (s : jsstring) :
  Schemas.get_field (js "name") fields = Some (JString s) ->
  ~ valid_topic_name s ->
  exists issue issues,
    Schemas.createTopicFormSchema_safeParse z (JObject fields)
    = inr (issue :: issues)
    /\ Schemas.path issue = [js "name"].
Proof.
  intros Hget Hinv. unfold Schemas.createTopicFormSchema_safeParse.
  rewrite Hget.
  destruct (parse_name_rejects z s Hinv) as (issue & issues & -> & Hpath).
  simpl Schemas.issues_of. rewrite <- app_comm_cons. eauto.
Qed.

(** C4, as the code has it.
    - While no connection is active, a create-topic request is answered
      401 whatever its body, and the world is unchanged: no admin RPC is
      issued.
    - While a connection is active, a request whose [name] is a string
      outside the pattern [[A-Za-z0-9._-]+] (the empty string included) or
      longer than 249 is answered 400 with a list of violated fields that
      starts with an entry for [name], and the world is unchanged: no
      admin RPC is issued.
    - While a connection is active, a request that passes the schema (so
      its name satisfies the pattern and the length bound) and whose name
      is not among the topics [listTopics] returns, with a replication
      factor not above the broker count [describeCluster] reports, makes
      exactly the calls [listTopics], [describeCluster] and one
      [createTopics] carrying the validated parameters, and is answered
      200 or, if that RPC fails, 422. *)
Theorem create_topic_route_validates_then_creates_once
    (w : World) (request : TopicsRoute.NextRequest) :
  (isConnectionActive (this w) = false ->
   TopicsRoute.POST request w = (Ok create_not_connected, w))
  /\ (isConnectionActive (this w) = true ->
      forall fields name,
        TopicsRoute.json request = Ok (JObject fields) ->
        Schemas.get_field (js "name") fields = Some (JString name) ->
        ~ valid_topic_name name ->
        exists entry entries,
          TopicsRoute.POST request w
          = (Ok (validation_failure (entry :: entries)), w)
          /\ TopicsRoute.field entry = js "name")
  /\ (isConnectionActive (this w) = true ->
      forall body form adm existingTopics metadata,
        TopicsRoute.json request = Ok body ->
        Schemas.createTopicFormSchema_safeParse (zod (runtime w)) body
        = inl form ->
        admin (this w) = Some adm ->
        KafkaJS.listTopics adm = Ok existingTopics ->
        array_includes existingTopics (Schemas.name form) = false ->
        KafkaJS.describeCluster adm = Ok metadata ->
        Schemas.replicationFactor form
        <= array_length (KafkaJS.cm_brokers metadata) ->
        valid_topic_name (Schemas.name form)
        /\ exists response w',
             TopicsRoute.POST request w = (Ok response, w')
             /\ calls w'
                = calls w
                  ++ [KafkaJS.CallListTopics; KafkaJS.CallDescribeCluster;
                      KafkaJS.CallCreateTopics
                        (createTopics_request
                           (Schemas.name form) (Schemas.partitions form)
                           (Schemas.replicationFactor form)
                           (default [] (Schemas.config form)))]
             /\ (TopicsRoute.status response = 200
                 \/ TopicsRoute.status response = 422)).
Proof.
  split; [|split].
  - intros Hin. unfold TopicsRoute.POST. unfold_M. rewrite Hin. reflexivity.
  - intros Hact fields name Hjson Hget Hinv.
    destruct (safeParse_rejects_name (zod (runtime w)) fields name Hget Hinv)
      as (issue & issues & Hparse & Hpath).
    exists (TopicsRoute.to_FieldError issue),
           (List.map TopicsRoute.to_FieldError issues).
    split.
    + unfold TopicsRoute.POST. unfold_M. rewrite Hact, Hjson.
      cbv beta iota. unfold negb. rewrite Hparse. reflexivity.
    + unfold TopicsRoute.to_FieldError. simpl. rewrite Hpath. reflexivity.
  - intros Hact body form adm existingTopics metadata
           Hjson Hparse Ha Hl Hex Hd Hrf.
    destruct (safeParse_accepts _ _ _ Hparse) as (Hname & _ & _).
    split; [exact Hname|].
    assert (Hc : isConnected (this w) = true).
    { unfold isConnectionActive in Hact. apply andb_true_iff in Hact. tauto. }
    pose proof (createTopic_issues_creation w adm metadata existingTopics
                  (Schemas.name form) (Schemas.partitions form)
                  (Schemas.replicationFactor form)
                  (default [] (Schemas.config form))
                  Ha Hc Hname Hl Hex Hd Hrf) as Hrun.
    cbv zeta in Hrun.
    unfold TopicsRoute.POST. unfold_M. rewrite Hact, Hjson.
    cbv beta iota. unfold negb. rewrite Hparse. cbv beta iota zeta.
    rewrite Hrun.
    destruct (KafkaJS.createTopics adm _); cbv beta iota.
    + eexists _, _. split; [reflexivity|]. split; [|left; reflexivity].
      simpl. rewrite <- !app_assoc. reflexivity.
    + eexists _, _. split; [reflexivity|]. split; [|right; reflexivity].
      simpl. rewrite <- !app_assoc. reflexivity.
Qed.

(** C4 on a new topic [payments] of a cluster of two brokers. *)
Lemma create_topic_route_validates_then_creates_once_witness :
  exists response w',
    TopicsRoute.POST (Sample.create_request "payments" 3 1)
                     (Sample.connected Sample.two_brokers)
    = (Ok response, w')
    /\ calls w'
       = [KafkaJS.CallConnect; KafkaJS.CallListTopics;
          KafkaJS.CallDescribeCluster;
          KafkaJS.CallCreateTopics
            (createTopics_request (js "payments") 3 1 [])].
Proof.
  destruct (create_topic_route_validates_then_creates_once
              (Sample.connected Sample.two_brokers)
              (Sample.create_request "payments" 3 1))
    as (_ & _ & Hvalid).
  destruct (Hvalid eq_refl _ payments_form Sample.two_brokers
                   [js "orders"; js "unassigned"]
                   {| KafkaJS.cm_brokers := [Sample.broker 1; Sample.broker 2];
                      KafkaJS.controller := Some 1;
                      KafkaJS.clusterId := js "sample" |}
                   eq_refl eq_refl eq_refl eq_refl eq_refl eq_refl)
    as (_ & response & w' & Hpost & Hcalls & _).
  - vm_compute. discriminate.
  - exists response, w'. split; [exact Hpost|]. exact Hcalls.
Defined.

(** The scenario of the specification: [My Topic!] is answered 400 with an
    entry for [name] about the allowed characters, and nothing is sent. *)
Example create_topic_route_my_topic :
  TopicsRoute.POST (Sample.create_request "My Topic!" 3 1)
                   (Sample.connected Sample.two_brokers)
  = (Ok (validation_failure
           [{| TopicsRoute.field := js "name";
               TopicsRoute.fe_message :=
                 js "Topic name can only contain letters, numbers, dots, hyphens, and underscores" |}]),
     Sample.connected Sample.two_brokers).
Proof. vm_compute. reflexivity. Qed.

(** C4 as stated fails twice.  A name that satisfies the pattern and the
    length bound but is already a topic of the cluster is answered 422
    after [listTopics] alone, with no creation RPC; and while no
    connection is active a name outside the pattern is answered 401, with
    no validation error. *)
Lemma create_topic_route_without_creation_or_validation :
  (valid_topic_name (js "orders")
   /\ exists response w',
        TopicsRoute.POST (Sample.create_request "orders" 3 1)
                         (Sample.connected Sample.two_brokers)
        = (Ok response, w')
        /\ TopicsRoute.status response = 422
        /\ calls w' = [KafkaJS.CallConnect; KafkaJS.CallListTopics]
        /\ List.filter KafkaJS.is_CreateTopics (calls w') = [])
  /\ (~ valid_topic_name (js "My Topic!")
      /\ exists response,
           TopicsRoute.POST (Sample.create_request "My Topic!" 3 1)
                            (start (Sample.runtime_of Sample.two_brokers))
           = (Ok response, start (Sample.runtime_of Sample.two_brokers))
           /\ TopicsRoute.status response = 401
           /\ TopicsRoute.details (TopicsRoute.body response) = None).
Proof.
  split.
  - split.
    + split; [reflexivity|]. vm_compute. discriminate.
    + eexists _, _. split; [vm_compute; reflexivity|].
      repeat split.
  - split.
    + intros [Hpat _]. vm_compute in Hpat. discriminate.
    + eexists. split; [vm_compute; reflexivity|]. split; reflexivity.
Qed.

(** * Further properties *)

(** ** The connection manager *)

Lemma parseKafkaError_category (rt : Runtime) (cause : thrown) :
  connection_error_category (parseKafkaError rt cause).
Proof.
  unfold connection_error_category, parseKafkaError.
  destruct cause as [m|]; [|auto].
  destruct (_ || _); [auto|].
  destruct (_ || _); [auto|].
  destruct (includes _ _); [auto|].
  destruct (includes _ _); [auto 6|].
  do 5 right. eauto.
Qed.

(** The handler of [connectWithConfig]: whatever the cause and the world,
    it ends with the fields cleared and throws the parsed message. *)
Lemma connect_handler_run (cause : thrown) (w0 : World) :
  exists w1,
    ((disconnect;;
      errorMessage ← (fun w => (Ok (parseKafkaError (runtime w) cause), w));
      throw_Error errorMessage) : M unit) w0
    = (Throw (JsError (parseKafkaError (runtime w0) cause)), w1)
    /\ this w1 = new_KafkaService.
Proof.
  unfold disconnect. unfold_M.
  destruct (admin (this w0)) as [adm|] eqn:Ha; simpl.
  - destruct (KafkaJS.disconnect adm) as [[]|e]; simpl;
      eexists; split; reflexivity.
  - eexists; split; [reflexivity|].
    unfold new_KafkaService, with_this, set_connectionConfig, set_isConnected,
      set_kafka. simpl. rewrite Ha. reflexivity.
Qed.

(** X1. A [connect] that fails, at whichever step, leaves no connection
    behind: the four fields are cleared, so [isConnectionActive()] is
    false and [getConnectionInfo()] is null, and what it throws is an
    [Error] whose message is one of the messages of [parseKafkaError]. *)
Theorem connect_failure_leaves_nothing
    (w : World) (bootstrapServers : jsstring) (clientId : option jsstring)
    (e : thrown) :
  fst (connect bootstrapServers clientId w) = Throw e ->
  this (after (connect bootstrapServers clientId) w) = new_KafkaService
  /\ isConnectionActive (this (after (connect bootstrapServers clientId) w)) = false
  /\ getConnectionInfo (this (after (connect bootstrapServers clientId) w)) = None
  /\ exists message, e = JsError message /\ connection_error_category message.
Proof.
  unfold connect. set (config := {| KafkaJS.clientId := _ |}).
  unfold connectWithConfig, after.
  set (handler := fun error : thrown => _).
  assert (Hh : forall cause w0 e0,
             fst (handler cause w0) = Throw e0 ->
             this (snd (handler cause w0)) = new_KafkaService
             /\ exists message, e0 = JsError message
                                /\ connection_error_category message).
  { intros cause w0 e0. subst handler. cbv beta.
    destruct (connect_handler_run cause w0) as (w1 & -> & Hw1). simpl.
    intros H. injection H as <-. split; [exact Hw1|].
    eexists. split; [reflexivity|]. apply parseKafkaError_category. }
  clearbody handler. unfold_M. simpl.
  assert (Hfin : forall cause w0,
             fst (handler cause w0) = Throw e ->
             this (snd (handler cause w0)) = new_KafkaService
             /\ isConnectionActive (this (snd (handler cause w0))) = false
             /\ getConnectionInfo (this (snd (handler cause w0))) = None
             /\ exists message, e = JsError message
                                /\ connection_error_category message).
  { intros cause w0 H. destruct (Hh cause w0 e H) as [Hs Hm].
    rewrite Hs. repeat split; auto. }
  destruct (new_Kafka (runtime w) (ticks w) config) as [k|c]; simpl;
    [|apply Hfin].
  destruct (KafkaJS.admin k) as [adm|c]; simpl; [|apply Hfin].
  destruct (KafkaJS.connect adm) as [[]|c]; simpl; [|apply Hfin].
  discriminate.
Qed.

(** X1 on brokers that refuse the connection and a handle whose close
    throws too. *)
Lemma connect_failure_leaves_nothing_witness :
  fst (connect (js "localhost:9092") None (start (Sample.runtime_of refusing)))
  = Throw (JsError (js "Cannot connect to Kafka brokers. Please verify Kafka is running and bootstrap servers are correct."))
  /\ this (after (connect (js "localhost:9092") None)
                 (start (Sample.runtime_of refusing)))
     = new_KafkaService.
Proof.
  assert (H : fst (connect (js "localhost:9092") None
                           (start (Sample.runtime_of refusing)))
              = Throw (JsError (js "Cannot connect to Kafka brokers. Please verify Kafka is running and bootstrap servers are correct.")))
    by (vm_compute; reflexivity).
  split; [exact H|].
  exact (proj1 (connect_failure_leaves_nothing _ _ _ _ H)).
Defined.

(** The fields a successful [connect] leaves, and the one call it adds
    to the log. *)
Lemma connect_success_run
    (w : World) (bootstrapServers : jsstring) (clientId : option jsstring) :
  fst (connect bootstrapServers clientId w) = Ok tt ->
  let w' := after (connect bootstrapServers clientId) w in
  exists k adm cfg,
    kafka (this w') = Some k /\ admin (this w') = Some adm
    /\ isConnected (this w') = true
    /\ connectionConfig (this w') = Some cfg
    /\ KafkaJS.brokers cfg = List.map trim (split_comma bootstrapServers)
    /\ KafkaJS.clientId cfg = default (js "kafka-ui") clientId
    /\ calls w' = calls w ++ [KafkaJS.CallConnect].
Proof.
  unfold connect. set (config := {| KafkaJS.clientId := _ |}).
  unfold connectWithConfig, after.
  set (handler := fun error : thrown => _).
  assert (Hh : forall cause w0, fst (handler cause w0) <> Ok tt).
  { intros cause w0. subst handler. cbv beta.
    destruct (connect_handler_run cause w0) as (w1 & -> & _). discriminate. }
  clearbody handler. unfold_M. simpl.
  destruct (new_Kafka (runtime w) (ticks w) config) as [k|c]; simpl;
    [|intros H; destruct (Hh _ _ H)].
  destruct (KafkaJS.admin k) as [adm|c]; simpl;
    [|intros H; destruct (Hh _ _ H)].
  destruct (KafkaJS.connect adm) as [[]|c]; simpl;
    [|intros H; destruct (Hh _ _ H)].
  intros _. exists k, adm, config. repeat split.
Qed.

(** X2. A [connect] that succeeds makes the connection active, reports
    the trimmed pieces of the server list joined by commas and the client
    id (['kafka-ui'] when omitted, ['unknown'] when empty), and makes one
    call on the admin client, [connect] on the new handle: a handle stored
    by an earlier [connect] is replaced without being disconnected. *)
Theorem connect_success_activates
    (w : World) (bootstrapServers : jsstring) (clientId : option jsstring) :
  fst (connect bootstrapServers clientId w) = Ok tt ->
  let w' := after (connect bootstrapServers clientId) w in
  isConnectionActive (this w') = true
  /\ getConnectionInfo (this w')
     = Some {| ConnectionInfo.brokers :=
                 join_comma (List.map trim (split_comma bootstrapServers));
               ConnectionInfo.clientId := reported_clientId clientId |}
  /\ calls w' = calls w ++ [KafkaJS.CallConnect].
Proof.
  intros Hok w'.
  destruct (connect_success_run w bootstrapServers clientId Hok)
    as (k & adm & cfg & Hk & _ & Hc & Hcfg & Hbrokers & Hid & Hcalls).
  fold w' in Hk, Hc, Hcfg, Hcalls.
  split; [|split; [|exact Hcalls]].
  - unfold isConnectionActive. rewrite Hc, Hk.
    apply andb_true_iff. split; [reflexivity|].
    apply bool_decide_eq_true. eexists. reflexivity.
  - unfold getConnectionInfo. rewrite Hcfg, Hbrokers, Hid.
    destruct clientId as [[|c cs]|]; reflexivity.
Qed.

Lemma connect_success_activates_witness :
  fst (connect (js "broker-1:9092, broker-2:9092") None
               (Sample.connected Sample.two_brokers)) = Ok tt
  /\ calls (after (connect (js "broker-1:9092, broker-2:9092") None)
                  (Sample.connected Sample.two_brokers))
     = [KafkaJS.CallConnect; KafkaJS.CallConnect]
  /\ getConnectionInfo
       (this (after (connect (js "broker-1:9092, broker-2:9092") None)
                    (Sample.connected Sample.two_brokers)))
     = Some {| ConnectionInfo.brokers := js "broker-1:9092,broker-2:9092";
               ConnectionInfo.clientId := js "kafka-ui" |}.
Proof.
  assert (H : fst (connect (js "broker-1:9092, broker-2:9092") None
                           (Sample.connected Sample.two_brokers)) = Ok tt)
    by (vm_compute; reflexivity).
  split; [exact H|].
  destruct (connect_success_activates _ _ _ H) as (_ & Hinfo & Hcalls).
  split; [exact Hcalls | exact Hinfo].
Defined.

Lemma split_comma_nonempty (s : jsstring) : split_comma s <> [].
Proof.
  destruct s as [|c s]; simpl; [discriminate|].
  destruct (N.eqb c 44); [discriminate|].
  destruct (split_comma s); discriminate.
Qed.

(** Splitting at the commas and joining with commas gives the text back. *)
Lemma join_split_comma (s : jsstring) : join_comma (split_comma s) = s.
Proof.
  induction s as [|c s IH]; simpl; [reflexivity|].
  destruct (N.eqb_spec c 44) as [->|Hc].
  - pose proof (split_comma_nonempty s) as Hne.
    simpl. destruct (split_comma s) as [|p rest]; [contradiction|].
    simpl in *. rewrite IH. reflexivity.
  - pose proof (split_comma_nonempty s) as Hne.
    destruct (split_comma s) as [|p rest]; [contradiction|].
    simpl in *. destruct rest; simpl in *; rewrite <- IH; reflexivity.
Qed.

Lemma split_comma_pieces (P : N -> Prop) (s : jsstring) :
  Forall P s -> Forall (Forall P) (split_comma s).
Proof.
  induction 1 as [|c s Hc Hs IH]; simpl; [repeat constructor|].
  destruct (N.eqb c 44); [constructor; [constructor|exact IH]|].
  destruct (split_comma s) as [|p rest]; [repeat constructor; exact Hc|].
  inversion IH; subst. constructor; [constructor|]; assumption.
Qed.

Lemma trimStart_no_whitespace (s : jsstring) :
  Forall (fun c => is_js_whitespace c = false) s -> trimStart s = s.
Proof. intros H. destruct H as [|c s Hc _]; simpl; [|rewrite Hc]; reflexivity. Qed.

(** [trim] changes nothing in a text without white space. *)
Lemma trim_no_whitespace (s : jsstring) :
  Forall (fun c => is_js_whitespace c = false) s -> trim s = s.
Proof.
  intros H. unfold trim. rewrite (trimStart_no_whitespace s H).
  rewrite trimStart_no_whitespace; [apply rev_involutive|].
  apply Forall_rev. exact H.
Qed.

(** X3. When the server list contains no white space, a successful
    [connect] followed by [getConnectionInfo()] gives the list back as it
    was given: splitting at the commas, trimming and joining is the
    identity. *)
Theorem connect_info_returns_server_list
    (w : World) (bootstrapServers : jsstring) (clientId : option jsstring) :
  Forall (fun c => is_js_whitespace c = false) bootstrapServers ->
  fst (connect bootstrapServers clientId w) = Ok tt ->
  ConnectionInfo.brokers
  <$> getConnectionInfo (this (after (connect bootstrapServers clientId) w))
  = Some bootstrapServers.
Proof.
  intros Hws Hok.
  destruct (connect_success_run w bootstrapServers clientId Hok)
    as (k & adm & cfg & _ & _ & _ & Hcfg & Hbrokers & _).
  unfold getConnectionInfo. rewrite Hcfg, Hbrokers. simpl. f_equal.
  clear Hcfg Hbrokers.
  rewrite <- (join_split_comma bootstrapServers) at 2. f_equal.
  pose proof (split_comma_pieces _ _ Hws) as Hp.
  induction Hp as [|p ps Hp _ IH]; simpl; [reflexivity|].
  rewrite (trim_no_whitespace p Hp), IH. reflexivity.
Qed.

Lemma connect_info_returns_server_list_witness :
  ConnectionInfo.brokers
  <$> getConnectionInfo
        (this (after (connect (js "kafka-1:9092,kafka-2:9093") (Some (js "ops")))
                     (start (Sample.runtime_of Sample.two_brokers))))
  = Some (js "kafka-1:9092,kafka-2:9093").
Proof.
  apply connect_info_returns_server_list.
  - repeat constructor.
  - vm_compute. reflexivity.
Defined.

(** X4. [disconnect()] can be called in any state: it returns normally
    and clears the fields; it calls the admin client once ([disconnect])
    when a handle is stored and not at all otherwise, whether or not that
    call throws; and a second [disconnect()] right after it calls nothing. *)
Theorem disconnect_closes_at_most_once (w : World) :
  disconnect w
  = (Ok tt,
     {| runtime := runtime w;
        this := new_KafkaService;
        calls := match admin (this w) with
                 | Some _ => calls w ++ [KafkaJS.CallDisconnect]
                 | None => calls w
                 end;
        ticks := ticks w |})
  /\ calls (after disconnect (after disconnect w)) = calls (after disconnect w).
Proof.
  assert (H : forall w0,
             disconnect w0
             = (Ok tt,
                {| runtime := runtime w0;
                   this := new_KafkaService;
                   calls := match admin (this w0) with
                            | Some _ => calls w0 ++ [KafkaJS.CallDisconnect]
                            | None => calls w0
                            end;
                   ticks := ticks w0 |})).
  { intros w0. unfold disconnect. unfold_M.
    destruct (admin (this w0)) as [adm|] eqn:Ha; simpl.
    - destruct (KafkaJS.disconnect adm) as [[]|e]; reflexivity.
    - unfold with_this, set_connectionConfig, set_isConnected, set_kafka.
      simpl. rewrite Ha. reflexivity. }
  split; [apply H|].
  unfold after. rewrite (H w). cbv [snd]. rewrite H. reflexivity.
Qed.

(** X5. [initialize()] never throws: without a configuration in the
    environment it does nothing, and with one it leaves the singleton
    either connected with that configuration or with its fields cleared,
    the error of a failed attempt being dropped. *)
Theorem initialize_swallows_failure
    (w : World) (env_config : option KafkaJS.KafkaConfig) :
  fst (initialize env_config w) = Ok tt
  /\ (env_config = None -> initialize env_config w = (Ok tt, w))
  /\ (forall config,
        env_config = Some config ->
        (exists k adm,
            this (after (initialize env_config) w)
            = {| kafka := Some k; admin := Some adm; isConnected := true;
                 connectionConfig := Some config |})
        \/ this (after (initialize env_config) w) = new_KafkaService).
Proof.
  destruct env_config as [config|]; simpl.
  - pose proof (connectWithConfig_outcome config w) as Hout. simpl in Hout.
    unfold after, try_catch in *.
    destruct (connectWithConfig config w) as [[[]|e] w1]; simpl in *.
    + split; [reflexivity|]. split; [discriminate|].
      intros c Hc. injection Hc as <-.
      destruct Hout as [[_ Hs]|[[m Hm] _]]; [left; exact Hs|discriminate].
    + split; [reflexivity|]. split; [discriminate|].
      intros c Hc. injection Hc as <-.
      destruct Hout as [[Hok _]|[_ Hs]]; [discriminate|right; exact Hs].
  - split; [reflexivity|]. split; [reflexivity|]. discriminate.
Qed.

(** ** Topics *)

(** The guard lets a connected singleton through, and changes nothing. *)
Lemma require_connection_passes (w : World) adm :
  admin (this w) = Some adm -> isConnected (this w) = true ->
  require_connection w = (Ok adm, w).
Proof.
  intros Ha Hc. unfold require_connection. unfold_M. rewrite Ha, Hc.
  reflexivity.
Qed.

(** X6. On a cluster without topics, [getTopics()] returns the empty list
    after [listTopics] alone: no metadata and no configuration is
    requested. *)
Theorem getTopics_empty_cluster (w : World) adm :
  admin (this w) = Some adm ->
  isConnected (this w) = true ->
  KafkaJS.listTopics adm = Ok [] ->
  getTopics w = (Ok [], log_call KafkaJS.CallListTopics w).
Proof.
  intros Ha Hc Hl. unfold getTopics, mbind, M_bind.
  rewrite (require_connection_passes w adm Ha Hc).
  unfold_M. rewrite Hl. reflexivity.
Qed.

Lemma getTopics_empty_cluster_witness :
  getTopics (Sample.connected (Sample.cluster [1] (Some 1) []))
  = (Ok [],
     log_call KafkaJS.CallListTopics
              (Sample.connected (Sample.cluster [1] (Some 1) []))).
Proof.
  apply (getTopics_empty_cluster _ (Sample.cluster [1] (Some 1) []));
    reflexivity.
Defined.

Lemma to_KafkaTopic_run config tm w :
  exists t,
    to_KafkaTopic config tm w = (Ok t, tick (tick (tick w)))
    /\ lists_topic t tm /\ KafkaTopic.config t = config.
Proof.
  unfold to_KafkaTopic, random_below. unfold_M. simpl.
  eexists. split; [reflexivity|]. repeat split.
Qed.

Lemma map_to_KafkaTopic_run
    (config_of : KafkaJS.ITopicMetadata -> ConfigValue) tms w :
  exists ts w',
    mapM (fun tm => to_KafkaTopic (config_of tm) tm) tms w = (Ok ts, w')
    /\ calls w' = calls w
    /\ Forall2 (fun t tm => lists_topic t tm /\ KafkaTopic.config t = config_of tm)
               ts tms.
Proof.
  revert w. induction tms as [|tm tms IH]; intros w; simpl.
  - eexists _, _. split; [reflexivity|]. split; [reflexivity|constructor].
  - destruct (to_KafkaTopic_run (config_of tm) tm w) as (t & Ht & Hrel).
    destruct (IH (tick (tick (tick w)))) as (ts & w2 & Hts & Hcalls & Hrels).
    exists (t :: ts), w2. unfold mbind, M_bind. rewrite Ht, Hts.
    split; [reflexivity|]. split; [exact Hcalls|]. constructor; assumption.
Qed.

(** X7. Once [listTopics] and [fetchTopicMetadata] have answered,
    [getTopics()] returns, whatever [describeConfigs] does: one topic per
    metadata entry, in order, with its name and its number of partitions;
    and when [describeConfigs] throws, the configuration of a topic is
    the empty object, unless the topic bears the name of a member of
    [Object.prototype] ([constructor], [toString], [__proto__], ...):
    the lookup in the empty [topicConfigs] then finds that member. *)
Theorem getTopics_survives_config_failure
    (w : World) adm (topicNames : list jsstring)
    (tms : list KafkaJS.ITopicMetadata) :
  admin (this w) = Some adm ->
  isConnected (this w) = true ->
  KafkaJS.listTopics adm = Ok topicNames ->
  topicNames <> [] ->
  KafkaJS.fetchTopicMetadata adm topicNames = Ok tms ->
  exists ts w',
    getTopics w = (Ok ts, w')
    /\ Forall2 lists_topic ts tms
    /\ calls w'
       = calls w ++ [KafkaJS.CallListTopics;
                     KafkaJS.CallFetchTopicMetadata topicNames;
                     KafkaJS.CallDescribeConfigs
                       (describeConfigs_request topicNames)]
    /\ (forall e,
          KafkaJS.describeConfigs adm (describeConfigs_request topicNames)
          = Throw e ->
          Forall unconfigured ts).
Proof.
  intros Ha Hc Hl Hne Hf. unfold getTopics, mbind at 1, M_bind at 1.
  rewrite (require_connection_passes w adm Ha Hc).
  unfold fetch_topicConfigs, describeConfigs_request.
  unfold_M. rewrite Hl. cbv beta iota zeta.
  assert (Hlen : (array_length topicNames =? 0) = false).
  { destruct topicNames; [contradiction|]. reflexivity. }
  rewrite Hlen, Hf. cbv beta iota.
  match goal with
  | |- context [KafkaJS.describeConfigs adm ?r] =>
      destruct (KafkaJS.describeConfigs adm r) as [resources|e0] eqn:Hd
  end; cbv beta iota.
  - match goal with
    | |- context [mapM (fun topic => to_KafkaTopic (@?cfg topic) topic) tms ?w0] =>
        destruct (map_to_KafkaTopic_run cfg tms w0)
          as (ts & w2 & Hrun & Hcalls & Hrel)
    end.
    rewrite Hrun. exists ts, w2. split; [reflexivity|]. split.
    { eapply Forall2_impl; [exact Hrel|]. intros t tm [H _]. exact H. }
    split.
    { rewrite Hcalls. simpl. rewrite <- !app_assoc. reflexivity. }
    intros e He. congruence.
  - match goal with
    | |- context [mapM (fun topic => to_KafkaTopic (@?cfg topic) topic) tms ?w0] =>
        destruct (map_to_KafkaTopic_run cfg tms w0)
          as (ts & w2 & Hrun & Hcalls & Hrel)
    end.
    rewrite Hrun. exists ts, w2. split; [reflexivity|]. split.
    { eapply Forall2_impl; [exact Hrel|]. intros t tm [H _]. exact H. }
    split.
    { rewrite Hcalls. simpl. rewrite <- !app_assoc. reflexivity. }
    intros e _. clear - Hrel.
    induction Hrel as [|t tm ts' tms' [(Hname & _) Hcfg] _ IH]; constructor;
      [|exact IH].
    unfold unconfigured. rewrite Hcfg, Hname. unfold topicConfigs_get.
    cbn [own_configs prototype empty_topicConfigs mbind option_bind].
    rewrite lookup_empty. unfold jsstring_eqb.
    destruct (bool_decide_reflect (KafkaJS.tm_name tm = js "__proto__"))
      as [Hp|Hp].
    + split; [reflexivity|]. split; [|contradiction].
      rewrite Hp. intros Hin. vm_compute in Hin.
      repeat (apply elem_of_cons in Hin as [Hin|Hin]; [discriminate|]).
      inversion Hin.
    + split; [contradiction|].
      destruct (bool_decide_reflect
                  (KafkaJS.tm_name tm ∈ Object_prototype_methods));
        split; intros; try reflexivity; contradiction.
Qed.

Lemma getTopics_survives_config_failure_witness :
  exists ts w',
    getTopics (Sample.connected unreadable_constructor) = (Ok ts, w')
    /\ Forall2 lists_topic ts [Sample.orders; constructor_topic]
    /\ Forall unconfigured ts
    /\ List.map KafkaTopic.config ts
       = [ConfigObject []; PrototypeMethod (js "constructor")].
Proof.
  destruct (getTopics_survives_config_failure
              (Sample.connected unreadable_constructor) unreadable_constructor
              [js "orders"; js "constructor"]
              [Sample.orders; constructor_topic]
              eq_refl eq_refl eq_refl)
    as (ts & w' & Hrun & Hrel & _ & Hcfg).
  - discriminate.
  - reflexivity.
  - exists ts, w'. split; [exact Hrun|]. split; [exact Hrel|].
    split; [apply (Hcfg (JsError (js "not authorized"))); reflexivity|].
    assert (Hconfigs :
      List.map KafkaTopic.config
        (match fst (getTopics (Sample.connected unreadable_constructor)) with
         | Ok ts0 => ts0
         | Throw _ => []
         end)
      = [ConfigObject []; PrototypeMethod (js "constructor")])
      by (vm_compute; reflexivity).
    rewrite Hrun in Hconfigs. exact Hconfigs.
Defined.

(** X8. When the first RPC of an aggregation method fails, the method
    throws an [Error] whose message is the prefix of the method followed
    by the message of the cause (or by [Unknown error] when the cause is
    not an [Error]), and makes no further call. *)
Theorem aggregation_failure_is_wrapped (w : World) adm (cause : thrown) :
  admin (this w) = Some adm ->
  isConnected (this w) = true ->
  (KafkaJS.listTopics adm = Throw cause ->
   getTopics w
   = (Throw (wrapped "Failed to fetch topics: " cause),
      log_call KafkaJS.CallListTopics w))
  /\ (KafkaJS.describeCluster adm = Throw cause ->
      getBrokers w
      = (Throw (wrapped "Failed to fetch brokers: " cause),
         log_call KafkaJS.CallDescribeCluster w))
  /\ (forall topicName,
        KafkaJS.fetchTopicMetadata adm [topicName] = Throw cause ->
        getTopicDetails topicName w
        = (Throw (wrapped "Failed to fetch topic details: " cause),
           log_call (KafkaJS.CallFetchTopicMetadata [topicName]) w)).
Proof.
  intros Ha Hc. pose proof (require_connection_passes w adm Ha Hc) as Hg.
  repeat split; intros;
    unfold getTopics, getBrokers, getTopicDetails, mbind at 1, M_bind at 1;
    rewrite Hg; unfold_M; rewrite H; reflexivity.
Qed.

Lemma aggregation_failure_is_wrapped_witness :
  fst (getTopics (Sample.connected silent))
  = Throw (JsError (js "Failed to fetch topics: Unknown error")).
Proof.
  destruct (aggregation_failure_is_wrapped
              (Sample.connected silent) silent NonError eq_refl eq_refl)
    as (Htopics & _).
  rewrite (Htopics eq_refl). reflexivity.
Defined.

(** X9. [getTopicDetails(name)] on a name for which the cluster returns no
    metadata throws [Failed to fetch topic details: Topic 'name' not
    found], and does not ask for the configuration. *)
Theorem getTopicDetails_not_found (w : World) adm (topicName : jsstring) :
  admin (this w) = Some adm ->
  isConnected (this w) = true ->
  KafkaJS.fetchTopicMetadata adm [topicName] = Ok [] ->
  getTopicDetails topicName w
  = (Throw (JsError (js "Failed to fetch topic details: Topic '"
                     ++ topicName ++ js "' not found")),
     log_call (KafkaJS.CallFetchTopicMetadata [topicName]) w).
Proof.
  intros Ha Hc Hf. unfold getTopicDetails, mbind at 1, M_bind at 1.
  rewrite (require_connection_passes w adm Ha Hc).
  unfold_M. rewrite Hf. cbv beta iota. reflexivity.
Qed.

Lemma getTopicDetails_not_found_witness :
  getTopicDetails (js "missing") (Sample.connected Sample.two_brokers)
  = (Throw (JsError (js "Failed to fetch topic details: Topic 'missing' not found")),
     log_call (KafkaJS.CallFetchTopicMetadata [js "missing"])
              (Sample.connected Sample.two_brokers)).
Proof.
  apply (getTopicDetails_not_found _ Sample.two_brokers); reflexivity.
Defined.

Lemma jsstring_eqb_true (a b : jsstring) : jsstring_eqb a b = true <-> a = b.
Proof. unfold jsstring_eqb. apply bool_decide_eq_true. Qed.

Lemma jsstring_eqb_false (a b : jsstring) : jsstring_eqb a b = false <-> a <> b.
Proof. unfold jsstring_eqb. apply bool_decide_eq_false. Qed.

Lemma record_get_In (key : jsstring) (r : StringRecord) :
  is_Some (record_get key r) <-> key ∈ List.map fst r.
Proof.
  induction r as [|[k v] r IH]; simpl.
  - split; [intros [x H]; discriminate|intros H; inversion H].
  - destruct (jsstring_eqb k key) eqn:E.
    + apply jsstring_eqb_true in E. subst. split; [left|eauto].
    + apply jsstring_eqb_false in E. rewrite IH. split.
      * intros H. right. exact H.
      * intros H. apply elem_of_cons in H as [H|H]; [congruence|exact H].
Qed.

Lemma record_replace_keys (key value : jsstring) (r : StringRecord) :
  List.map fst (record_replace key value r) = List.map fst r.
Proof.
  induction r as [|[k v] r IH]; simpl; [reflexivity|].
  destruct (jsstring_eqb k key); simpl; [reflexivity|]. rewrite IH.
  reflexivity.
Qed.

Lemma record_get_replace (k key value : jsstring) (r : StringRecord) :
  is_Some (record_get key r) ->
  record_get k (record_replace key value r)
  = if jsstring_eqb key k then Some value else record_get k r.
Proof.
  induction r as [|[k0 v0] r IH]; simpl; intros Hs.
  - destruct Hs as [x Hx]. discriminate.
  - destruct (jsstring_eqb k0 key) eqn:E0; simpl.
    + apply jsstring_eqb_true in E0. subst k0.
      destruct (jsstring_eqb key k); reflexivity.
    + rewrite (IH Hs). apply jsstring_eqb_false in E0.
      destruct (jsstring_eqb k0 k) eqn:E1; [|reflexivity].
      apply jsstring_eqb_true in E1. subst k0.
      destruct (jsstring_eqb key k) eqn:E2; [|reflexivity].
      apply jsstring_eqb_true in E2. congruence.
Qed.

Lemma insert_index_keys (i : N) (key value : jsstring) (r : StringRecord) :
  exists before after,
    List.map fst r = before ++ after
    /\ List.map fst (insert_index i key value r) = before ++ key :: after
    /\ Forall (fun k => exists j, array_index k = Some j /\ (j < i)%N) before
    /\ match after with
       | [] => True
       | k :: _ => match array_index k with
                   | Some j => (i <= j)%N
                   | None => True
                   end
       end.
Proof.
  induction r as [|[k v] r IH]; simpl.
  - exists [], []. repeat split. constructor.
  - destruct (array_index k) as [j|] eqn:Hk.
    + destruct (N.ltb_spec j i) as [Hlt|Hge].
      * destruct IH as (before & after & E1 & E2 & Hb & Ha).
        exists (k :: before), after. simpl. rewrite E1, E2.
        repeat split; [|exact Ha]. constructor; eauto.
      * exists [], (k :: List.map fst r). simpl. rewrite Hk.
        repeat split; [constructor|exact Hge].
    + exists [], (k :: List.map fst r). simpl. rewrite Hk.
      repeat split. constructor.
Qed.

Lemma record_get_insert (k key value : jsstring) (i : N) (r : StringRecord) :
  record_get key r = None ->
  record_get k (insert_index i key value r)
  = if jsstring_eqb key k then Some value else record_get k r.
Proof.
  induction r as [|[k0 v0] r IH]; simpl; intros Hn.
  - reflexivity.
  - destruct (jsstring_eqb k0 key) eqn:E0; [discriminate|].
    destruct (array_index k0) as [j|]; [destruct (j <? i)%N|]; simpl;
      try reflexivity.
    rewrite (IH Hn). apply jsstring_eqb_false in E0.
    destruct (jsstring_eqb k0 k) eqn:E1; [|reflexivity].
    apply jsstring_eqb_true in E1. subst k0.
    destruct (jsstring_eqb key k) eqn:E2; [|reflexivity].
    apply jsstring_eqb_true in E2. congruence.
Qed.

Lemma record_get_app (k : jsstring) (r r' : StringRecord) :
  record_get k (r ++ r')
  = match record_get k r with Some v => Some v | None => record_get k r' end.
Proof.
  induction r as [|[k0 v0] r IH]; simpl; [reflexivity|].
  destruct (jsstring_eqb k0 k); [reflexivity|exact IH].
Qed.

(** What an assignment changes in the own properties. *)
Lemma record_get_set (k key value : jsstring) (acc : StringRecord) :
  record_get k (property_set key value acc)
  = if jsstring_eqb key (js "__proto__") then record_get k acc
    else if jsstring_eqb key k then Some value
    else record_get k acc.
Proof.
  unfold property_set. destruct (jsstring_eqb key (js "__proto__"));
    [reflexivity|].
  destruct (record_get key acc) as [v|] eqn:Hg.
  - apply record_get_replace. eauto.
  - destruct (array_index key) as [i|].
    + apply record_get_insert, Hg.
    + rewrite record_get_app. simpl.
      destruct (jsstring_eqb key k) eqn:E.
      * apply jsstring_eqb_true in E. subst k. rewrite Hg. reflexivity.
      * destruct (record_get k acc); reflexivity.
Qed.

Lemma property_set_shape (key value : jsstring) (acc : StringRecord) :
  let ks := List.map fst acc in
  let ks' := List.map fst (property_set key value acc) in
  ((key = js "__proto__" \/ key ∈ ks) /\ ks' = ks)
  \/ (key <> js "__proto__" /\ (key ∉ ks) /\ array_index key = None
      /\ ks' = ks ++ [key])
  \/ (key <> js "__proto__" /\ (key ∉ ks)
      /\ exists i before after,
           array_index key = Some i
           /\ ks = before ++ after /\ ks' = before ++ key :: after
           /\ Forall (fun k => exists j, array_index k = Some j /\ (j < i)%N)
                     before
           /\ match after with
              | [] => True
              | k :: _ => match array_index k with
                          | Some j => (i <= j)%N
                          | None => True
                          end
              end).
Proof.
  intros ks ks'. subst ks ks'. unfold property_set.
  destruct (jsstring_eqb key (js "__proto__")) eqn:Ep.
  { left. apply jsstring_eqb_true in Ep. auto. }
  apply jsstring_eqb_false in Ep.
  destruct (record_get key acc) as [v|] eqn:Hg.
  { left. split; [right; apply record_get_In; eauto|].
    apply record_replace_keys. }
  assert (Hnot : key ∉ List.map fst acc).
  { intros Hin. apply record_get_In in Hin as [x Hx]. congruence. }
  destruct (array_index key) as [i|] eqn:Hi.
  - right. right. split; [exact Ep|]. split; [exact Hnot|].
    destruct (insert_index_keys i key value acc)
      as (before & after & E1 & E2 & Hb & Ha).
    exists i, before, after. auto.
  - right. left. split; [exact Ep|]. split; [exact Hnot|].
    split; [reflexivity|]. rewrite List.map_app. reflexivity.
Qed.

Lemma property_set_NoDup (key value : jsstring) (acc : StringRecord) :
  NoDup (List.map fst acc) ->
  NoDup (List.map fst (property_set key value acc)).
Proof.
  intros Hnd.
  destruct (property_set_shape key value acc)
    as [[_ ->]|[(_ & Hnot & _ & ->)|(_ & Hnot & i & before & after & _ & E & -> & _)]].
  - exact Hnd.
  - apply NoDup_app. split; [exact Hnd|]. split; [|apply NoDup_singleton].
    intros x Hx Hx'. apply list_elem_of_singleton in Hx'. subst. contradiction.
  - rewrite E in Hnd, Hnot. apply NoDup_app in Hnd as (Hb & Hdisj & Ha).
    apply NoDup_app. split; [exact Hb|]. split.
    + intros x Hx Hx'. apply elem_of_cons in Hx' as [->|Hx'].
      * apply Hnot, elem_of_app. left. exact Hx.
      * exact (Hdisj x Hx Hx').
    + apply NoDup_cons. split; [|exact Ha].
      intros Hin. apply Hnot, elem_of_app. right. exact Hin.
Qed.

Lemma enumerated_before_index (k key : jsstring) (i j : N) :
  array_index k = Some j -> array_index key = Some i -> (j <= i)%N ->
  enumerated_before k key.
Proof. unfold enumerated_before. intros -> ->. auto. Qed.

Lemma property_set_sorted (key value : jsstring) (acc : StringRecord) :
  StronglySorted enumerated_before (List.map fst acc) ->
  StronglySorted enumerated_before
                 (List.map fst (property_set key value acc)).
Proof.
  intros Hs.
  destruct (property_set_shape key value acc)
    as [[_ ->]|[(_ & _ & Hi & ->)|(_ & _ & i & before & after & Hi & E & -> & Hb & Ha)]].
  - exact Hs.
  - apply StronglySorted_app_2; [|exact Hs|repeat constructor].
    intros x y _ Hy. apply list_elem_of_singleton in Hy. subst y.
    unfold enumerated_before. rewrite Hi. destruct (array_index x); exact I.
  - rewrite E in Hs.
    pose proof (StronglySorted_app_1_l _ _ _ Hs) as Hsb.
    pose proof (StronglySorted_app_1_r _ _ _ Hs) as Hsa.
    assert (Hafter : Forall (enumerated_before key) after).
    { destruct after as [|k after]; [constructor|].
      apply StronglySorted_inv in Hsa as [_ Hall].
      assert (Hk : enumerated_before key k).
      { unfold enumerated_before. rewrite Hi.
        destruct (array_index k); [exact Ha|exact I]. }
      constructor; [exact Hk|].
      eapply Forall_impl; [exact Hall|]. intros y Hy.
      unfold enumerated_before in *. rewrite Hi in *.
      destruct (array_index k) as [j|]; destruct (array_index y) as [j'|];
        try exact I; try contradiction. lia. }
    apply StronglySorted_app_2; [|exact Hsb|].
    + intros x y Hx Hy. apply elem_of_cons in Hy as [->|Hy].
      * rewrite Forall_forall in Hb. destruct (Hb x Hx) as (j & Hj & Hlt).
        apply (enumerated_before_index x key i j Hj Hi). lia.
      * exact (StronglySorted_app_1_elem_of _ _ _ _ _ Hs Hx Hy).
    + constructor; [exact Hsa|exact Hafter].
Qed.

Lemma property_set_others (key value : jsstring) (acc : StringRecord) :
  List.filter (fun k => negb (is_index k))
              (List.map fst (property_set key value acc))
  = List.filter (fun k => negb (is_index k)) (List.map fst acc)
    ++ (if ordinary_name key && negb (bool_decide (key ∈ List.map fst acc))
        then [key] else []).
Proof.
  assert (Hidx : forall k i, array_index k = Some i -> is_index k = true).
  { intros k i H. unfold is_index. rewrite H. apply bool_decide_eq_true. eauto. }
  assert (Hnidx : forall k, array_index k = None -> is_index k = false).
  { intros k H. unfold is_index. rewrite H. apply bool_decide_eq_false.
    intros [x Hx]. discriminate. }
  destruct (property_set_shape key value acc)
    as [[Hcase ->]|[(Hp & Hnot & Hi & ->)|(Hp & Hnot & i & before & after & Hi & E & -> & _)]].
  - assert (E : ordinary_name key
                && negb (bool_decide (key ∈ List.map fst acc)) = false).
    { destruct Hcase as [->|Hin].
      - unfold ordinary_name. rewrite (proj2 (jsstring_eqb_true _ _) eq_refl).
        rewrite andb_false_r. reflexivity.
      - rewrite (bool_decide_eq_true_2 _ Hin). apply andb_false_r. }
    rewrite E, app_nil_r. reflexivity.
  - rewrite List.filter_app. f_equal. simpl.
    unfold ordinary_name. fold (is_index key).
    rewrite (Hnidx key Hi), (proj2 (jsstring_eqb_false _ _) Hp).
    rewrite (bool_decide_eq_false_2 _ Hnot). reflexivity.
  - rewrite E, !List.filter_app. simpl. rewrite (Hidx key i Hi). simpl.
    unfold ordinary_name. fold (is_index key). rewrite (Hidx key i Hi). simpl.
    rewrite app_nil_r. reflexivity.
Qed.

Lemma last_value_snoc (key : jsstring) (entries : list KafkaJS.ConfigEntry)
    (e : KafkaJS.ConfigEntry) :
  last_value key (entries ++ [e])
  = if jsstring_eqb (KafkaJS.configName e) key
    then Some (KafkaJS.configValue e) else last_value key entries.
Proof.
  unfold last_value. rewrite List.filter_app. simpl.
  destruct (jsstring_eqb (KafkaJS.configName e) key).
  - rewrite last_snoc. reflexivity.
  - rewrite app_nil_r. reflexivity.
Qed.

Lemma last_value_In (key : jsstring) (entries : list KafkaJS.ConfigEntry) :
  is_Some (last_value key entries)
  <-> key ∈ List.map KafkaJS.configName entries.
Proof.
  induction entries as [|e entries IH] using rev_ind.
  - split; [intros [x H]; discriminate|intros H; inversion H].
  - rewrite last_value_snoc, List.map_app, elem_of_app. simpl.
    destruct (jsstring_eqb (KafkaJS.configName e) key) eqn:E.
    + apply jsstring_eqb_true in E. split; [|eauto].
      intros _. right. rewrite E. left.
    + apply jsstring_eqb_false in E. rewrite IH. split; [auto|].
      intros [H|H]; [exact H|].
      apply list_elem_of_singleton in H. congruence.
Qed.

Lemma first_occurrences_elem_of (x : jsstring) (names : list jsstring) :
  x ∈ first_occurrences names <-> x ∈ names.
Proof.
  induction names as [|a names IH]; simpl; [reflexivity|].
  rewrite !elem_of_cons, <- IH, list_elem_of_In, List.filter_In,
    <- list_elem_of_In.
  destruct (decide (x = a)) as [->|Hne]; [tauto|].
  rewrite (proj2 (jsstring_eqb_false x a) Hne). simpl. tauto.
Qed.

Lemma first_occurrences_snoc (names : list jsstring) (x : jsstring) :
  first_occurrences (names ++ [x])
  = first_occurrences names ++ (if bool_decide (x ∈ names) then [] else [x]).
Proof.
  induction names as [|a names IH]; simpl.
  - destruct (bool_decide_reflect (x ∈ @nil jsstring)) as [H|_];
      [inversion H|reflexivity].
  - rewrite IH, List.filter_app. do 2 f_equal.
    destruct (decide (x = a)) as [->|Hne].
    + rewrite (bool_decide_eq_true_2 (a ∈ a :: names)) by left.
      destruct (bool_decide (a ∈ names)); simpl; [reflexivity|].
      rewrite (proj2 (jsstring_eqb_true a a) eq_refl). reflexivity.
    + destruct (bool_decide_reflect (x ∈ names)) as [Hin|Hnin].
      * rewrite (bool_decide_eq_true_2 (x ∈ a :: names)) by (right; exact Hin).
        reflexivity.
      * rewrite (bool_decide_eq_false_2 (x ∈ a :: names)).
        2: { intros H. apply elem_of_cons in H as [H|H]; contradiction. }
        simpl. rewrite (proj2 (jsstring_eqb_false x a) Hne). reflexivity.
Qed.

(** What the object built from a list of entries holds, and in which
    order. *)
Lemma reduce_configEntries_spec (entries : list KafkaJS.ConfigEntry) :
  let r := reduce_configEntries entries in
  NoDup (List.map fst r)
  /\ (forall key,
        record_get key r
        = if jsstring_eqb key (js "__proto__") then None
          else last_value key entries)
  /\ StronglySorted enumerated_before (List.map fst r)
  /\ List.filter (fun k => negb (is_index k)) (List.map fst r)
     = first_occurrences
         (List.filter ordinary_name (List.map KafkaJS.configName entries)).
Proof.
  unfold reduce_configEntries.
  induction entries as [|e entries IH] using rev_ind.
  - simpl. split; [constructor|]. split; [|split; [constructor|reflexivity]].
    intros key. destruct (jsstring_eqb key (js "__proto__")); reflexivity.
  - rewrite fold_left_app. cbn [fold_left].
    set (r := fold_left
                (fun acc entry =>
                   property_set (KafkaJS.configName entry)
                                (KafkaJS.configValue entry) acc)
                entries []) in *.
    destruct IH as (Hnd & Hget & Hsorted & Hothers).
    split; [apply property_set_NoDup, Hnd|].
    split; [|split; [apply property_set_sorted, Hsorted|]].
    + intros key. rewrite record_get_set, last_value_snoc, Hget.
      destruct (jsstring_eqb (KafkaJS.configName e) (js "__proto__")) eqn:Ep;
        destruct (jsstring_eqb key (js "__proto__")) eqn:Ek;
        destruct (jsstring_eqb (KafkaJS.configName e) key) eqn:E;
        try reflexivity;
        apply jsstring_eqb_true in E; rewrite E in Ep; congruence.
    + rewrite property_set_others, Hothers, List.map_app, List.filter_app.
      cbn [List.map List.filter]. set (k := KafkaJS.configName e).
      destruct (ordinary_name k) eqn:Hord; simpl.
      * rewrite first_occurrences_snoc. f_equal.
        assert (Hiff : k ∈ List.map fst r
                       <-> k ∈ List.filter ordinary_name
                                  (List.map KafkaJS.configName entries)).
        { rewrite <- record_get_In, Hget.
          assert (Hp : jsstring_eqb k (js "__proto__") = false).
          { unfold ordinary_name in Hord.
            apply andb_true_iff in Hord as [_ H].
            apply negb_true_iff in H. exact H. }
          rewrite Hp, last_value_In, (list_elem_of_In (List.filter _ _) k),
            List.filter_In, <- list_elem_of_In. tauto. }
        destruct (bool_decide_reflect (k ∈ List.map fst r)) as [Hin|Hnin].
        -- rewrite bool_decide_eq_true_2 by (apply Hiff, Hin). reflexivity.
        -- rewrite bool_decide_eq_false_2; [reflexivity|].
           intros H. apply Hnin, Hiff, H.
      * rewrite !app_nil_r. reflexivity.
Qed.

(** The enumeration of an object puts the array indices first: [02] and
    [4294967295] are none, and [__proto__] leaves no property. *)
Example reduce_configEntries_example :
  List.map fst (reduce_configEntries
     [ {| KafkaJS.configName := js "segment.bytes"; KafkaJS.configValue := js "a" |};
       {| KafkaJS.configName := js "10"; KafkaJS.configValue := js "b" |};
       {| KafkaJS.configName := js "__proto__"; KafkaJS.configValue := js "x" |};
       {| KafkaJS.configName := js "2"; KafkaJS.configValue := js "c" |};
       {| KafkaJS.configName := js "02"; KafkaJS.configValue := js "c" |};
       {| KafkaJS.configName := js "4294967295"; KafkaJS.configValue := js "c" |};
       {| KafkaJS.configName := js "4294967294"; KafkaJS.configValue := js "c" |};
       {| KafkaJS.configName := js "0"; KafkaJS.configValue := js "c" |};
       {| KafkaJS.configName := js "segment.bytes"; KafkaJS.configValue := js "d" |} ])
  = [js "0"; js "2"; js "10"; js "4294967294"; js "segment.bytes"; js "02"; js "4294967295"].
Proof. vm_compute. reflexivity. Qed.

(** X10. The configuration object built from the entries of a
    [describeConfigs] resource holds each name once, and under each name
    the value of the last entry of that name, except that the name
    [__proto__] leaves no property.  It is enumerated as JavaScript
    enumerates an object: the names that are array indices first, in
    ascending order, then the other names in the order of their first
    occurrence. *)
Theorem reduce_configEntries_last_wins
    (entries : list KafkaJS.ConfigEntry) (key : jsstring) :
  let r := reduce_configEntries entries in
  NoDup (List.map fst r)
  /\ record_get key r
     = (if bool_decide (key = js "__proto__") then None
        else last_value key entries)
  /\ StronglySorted enumerated_before (List.map fst r)
  /\ List.filter (fun k => negb (is_index k)) (List.map fst r)
     = first_occurrences
         (List.filter ordinary_name (List.map KafkaJS.configName entries)).
Proof.
  destruct (reduce_configEntries_spec entries)
    as (Hnd & Hget & Hsorted & Hothers).
  split; [exact Hnd|]. split; [|split; [exact Hsorted|exact Hothers]].
  rewrite Hget. reflexivity.
Qed.

(** ** Brokers *)

Lemma bump_bump dt dp dt' dp' c :
  bump dt' dp' (bump dt dp c) = bump (dt + dt') (dp + dp') c.
Proof. unfold bump. simpl. f_equal; lia. Qed.

Lemma bump_zero c : bump 0 0 c = c.
Proof. destruct c. unfold bump. simpl. f_equal; lia. Qed.

Lemma init_counts_lookup (brokers : list KafkaJS.BrokerMetadata)
    (m : gmap Z TopicCounts) (b : Z) :
  init_counts brokers m !! b
  = if bool_decide (b ∈ List.map KafkaJS.nodeId brokers)
    then Some {| topics := 0; partitions := 0 |}
    else m !! b.
Proof.
  unfold init_counts. revert m.
  induction brokers as [|bm brokers IH]; intros m; cbn [List.map fold_left].
  - case_bool_decide as H; [inversion H|reflexivity].
  - rewrite IH. repeat case_bool_decide; try reflexivity.
    + exfalso. match goal with H : _ ∉ _ :: _ |- _ => apply H end.
      right. assumption.
    + match goal with H : b ∈ _ :: _ |- _ =>
        apply elem_of_cons in H as [->|?]; [|contradiction] end.
      apply lookup_insert_eq.
    + apply lookup_insert_ne. intros Heq.
      match goal with H : _ ∉ _ :: _ |- _ => apply H end.
      rewrite <- Heq. left.
Qed.

(** The replicas of a run of partitions, counted one by one. *)
Lemma count_replicas_lookup (rs : list Z) (m : gmap Z TopicCounts)
    (S : gset Z) (b : Z) :
  let '(m', S') := fold_left count_replica rs (m, S) in
  m' !! b
  = bump 0 (List.length (List.filter (fun x => bool_decide (x = b)) rs))
    <$> m !! b
  /\ (b ∈ S' <-> b ∈ S \/ (b ∈ rs /\ is_Some (m !! b))).
Proof.
  revert m S. induction rs as [|r rs IH]; intros m S; cbn [fold_left].
  - split.
    + destruct (m !! b) as [c|]; simpl; [rewrite bump_zero|]; reflexivity.
    + split; [auto|]. intros [H|[H _]]; [exact H|]. inversion H.
  - cbn [List.filter List.length].
    destruct (m !! r) as [c|] eqn:Hr.
    + assert (Hstep : count_replica (m, S) r
                      = (<[r := {| topics := topics c;
                                   partitions := partitions c + 1 |}]> m,
                         {[r]} ∪ S))
        by (unfold count_replica; rewrite Hr; reflexivity).
      rewrite Hstep. clear Hstep.
      specialize (IH (<[r := {| topics := topics c;
                                partitions := partitions c + 1 |}]> m)
                     ({[r]} ∪ S)).
      destruct (fold_left count_replica rs _) as [m' S'].
      destruct IH as [IHm IHS]. split.
      * rewrite IHm. destruct (decide (r = b)) as [->|Hne].
        -- rewrite lookup_insert_eq, Hr. simpl.
           rewrite bool_decide_eq_true_2 by reflexivity. simpl.
           unfold bump. simpl. f_equal. f_equal; lia.
        -- rewrite lookup_insert_ne by exact Hne.
           rewrite bool_decide_eq_false_2 by exact Hne. reflexivity.
      * rewrite IHS. rewrite elem_of_union, elem_of_singleton.
        destruct (decide (r = b)) as [->|Hne].
        -- rewrite lookup_insert_eq, Hr. split.
           ++ intros _. right. split; [left|eauto].
           ++ intros _. left. left. reflexivity.
        -- rewrite lookup_insert_ne by exact Hne. split.
           ++ intros [[H|H]|[H1 H2]]; [congruence|auto|].
              right. split; [right; exact H1|exact H2].
           ++ intros [H|[H1 H2]]; [auto|].
              apply elem_of_cons in H1 as [H1|H1]; [congruence|auto].
    + assert (Hstep : count_replica (m, S) r = (m, S))
        by (unfold count_replica; rewrite Hr; reflexivity).
      rewrite Hstep. clear Hstep.
      specialize (IH m S).
      destruct (fold_left count_replica rs (m, S)) as [m' S'].
      destruct IH as [IHm IHS]. split.
      * rewrite IHm. destruct (decide (r = b)) as [->|Hne].
        -- rewrite Hr. reflexivity.
        -- rewrite bool_decide_eq_false_2 by exact Hne. reflexivity.
      * rewrite IHS. split.
        -- intros [H|[H1 H2]]; [auto|]. right. split; [right; exact H1|exact H2].
        -- intros [H|[H1 H2]]; [auto|].
           apply elem_of_cons in H1 as [->|H1]; [|auto].
           rewrite Hr in H2. destruct H2 as [? ?]. discriminate.
Qed.

Lemma count_partitions_as_replicas (ps : list KafkaJS.PartitionMetadata)
    (acc : gmap Z TopicCounts * gset Z) :
  fold_left (fun acc partition =>
               fold_left count_replica (KafkaJS.replicas partition) acc)
            ps acc
  = fold_left count_replica (concat (List.map KafkaJS.replicas ps)) acc.
Proof.
  revert acc. induction ps as [|p ps IH]; intros acc; simpl; [reflexivity|].
  rewrite fold_left_app. apply IH.
Qed.

(** The topic counters of the brokers marked for a topic. *)
Lemma count_marked_lookup (m : gmap Z TopicCounts) (S : gset Z) (b : Z) :
  set_fold count_topic_for m S !! b
  = bump (if bool_decide (b ∈ S) then 1 else 0) 0 <$> m !! b.
Proof.
  pose (P := fun (r : gmap Z TopicCounts) (X : gset Z) =>
               r !! b
               = bump (if bool_decide (b ∈ X) then 1 else 0) 0 <$> m !! b).
  change (P (set_fold count_topic_for m S) S).
  apply set_fold_ind_L; unfold P; clear P.
  - rewrite bool_decide_eq_false_2 by apply not_elem_of_empty.
    destruct (m !! b) as [c|]; simpl; [rewrite bump_zero|]; reflexivity.
  - intros x X r Hx Hr. unfold count_topic_for.
    destruct (r !! x) as [c|] eqn:Hrx.
    + destruct (decide (x = b)) as [->|Hne].
      * rewrite lookup_insert_eq.
        rewrite bool_decide_eq_true_2 by (apply elem_of_union; left;
                                         apply elem_of_singleton; reflexivity).
        rewrite Hrx in Hr.
        rewrite bool_decide_eq_false_2 in Hr by exact Hx.
        destruct (m !! b) as [c0|]; simpl in *; [|discriminate].
        injection Hr as ->. rewrite bump_zero. unfold bump. simpl.
        f_equal. f_equal; lia.
      * rewrite lookup_insert_ne by exact Hne. rewrite Hr.
        destruct (bool_decide_reflect (b ∈ X)) as [Hin|Hnin].
        -- rewrite bool_decide_eq_true_2; [reflexivity|].
           apply elem_of_union. right. exact Hin.
        -- rewrite bool_decide_eq_false_2; [reflexivity|].
           rewrite elem_of_union, elem_of_singleton. intros [?|?]; congruence.
    + destruct (decide (x = b)) as [->|Hne].
      * rewrite Hrx in Hr. rewrite Hrx.
        destruct (m !! b); simpl in *; [discriminate|reflexivity].
      * rewrite Hr.
        destruct (bool_decide_reflect (b ∈ X)) as [Hin|Hnin].
        -- rewrite bool_decide_eq_true_2; [reflexivity|].
           apply elem_of_union. right. exact Hin.
        -- rewrite bool_decide_eq_false_2; [reflexivity|].
           rewrite elem_of_union, elem_of_singleton. intros [?|?]; congruence.
Qed.

(** One topic: a known broker gets one more topic if it hosts the topic,
    and as many partitions as it holds replicas of it. *)
Lemma count_topic_lookup (m : gmap Z TopicCounts)
    (tm : KafkaJS.ITopicMetadata) (b : Z) :
  count_topic m tm !! b
  = bump (if hosts b tm then 1 else 0) (replicas_on b tm) <$> m !! b.
Proof.
  unfold count_topic. rewrite count_partitions_as_replicas.
  fold (replica_ids tm).
  pose proof (count_replicas_lookup (replica_ids tm) m ∅ b) as H.
  destruct (fold_left count_replica (replica_ids tm) (m, ∅)) as [m' S'].
  destruct H as [Hm HS]. rewrite count_marked_lookup, Hm.
  destruct (m !! b) as [c|] eqn:Hb; simpl; [|reflexivity].
  rewrite bump_bump. unfold hosts, replicas_on.
  rewrite Nat.add_0_r, Nat.add_0_l.
  assert (Hmark : bool_decide (b ∈ S') = bool_decide (b ∈ replica_ids tm)).
  { apply bool_decide_ext. rewrite HS. split.
    - intros [H|[H _]]; [|exact H]. apply not_elem_of_empty in H. contradiction.
    - intros H. right. split; [exact H|eauto]. }
  rewrite Hmark. reflexivity.
Qed.

(** The whole sample. *)
Lemma count_topics_lookup (tms : list KafkaJS.ITopicMetadata)
    (m : gmap Z TopicCounts) (b : Z) :
  fold_left count_topic tms m !! b
  = bump (topics_on b tms) (partitions_on b tms) <$> m !! b.
Proof.
  revert m. induction tms as [|tm tms IH]; intros m; simpl.
  - destruct (m !! b); simpl; [rewrite bump_zero|]; reflexivity.
  - rewrite IH, count_topic_lookup. unfold topics_on, partitions_on. simpl.
    destruct (m !! b) as [c|]; simpl; [|reflexivity].
    rewrite bump_bump. f_equal.
    destruct (hosts b tm); simpl; f_equal; lia.
Qed.

Lemma floor_of_fraction (r : Q) (n : Z) :
  (0 <= r)%Q -> (r < 1)%Q -> 0 < n ->
  0 <= Math_floor (r * inject_Z n)%Q <= n - 1.
Proof.
  intros H0 H1 Hn. unfold Math_floor. split.
  - change 0 with (Qfloor 0). apply Qfloor_resp_le.
    apply Qmult_le_0_compat; [exact H0|]. rewrite <- (Zle_Qle 0). lia.
  - assert (Hlt : (r * inject_Z n < inject_Z n)%Q).
    { rewrite <- (Qmult_1_l (inject_Z n)) at 2.
      apply Qmult_lt_compat_r; [|exact H1].
      rewrite <- (Zlt_Qlt 0). exact Hn. }
    pose proof (Qfloor_le (r * inject_Z n)) as Hfl.
    assert (Hz : (inject_Z (Qfloor (r * inject_Z n)) < inject_Z n)%Q)
      by (eapply Qle_lt_trans; eassumption).
    rewrite <- Zlt_Qlt in Hz. lia.
Qed.

Lemma to_Broker_full metadata counts bm w :
  exists b,
    to_Broker metadata counts bm w = (Ok b, tick (tick (tick (tick w))))
    /\ counted_for counts b bm
    /\ (random_in_unit_interval (runtime w) -> broker_metrics_in_range b).
Proof.
  unfold to_Broker, random_below. unfold_M. cbv beta iota.
  eexists. split; [reflexivity|]. split; [repeat split|].
  intros Hr. unfold broker_metrics_in_range, tick.
  cbn [Broker.metrics Broker.diskUsage Broker.networkIn Broker.networkOut
       Broker.requestsPerSecond runtime ticks].
  pose proof (fun k h => floor_of_fraction _ k (proj1 (Hr (ticks w))) (proj2 (Hr (ticks w))) h) as H0.
  pose proof (fun k h => floor_of_fraction _ k (proj1 (Hr (S (ticks w)))) (proj2 (Hr (S (ticks w)))) h) as H1.
  pose proof (fun k h => floor_of_fraction _ k (proj1 (Hr (S (S (ticks w))))) (proj2 (Hr (S (S (ticks w))))) h) as H2.
  pose proof (fun k h => floor_of_fraction _ k (proj1 (Hr (S (S (S (ticks w)))))) (proj2 (Hr (S (S (S (ticks w)))))) h) as H3.
  specialize (H0 80 ltac:(lia)). specialize (H1 1000 ltac:(lia)).
  specialize (H2 800 ltac:(lia)). specialize (H3 5000 ltac:(lia)).
  unfold Math_floor in *. lia.
Qed.

Lemma map_to_Broker_full metadata counts bms w :
  exists bs w',
    mapM (to_Broker metadata counts) bms w = (Ok bs, w')
    /\ runtime w' = runtime w /\ calls w' = calls w
    /\ Forall2 (counted_for counts) bs bms
    /\ (random_in_unit_interval (runtime w) ->
        Forall broker_metrics_in_range bs).
Proof.
  revert w. induction bms as [|bm bms IH]; intros w; simpl.
  - eexists _, _. split; [reflexivity|]. repeat split; constructor.
  - destruct (to_Broker_full metadata counts bm w) as (b & Hb & Hrel & Hm).
    destruct (IH (tick (tick (tick (tick w)))))
      as (bs & w2 & Hbs & Hrt & Hcalls & Hrels & Hms).
    exists (b :: bs), w2. unfold mbind, M_bind. rewrite Hb, Hbs.
    split; [reflexivity|]. split; [exact Hrt|]. split; [exact Hcalls|].
    split; [constructor; assumption|].
    intros Hr. constructor; [apply Hm, Hr|apply Hms, Hr].
Qed.

(** The outcomes of the topic distribution: nothing (the topic list failed
    or is empty, or the metadata of the sample failed), or the counters of
    the sample, scaled when the sample is not the whole list. *)
Lemma broker_topic_counts_cases adm metadata w :
  exists counts w1,
    broker_topic_counts adm metadata w = (Ok counts, w1)
    /\ runtime w1 = runtime w
    /\ match KafkaJS.listTopics adm with
       | Throw _ => counts = ∅
       | Ok [] => counts = ∅
       | Ok all_topics =>
           match KafkaJS.fetchTopicMetadata adm (take 20 all_topics) with
           | Throw _ => counts = ∅
           | Ok tms =>
               counts
               = if (20 <? List.length all_topics)%nat
                 then scale_counts
                        (Number_div (inject_Z (array_length all_topics)) 20)
                      <$> sample_counts metadata tms
                 else sample_counts metadata tms
           end
       end.
Proof.
  unfold broker_topic_counts. unfold_M.
  destruct (KafkaJS.listTopics adm) as [all_topics|e]; cbv beta iota.
  2: { eexists _, _. split; [reflexivity|]. split; reflexivity. }
  destruct all_topics as [|t ts].
  { eexists _, _. split; [reflexivity|]. split; reflexivity. }
  set (all_topics := t :: ts).
  assert (Hpos : (0 <? array_length all_topics) = true) by reflexivity.
  rewrite Hpos. cbv beta iota zeta. unfold slice0.
  destruct (KafkaJS.fetchTopicMetadata adm (take 20 all_topics))
    as [tms|e]; cbv beta iota.
  2: { eexists _, _. split; [reflexivity|]. split; reflexivity. }
  fold (sample_counts metadata tms).
  destruct (Nat.ltb_spec 20 (List.length all_topics)) as [Hbig|Hsmall].
  - assert (Hlt : (array_length (take 20 all_topics)
                   <? array_length all_topics) = true).
    { apply Z.ltb_lt. unfold array_length. rewrite length_take. lia. }
    rewrite Hlt.
    assert (Hlen : array_length (take 20 all_topics) = 20).
    { unfold array_length. rewrite length_take. lia. }
    rewrite Hlen.
    eexists _, _. split; [reflexivity|]. split; reflexivity.
  - assert (Hlt : (array_length (take 20 all_topics)
                   <? array_length all_topics) = false).
    { apply Z.ltb_ge. unfold array_length. rewrite length_take. lia. }
    rewrite Hlt.
    eexists _, _. split; [reflexivity|]. split; reflexivity.
Qed.

(** The run of [getBrokers] on a connected singleton once [describeCluster]
    has answered. *)
Lemma getBrokers_run (w : World) adm metadata :
  admin (this w) = Some adm ->
  isConnected (this w) = true ->
  KafkaJS.describeCluster adm = Ok metadata ->
  exists counts w1 bs w',
    broker_topic_counts adm metadata (log_call KafkaJS.CallDescribeCluster w)
    = (Ok counts, w1)
    /\ mapM (to_Broker metadata counts) (KafkaJS.cm_brokers metadata) w1
       = (Ok bs, w')
    /\ getBrokers w = (Ok bs, w').
Proof.
  intros Ha Hc Hd.
  destruct (broker_topic_counts_cases adm metadata
              (log_call KafkaJS.CallDescribeCluster w))
    as (counts & w1 & Hcounts & _).
  destruct (map_to_Broker_full metadata counts (KafkaJS.cm_brokers metadata) w1)
    as (bs & w' & Hbs & _).
  exists counts, w1, bs, w'. split; [exact Hcounts|]. split; [exact Hbs|].
  unfold getBrokers, mbind at 1, M_bind at 1.
  rewrite (require_connection_passes w adm Ha Hc).
  unfold try_catch, await_admin, mbind, M_bind. rewrite Hd.
  cbv beta iota. rewrite Hcounts. cbv beta iota. rewrite Hbs. reflexivity.
Qed.

Lemma getBrokers_inv (w w' : World) (bs : list Broker.t) :
  getBrokers w = (Ok bs, w') ->
  exists adm metadata,
    admin (this w) = Some adm /\ isConnected (this w) = true
    /\ KafkaJS.describeCluster adm = Ok metadata.
Proof.
  unfold getBrokers, require_connection. unfold_M.
  destruct (admin (this w)) as [adm|]; cbv beta iota; [|discriminate].
  destruct (isConnected (this w)); cbv beta iota; [|discriminate].
  destruct (KafkaJS.describeCluster adm) as [metadata|e] eqn:Hd;
    cbv beta iota; [|discriminate].
  intros _. eauto.
Qed.

(** X11. [getBrokers()] does not fail because the topic distribution
    cannot be computed: when [listTopics] throws or returns no topic, or
    when the metadata of the sample cannot be fetched, it still returns
    one broker per reported broker, with its id, host and port, and with
    [topicCount] and [partitionCount] 0. *)
Theorem getBrokers_without_distribution (w : World) adm metadata :
  admin (this w) = Some adm ->
  isConnected (this w) = true ->
  KafkaJS.describeCluster adm = Ok metadata ->
  (exists e, KafkaJS.listTopics adm = Throw e)
  \/ KafkaJS.listTopics adm = Ok []
  \/ (exists all_topics e,
        KafkaJS.listTopics adm = Ok all_topics
        /\ KafkaJS.fetchTopicMetadata adm (take 20 all_topics) = Throw e) ->
  exists bs w',
    getBrokers w = (Ok bs, w')
    /\ Forall2 (counted_for ∅) bs (KafkaJS.cm_brokers metadata)
    /\ Forall (fun b => Broker.topicCount b = 0 /\ Broker.partitionCount b = 0) bs.
Proof.
  intros Ha Hc Hd Hfail.
  destruct (getBrokers_run w adm metadata Ha Hc Hd)
    as (counts & w1 & bs & w' & Hcounts & Hbs & Hrun).
  destruct (broker_topic_counts_cases adm metadata
              (log_call KafkaJS.CallDescribeCluster w))
    as (counts' & w1' & Hcounts' & _ & Hcase).
  rewrite Hcounts in Hcounts'. injection Hcounts' as <- <-.
  assert (Hempty : counts = ∅).
  { destruct Hfail as [[e He]|[He|(ts & e & Hl & Hf)]].
    - rewrite He in Hcase. exact Hcase.
    - rewrite He in Hcase. exact Hcase.
    - rewrite Hl in Hcase. destruct ts; [exact Hcase|].
      rewrite Hf in Hcase. exact Hcase. }
  subst counts.
  destruct (map_to_Broker_full metadata ∅ (KafkaJS.cm_brokers metadata) w1)
    as (bs' & w'' & Hbs' & _ & _ & Hrel & _).
  rewrite Hbs in Hbs'. injection Hbs' as <- <-.
  exists bs, w'. split; [exact Hrun|]. split; [exact Hrel|].
  clear - Hrel. induction Hrel as [|b bm bs bms Hb _ IH]; constructor; auto.
  destruct Hb as (_ & _ & _ & _ & Ht & Hp).
  rewrite lookup_empty in Ht, Hp. auto.
Qed.

Lemma getBrokers_without_distribution_witness :
  exists bs w',
    getBrokers (Sample.connected (Sample.cluster [1; 2] (Some 1) []))
    = (Ok bs, w')
    /\ List.length bs = 2%nat
    /\ Forall (fun b => Broker.topicCount b = 0 /\ Broker.partitionCount b = 0) bs.
Proof.
  destruct (getBrokers_without_distribution
              (Sample.connected (Sample.cluster [1; 2] (Some 1) []))
              (Sample.cluster [1; 2] (Some 1) [])
              {| KafkaJS.cm_brokers := [Sample.broker 1; Sample.broker 2];
                 KafkaJS.controller := Some 1;
                 KafkaJS.clusterId := js "sample" |}
              eq_refl eq_refl eq_refl (or_intror (or_introl eq_refl)))
    as (bs & w' & Hrun & Hrel & Hzero).
  exists bs, w'. split; [exact Hrun|]. split; [|exact Hzero].
  apply Forall2_length in Hrel. exact Hrel.
Defined.

Lemma Forall2_weaken_in {A B} (P Q : A -> B -> Prop) (l : list A) (k : list B) :
  Forall2 P l k -> (forall x y, y ∈ k -> P x y -> Q x y) -> Forall2 Q l k.
Proof.
  induction 1 as [|x y l k Hxy _ IH]; intros Himp; constructor.
  - apply Himp; [left|exact Hxy].
  - apply IH. intros x' y' Hin. apply Himp. right. exact Hin.
Qed.

Lemma sample_counts_lookup metadata tms (bm : KafkaJS.BrokerMetadata) :
  bm ∈ KafkaJS.cm_brokers metadata ->
  sample_counts metadata tms !! KafkaJS.nodeId bm
  = Some {| topics := Z.of_nat (topics_on (KafkaJS.nodeId bm) tms);
            partitions := Z.of_nat (partitions_on (KafkaJS.nodeId bm) tms) |}.
Proof.
  intros Hin. unfold sample_counts.
  rewrite count_topics_lookup, init_counts_lookup.
  rewrite bool_decide_eq_true_2.
  - reflexivity.
  - apply list_elem_of_fmap. exists bm. auto.
Qed.

(** X12. With at most twenty topics the distribution is exact: for every
    reported broker, [topicCount] is the number of topics of which the
    broker holds a replica and [partitionCount] is the number of replicas
    it holds, over the partitions of all topics. *)
Theorem getBrokers_exact_distribution
    (w : World) adm metadata (all_topics : list jsstring)
    (tms : list KafkaJS.ITopicMetadata) :
  admin (this w) = Some adm ->
  isConnected (this w) = true ->
  KafkaJS.describeCluster adm = Ok metadata ->
  KafkaJS.listTopics adm = Ok all_topics ->
  all_topics <> [] ->
  (List.length all_topics <= 20)%nat ->
  KafkaJS.fetchTopicMetadata adm all_topics = Ok tms ->
  exists bs w',
    getBrokers w = (Ok bs, w')
    /\ Forall2
         (fun b bm =>
            Broker.id b = KafkaJS.nodeId bm
            /\ Broker.topicCount b
               = Z.of_nat (topics_on (KafkaJS.nodeId bm) tms)
            /\ Broker.partitionCount b
               = Z.of_nat (partitions_on (KafkaJS.nodeId bm) tms))
         bs (KafkaJS.cm_brokers metadata).
Proof.
  intros Ha Hc Hd Hl Hne Hlen Hf.
  destruct (getBrokers_run w adm metadata Ha Hc Hd)
    as (counts & w1 & bs & w' & Hcounts & Hbs & Hrun).
  destruct (broker_topic_counts_cases adm metadata
              (log_call KafkaJS.CallDescribeCluster w))
    as (counts' & w1' & Hcounts' & _ & Hcase).
  rewrite Hcounts in Hcounts'. injection Hcounts' as <- <-.
  rewrite Hl in Hcase. destruct all_topics as [|t ts]; [contradiction|].
  rewrite take_ge in Hcase by exact Hlen. rewrite Hf in Hcase.
  destruct (Nat.ltb_spec 20 (List.length (t :: ts))) as [Hbig|_]; [lia|].
  subst counts.
  destruct (map_to_Broker_full metadata (sample_counts metadata tms)
              (KafkaJS.cm_brokers metadata) w1)
    as (bs' & w'' & Hbs' & _ & _ & Hrel & _).
  rewrite Hbs in Hbs'. injection Hbs' as <- <-.
  exists bs, w'. split; [exact Hrun|].
  eapply Forall2_weaken_in; [exact Hrel|].
  intros b bm Hin (Hid & _ & _ & _ & Ht & Hp).
  rewrite sample_counts_lookup in Ht, Hp by exact Hin. auto.
Qed.

Lemma getBrokers_exact_distribution_witness :
  exists bs w',
    getBrokers (Sample.connected Sample.two_brokers) = (Ok bs, w')
    /\ List.map (fun b => (Broker.id b, Broker.topicCount b, Broker.partitionCount b)) bs
       = [(1, 1, 2); (2, 1, 2)].
Proof.
  destruct (getBrokers_exact_distribution
              (Sample.connected Sample.two_brokers) Sample.two_brokers
              {| KafkaJS.cm_brokers := [Sample.broker 1; Sample.broker 2];
                 KafkaJS.controller := Some 1;
                 KafkaJS.clusterId := js "sample" |}
              [js "orders"; js "unassigned"]
              [Sample.orders; Sample.unassigned]
              eq_refl eq_refl eq_refl eq_refl)
    as (bs & w' & Hrun & Hrel).
  - discriminate.
  - simpl. lia.
  - vm_compute. reflexivity.
  - exists bs, w'. split; [exact Hrun|].
    inversion Hrel as [|b1 bm1 bs1 bms1 (Hi1 & Ht1 & Hp1) Hrel1]; subst.
    inversion Hrel1 as [|b2 bm2 bs2 bms2 (Hi2 & Ht2 & Hp2) Hrel2]; subst.
    inversion Hrel2; subst. simpl.
    rewrite Hi1, Ht1, Hp1, Hi2, Ht2, Hp2. reflexivity.
Defined.

Lemma hosts_replicas_on (b : Z) (tm : KafkaJS.ITopicMetadata) :
  hosts b tm = true -> (1 <= replicas_on b tm)%nat.
Proof.
  unfold hosts, replicas_on. intros H. apply bool_decide_eq_true in H.
  induction (replica_ids tm) as [|r rs IH]; [inversion H|]. simpl.
  destruct (bool_decide_reflect (r = b)) as [_|Hne]; simpl; [lia|].
  apply IH. apply elem_of_cons in H as [H|H]; [congruence|exact H].
Qed.

Lemma topics_on_le_partitions_on (b : Z) (tms : list KafkaJS.ITopicMetadata) :
  (topics_on b tms <= partitions_on b tms)%nat.
Proof.
  unfold topics_on, partitions_on.
  induction tms as [|tm tms IH]; simpl; [lia|].
  destruct (hosts b tm) eqn:Hh; simpl; [|lia].
  pose proof (hosts_replicas_on b tm Hh). lia.
Qed.

Lemma sample_counts_ordered metadata tms :
  ordered_counts (sample_counts metadata tms).
Proof.
  intros b c. unfold sample_counts.
  rewrite count_topics_lookup, init_counts_lookup, lookup_empty.
  destruct (bool_decide _); simpl; [|discriminate].
  intros H. injection H as <-. simpl.
  pose proof (topics_on_le_partitions_on b tms). lia.
Qed.

Lemma scale_counts_ordered (f : Q) (counts : gmap Z TopicCounts) :
  normal f -> ordered_counts counts ->
  ordered_counts (scale_counts f <$> counts).
Proof.
  intros Hf Hc b c. rewrite lookup_fmap.
  destruct (counts !! b) as [c0|] eqn:Hb; simpl; [|discriminate].
  intros H. injection H as <-. unfold scale_counts. simpl.
  apply scaled_counts_ordered; [exact (Hc b c0 Hb)|exact Hf].
Qed.

(** X13. In every list [getBrokers()] returns, scaled from a sample or
    not, no broker has a negative count and none has more topics than
    partitions; every broker is reported [online]. *)
Theorem getBrokers_counts_ordered (w w' : World) (bs : list Broker.t) :
  getBrokers w = (Ok bs, w') ->
  Forall (fun b => 0 <= Broker.topicCount b <= Broker.partitionCount b
                   /\ Broker.status b = online) bs.
Proof.
  intros Hrun0.
  destruct (getBrokers_inv w w' bs Hrun0) as (adm & metadata & Ha & Hc & Hd).
  destruct (getBrokers_run w adm metadata Ha Hc Hd)
    as (counts & w1 & bs' & w'' & Hcounts & Hbs & Hrun).
  rewrite Hrun0 in Hrun. injection Hrun as <- <-.
  destruct (broker_topic_counts_cases adm metadata
              (log_call KafkaJS.CallDescribeCluster w))
    as (counts' & w1' & Hcounts' & _ & Hcase).
  rewrite Hcounts in Hcounts'. injection Hcounts' as <- <-.
  assert (Hord : ordered_counts counts).
  { assert (Hempty : ordered_counts ∅)
      by (intros b c H; rewrite lookup_empty in H; discriminate).
    destruct (KafkaJS.listTopics adm) as [[|t ts]|e];
      [subst; exact Hempty| |subst; exact Hempty].
    destruct (KafkaJS.fetchTopicMetadata adm _) as [tms|e];
      [|subst; exact Hempty].
    subst counts.
    destruct (Nat.ltb_spec 20 (List.length (t :: ts))) as [Hbig|_].
    - apply scale_counts_ordered; [|apply sample_counts_ordered].
      apply (Number_div_counts_normal _ 20). unfold array_length. lia.
    - apply sample_counts_ordered. }
  destruct (map_to_Broker_full metadata counts (KafkaJS.cm_brokers metadata) w1)
    as (bs' & w'' & Hbs' & _ & _ & Hrel & _).
  rewrite Hbs in Hbs'. injection Hbs' as <- <-.
  clear - Hrel Hord.
  induction Hrel as [|b bm bs bms Hb _ IH]; constructor; [|exact IH].
  destruct Hb as (_ & _ & _ & Hs & Ht & Hp). split; [|exact Hs].
  rewrite Ht, Hp.
  destruct (counts !! KafkaJS.nodeId bm) as [c|] eqn:Hb; simpl; [|lia].
  apply (Hord _ _ Hb).
Qed.

Lemma getBrokers_counts_ordered_witness :
  exists bs w',
    getBrokers (Sample.connected forty_topics) = (Ok bs, w')
    /\ List.map (fun b => (Broker.topicCount b, Broker.partitionCount b)) bs
       = [(40, 78); (0, 0)]
    /\ Forall (fun b => 0 <= Broker.topicCount b <= Broker.partitionCount b
                        /\ Broker.status b = online) bs.
Proof.
  assert (Hcounts :
    List.map (fun b => (Broker.topicCount b, Broker.partitionCount b))
      (match fst (getBrokers (Sample.connected forty_topics)) with
       | Ok bs => bs
       | Throw _ => []
       end) = [(40, 78); (0, 0)]) by (vm_compute; reflexivity).
  destruct (getBrokers (Sample.connected forty_topics)) as [[bs|e] w'] eqn:Hrun;
    [|discriminate Hcounts].
  exists bs, w'. split; [reflexivity|]. split; [exact Hcounts|].
  exact (getBrokers_counts_ordered _ _ _ Hrun).
Defined.

(** X14. When [Math.random()] answers in the interval from 0 to 1, the
    placeholder metrics of every broker [getBrokers()] returns are in
    range: the disk usage between 10 and 89 GiB, the traffic below 1000
    and 800 KiB/s, the request rate between 1000 and 5999. *)
Theorem getBrokers_metrics_in_range (w w' : World) (bs : list Broker.t) :
  random_in_unit_interval (runtime w) ->
  getBrokers w = (Ok bs, w') ->
  Forall broker_metrics_in_range bs.
Proof.
  intros Hr Hrun0.
  destruct (getBrokers_inv w w' bs Hrun0) as (adm & metadata & Ha & Hc & Hd).
  destruct (getBrokers_run w adm metadata Ha Hc Hd)
    as (counts & w1 & bs' & w'' & Hcounts & Hbs & Hrun).
  rewrite Hrun0 in Hrun. injection Hrun as <- <-.
  destruct (broker_topic_counts_cases adm metadata
              (log_call KafkaJS.CallDescribeCluster w))
    as (counts' & w1' & Hcounts' & Hrt & _).
  rewrite Hcounts in Hcounts'. injection Hcounts' as <- <-.
  destruct (map_to_Broker_full metadata counts (KafkaJS.cm_brokers metadata) w1)
    as (bs' & w'' & Hbs' & _ & _ & _ & Hm).
  rewrite Hbs in Hbs'. injection Hbs' as <- <-.
  apply Hm. rewrite Hrt. exact Hr.
Qed.

Lemma getBrokers_metrics_in_range_witness :
  exists bs w',
    getBrokers (Sample.connected Sample.two_brokers) = (Ok bs, w')
    /\ Forall broker_metrics_in_range bs.
Proof.
  destruct (getBrokers (Sample.connected Sample.two_brokers))
    as [[bs|e] w'] eqn:Hrun; [|vm_compute in Hrun; discriminate].
  exists bs, w'. split; [reflexivity|].
  assert (Hr : random_in_unit_interval
                 (runtime (Sample.connected Sample.two_brokers)))
    by (intros n; split; reflexivity || discriminate).
  exact (getBrokers_metrics_in_range _ _ _ Hr Hrun).
Defined.

(** ** Commands *)

Lemma array_includes_In (xs : list jsstring) (x : jsstring) :
  array_includes xs x = true <-> In x xs.
Proof.
  unfold array_includes, jsstring_eqb. rewrite existsb_exists. split.
  - intros (y & Hy & Heq). apply bool_decide_eq_true in Heq. subst. exact Hy.
  - intros Hx. exists x. split; [exact Hx|]. apply bool_decide_eq_true.
    reflexivity.
Qed.

Lemma array_includes_not_In (xs : list jsstring) (x : jsstring) :
  array_includes xs x = false <-> ~ In x xs.
Proof.
  rewrite <- array_includes_In. destruct (array_includes xs x); split;
    congruence.
Qed.

(** X15. Asked for a valid name the cluster already lists, [createTopic]
    throws [Failed to create topic: Topic '<name>' already exists] for
    every partition count, replication factor and configuration; it has
    called [listTopics] and nothing else, so neither the broker count nor
    a creation was requested. *)
Theorem createTopic_existing_name_refused (w : World) adm
    (existingTopics : list jsstring) (topicName : jsstring)
    (partitions replicationFactor : Z) (config : StringRecord) :
  admin (this w) = Some adm ->
  isConnected (this w) = true ->
  valid_topic_name topicName ->
  KafkaJS.listTopics adm = Ok existingTopics ->
  In topicName existingTopics ->
  exists w',
    createTopic topicName partitions replicationFactor config w
    = (Throw (JsError (js "Failed to create topic: Topic '" ++ topicName
                       ++ js "' already exists")), w')
    /\ calls w' = calls w ++ [KafkaJS.CallListTopics]
    /\ this w' = this w.
Proof.
  intros Ha Hc Hv Hl Hin.
  destruct (valid_name_passes_service_checks _ Hv) as (H1 & H2 & H3).
  apply array_includes_In in Hin.
  unfold createTopic, require_connection. unfold_M. rewrite Ha, Hc.
  cbv beta iota. rewrite H1, H2, H3, Hl. cbv beta iota. rewrite Hin.
  eexists. split; [reflexivity|]. split; reflexivity.
Qed.

Lemma createTopic_existing_name_refused_witness :
  exists w',
    createTopic (js "orders") 3 1 [] (Sample.connected Sample.two_brokers)
    = (Throw (JsError (js "Failed to create topic: Topic 'orders' already exists")),
       w')
    /\ calls w' = calls (Sample.connected Sample.two_brokers)
                  ++ [KafkaJS.CallListTopics]
    /\ this w' = this (Sample.connected Sample.two_brokers).
Proof.
  apply (createTopic_existing_name_refused
           (Sample.connected Sample.two_brokers) Sample.two_brokers
           [js "orders"; js "unassigned"] (js "orders") 3 1 []).
  - reflexivity.
  - reflexivity.
  - split; [reflexivity|vm_compute; discriminate].
  - reflexivity.
  - left. reflexivity.
Defined.

(** X16. On a connected singleton whose [listTopics] answers,
    [deleteTopic] sends a deletion exactly when the name is listed. A
    name that is not listed gives [Failed to delete topic: Topic '<name>'
    does not exist] after [listTopics] alone; a listed name gives one
    [deleteTopics] call for that one name with a timeout of 30000 ms, and
    [deleteTopic] returns exactly when that call does. The connection
    state is unchanged in both cases. *)
Theorem deleteTopic_deletes_listed_names_only (w : World) adm
    (existingTopics : list jsstring) (topicName : jsstring) :
  admin (this w) = Some adm ->
  isConnected (this w) = true ->
  KafkaJS.listTopics adm = Ok existingTopics ->
  exists r w',
    deleteTopic topicName w = (r, w')
    /\ this w' = this w
    /\ (~ In topicName existingTopics ->
        r = Throw (JsError (js "Failed to delete topic: Topic '" ++ topicName
                            ++ js "' does not exist"))
        /\ calls w' = calls w ++ [KafkaJS.CallListTopics])
    /\ (In topicName existingTopics ->
        calls w' = calls w ++ [KafkaJS.CallListTopics;
                               KafkaJS.CallDeleteTopics
                                 (deleteTopics_request topicName)]
        /\ (r = Ok tt
            <-> KafkaJS.deleteTopics adm (deleteTopics_request topicName)
                = Ok tt)).
Proof.
  intros Ha Hc Hl.
  unfold deleteTopic, require_connection. unfold_M. rewrite Ha, Hc.
  cbv beta iota. rewrite Hl. cbv beta iota.
  destruct (array_includes existingTopics topicName) eqn:Hin; cbv beta iota.
  - apply array_includes_In in Hin. fold (deleteTopics_request topicName).
    destruct (KafkaJS.deleteTopics adm (deleteTopics_request topicName))
      as [[]|e]; cbv beta iota.
    + eexists _, _. split; [reflexivity|]. split; [reflexivity|].
      split; [intros Hn; contradiction|]. intros _. split.
      * simpl. rewrite <- app_assoc. reflexivity.
      * split; reflexivity.
    + eexists _, _. split; [reflexivity|]. split; [reflexivity|].
      split; [intros Hn; contradiction|]. intros _. split.
      * simpl. rewrite <- app_assoc. reflexivity.
      * split; discriminate.
  - apply array_includes_not_In in Hin.
    eexists _, _. split; [reflexivity|]. split; [reflexivity|].
    split; [|intros Hn; contradiction]. intros _. split; reflexivity.
Qed.

Lemma deleteTopic_deletes_listed_names_only_witness :
  exists r w',
    deleteTopic (js "payments") (Sample.connected Sample.two_brokers) = (r, w')
    /\ r = Throw (JsError (js "Failed to delete topic: Topic 'payments' does not exist"))
    /\ calls w' = calls (Sample.connected Sample.two_brokers)
                  ++ [KafkaJS.CallListTopics].
Proof.
  destruct (deleteTopic_deletes_listed_names_only
              (Sample.connected Sample.two_brokers) Sample.two_brokers
              [js "orders"; js "unassigned"] (js "payments")
              eq_refl eq_refl eq_refl)
    as (r & w' & Hrun & _ & Hout & _).
  exists r, w'. split; [exact Hrun|]. apply Hout.
  intros [H|[H|[]]]; vm_compute in H; discriminate.
Defined.

(** X17. On a connected singleton whose [listTopics] answers,
    [updateTopicConfig] alters a configuration exactly when the topic is
    listed. For a topic that is not listed it throws [Failed to update
    topic configuration: Topic '<name>' does not exist] after [listTopics]
    alone; for a listed topic it sends one [alterConfigs] call, not in
    validate-only mode, for the one resource of type 2 with that name,
    carrying one entry per key of the update in the order of the keys. *)
Theorem updateTopicConfig_alters_listed_topics_only (w : World) adm
    (existingTopics : list jsstring) (topicName : jsstring)
    (configUpdates : StringRecord) :
  admin (this w) = Some adm ->
  isConnected (this w) = true ->
  KafkaJS.listTopics adm = Ok existingTopics ->
  exists r w',
    updateTopicConfig topicName configUpdates w = (r, w')
    /\ this w' = this w
    /\ (~ In topicName existingTopics ->
        r = Throw (JsError (js "Failed to update topic configuration: Topic '"
                            ++ topicName ++ js "' does not exist"))
        /\ calls w' = calls w ++ [KafkaJS.CallListTopics])
    /\ (In topicName existingTopics ->
        exists req,
          calls w' = calls w ++ [KafkaJS.CallListTopics;
                                 KafkaJS.CallAlterConfigs req]
          /\ KafkaJS.ac_validateOnly req = false
          /\ List.map (fun rc => (KafkaJS.rc_type rc, KafkaJS.rc_name rc))
                      (KafkaJS.ac_resources req) = [(2, topicName)]
          /\ List.map (fun rc =>
                         List.map (fun e => (KafkaJS.ce_name e,
                                             KafkaJS.ce_value e))
                                  (KafkaJS.rc_configEntries rc))
                      (KafkaJS.ac_resources req) = [configUpdates]
          /\ (r = Ok tt <-> KafkaJS.alterConfigs adm req = Ok tt)).
Proof.
  intros Ha Hc Hl.
  assert (Hentries :
    List.map (fun e => (KafkaJS.ce_name e, KafkaJS.ce_value e))
             (to_configEntries configUpdates) = configUpdates).
  { unfold to_configEntries. induction configUpdates as [|[k v] rest IH];
      [reflexivity|]. simpl. rewrite IH. reflexivity. }
  unfold updateTopicConfig, require_connection. unfold_M. rewrite Ha, Hc.
  cbv beta iota. rewrite Hl. cbv beta iota.
  destruct (array_includes existingTopics topicName) eqn:Hin; cbv beta iota.
  - apply array_includes_In in Hin.
    fold (alterConfigs_request topicName configUpdates).
    destruct (KafkaJS.alterConfigs adm
                (alterConfigs_request topicName configUpdates))
      as [[]|e] eqn:Hcall; cbv beta iota.
    + eexists _, _. split; [reflexivity|]. split; [reflexivity|].
      split; [intros Hn; contradiction|]. intros _.
      exists (alterConfigs_request topicName configUpdates).
      split; [simpl; rewrite <- app_assoc; reflexivity|].
      split; [reflexivity|]. split; [reflexivity|].
      split; [simpl; rewrite Hentries; reflexivity|].
      rewrite Hcall. split; reflexivity.
    + eexists _, _. split; [reflexivity|]. split; [reflexivity|].
      split; [intros Hn; contradiction|]. intros _.
      exists (alterConfigs_request topicName configUpdates).
      split; [simpl; rewrite <- app_assoc; reflexivity|].
      split; [reflexivity|]. split; [reflexivity|].
      split; [simpl; rewrite Hentries; reflexivity|].
      rewrite Hcall. split; discriminate.
  - apply array_includes_not_In in Hin.
    eexists _, _. split; [reflexivity|]. split; [reflexivity|].
    split; [|intros Hn; contradiction]. intros _. split; reflexivity.
Qed.

Lemma updateTopicConfig_alters_listed_topics_only_witness :
  exists r w' req,
    updateTopicConfig (js "orders") [(js "retention.ms", js "1000")]
                      (Sample.connected Sample.two_brokers) = (r, w')
    /\ calls w' = calls (Sample.connected Sample.two_brokers)
                  ++ [KafkaJS.CallListTopics; KafkaJS.CallAlterConfigs req]
    /\ KafkaJS.ac_validateOnly req = false.
Proof.
  destruct (updateTopicConfig_alters_listed_topics_only
              (Sample.connected Sample.two_brokers) Sample.two_brokers
              [js "orders"; js "unassigned"] (js "orders")
              [(js "retention.ms", js "1000")]
              eq_refl eq_refl eq_refl)
    as (r & w' & Hrun & _ & _ & Hin).
  destruct (Hin (or_introl eq_refl)) as (req & Hcalls & Hv & _).
  exists r, w', req. split; [exact Hrun|]. split; assumption.
Defined.

Lemma guarded_method_error {A} (prefix : string) (body : KafkaJS.Admin -> M A)
    (w w' : World) (e : thrown) :
  (adm ← require_connection;
   try_catch (body adm) (rethrow_with (js prefix))) w = (Throw e, w') ->
  method_error prefix e.
Proof.
  unfold require_connection. unfold_M.
  destruct (admin (this w)) as [adm|]; [destruct (isConnected (this w))|];
    cbv beta iota.
  - destruct (body adm w) as [[a|cause] w1]; intros H; [discriminate|].
    injection H as <- _. right. eexists. reflexivity.
  - intros H. injection H as <- _. left. reflexivity.
  - intros H. injection H as <- _. left. reflexivity.
Qed.

(** X18. Whatever goes wrong inside them, the seven aggregation and
    command methods throw [Error] objects only: either the not-connected
    error, or an error whose message starts with the prefix of the method;
    a value that is not an [Error], rejected by the client, does not
    escape. *)
Theorem service_methods_throw_prefixed_errors (w w' : World) (e : thrown) :
  (getClusterOverview w = (Throw e, w') ->
   method_error "Failed to fetch cluster overview: " e)
  /\ (getBrokers w = (Throw e, w') ->
      method_error "Failed to fetch brokers: " e)
  /\ (getTopics w = (Throw e, w') ->
      method_error "Failed to fetch topics: " e)
  /\ (forall topicName,
        getTopicDetails topicName w = (Throw e, w') ->
        method_error "Failed to fetch topic details: " e)
  /\ (forall topicName partitions replicationFactor config,
        createTopic topicName partitions replicationFactor config w
        = (Throw e, w') ->
        method_error "Failed to create topic: " e)
  /\ (forall topicName,
        deleteTopic topicName w = (Throw e, w') ->
        method_error "Failed to delete topic: " e)
  /\ (forall topicName configUpdates,
        updateTopicConfig topicName configUpdates w = (Throw e, w') ->
        method_error "Failed to update topic configuration: " e).
Proof.
  repeat split; intros;
    match goal with
    | H : _ = (Throw e, w') |- _ =>
        unfold getClusterOverview, getBrokers, getTopics, getTopicDetails,
          createTopic, deleteTopic, updateTopicConfig in H;
        exact (guarded_method_error _ _ _ _ _ H)
    end.
Qed.

Lemma service_methods_throw_prefixed_errors_witness :
  exists e w',
    deleteTopic (js "orders") (Sample.connected silent) = (Throw e, w')
    /\ method_error "Failed to delete topic: " e.
Proof.
  destruct (deleteTopic (js "orders") (Sample.connected silent))
    as [[[]|e] w'] eqn:Hrun;
    [apply (f_equal fst) in Hrun; vm_compute in Hrun; discriminate|].
  exists e, w'. split; [reflexivity|].
  destruct (service_methods_throw_prefixed_errors
              (Sample.connected silent) w' e)
    as (_ & _ & _ & _ & _ & Hdelete & _).
  exact (Hdelete (js "orders") Hrun).
Defined.

(** ** Placeholder metrics of topics *)

Lemma to_KafkaTopic_metrics config tm w :
  random_in_unit_interval (runtime w) ->
  exists t,
    to_KafkaTopic config tm w = (Ok t, tick (tick (tick w)))
    /\ topic_metrics_in_range t /\ KafkaTopic.status t = active.
Proof.
  intros Hr. unfold to_KafkaTopic, random_below. unfold_M. cbv beta iota.
  eexists. split; [reflexivity|]. split; [|reflexivity].
  unfold topic_metrics_in_range, tick.
  cbn [KafkaTopic.metrics KafkaTopic.messageCount KafkaTopic.sizeBytes
       KafkaTopic.consumerLag runtime ticks].
  pose proof (fun k h => floor_of_fraction _ k (proj1 (Hr (ticks w))) (proj2 (Hr (ticks w))) h) as H0.
  pose proof (fun k h => floor_of_fraction _ k (proj1 (Hr (S (ticks w)))) (proj2 (Hr (S (ticks w)))) h) as H1.
  pose proof (fun k h => floor_of_fraction _ k (proj1 (Hr (S (S (ticks w))))) (proj2 (Hr (S (S (ticks w))))) h) as H2.
  specialize (H0 100000 ltac:(lia)). specialize (H1 1000000 ltac:(lia)).
  specialize (H2 1000 ltac:(lia)).
  unfold Math_floor in *. lia.
Qed.

Lemma map_to_KafkaTopic_metrics
    (config_of : KafkaJS.ITopicMetadata -> ConfigValue) tms w ts w' :
  random_in_unit_interval (runtime w) ->
  mapM (fun tm => to_KafkaTopic (config_of tm) tm) tms w = (Ok ts, w') ->
  Forall (fun t => topic_metrics_in_range t /\ KafkaTopic.status t = active) ts.
Proof.
  revert w ts w'. induction tms as [|tm tms IH]; intros w ts w' Hr; simpl.
  - unfold mret, M_ret. intros H. injection H as <- _. constructor.
  - destruct (to_KafkaTopic_metrics (config_of tm) tm w Hr) as (t & Ht & Hm).
    unfold mbind, M_bind. rewrite Ht.
    destruct (mapM _ tms (tick (tick (tick w)))) as [[ts'|e] w2] eqn:Hts;
      [|discriminate].
    unfold mret, M_ret. intros H. injection H as <- _.
    constructor; [exact Hm|]. eapply IH; [|exact Hts]. exact Hr.
Qed.

(** X19. When [Math.random()] answers in the interval from 0 to 1, every
    topic [getTopics()] or [getTopicDetails()] returns is [active] and has
    placeholder metrics in range: fewer than 100000 messages, fewer than
    1000000 bytes and a consumer lag below 1000, none of them negative. *)
Theorem topic_metrics_are_in_range (w : World) :
  random_in_unit_interval (runtime w) ->
  (forall ts w', getTopics w = (Ok ts, w') ->
     Forall (fun t => topic_metrics_in_range t /\ KafkaTopic.status t = active)
            ts)
  /\ (forall topicName t w',
        getTopicDetails topicName w = (Ok t, w') ->
        topic_metrics_in_range t /\ KafkaTopic.status t = active).
Proof.
  intros Hr. split.
  - intros ts w'. unfold getTopics, require_connection, fetch_topicConfigs.
    unfold_M.
    destruct (admin (this w)) as [adm|]; [|discriminate].
    destruct (isConnected (this w)); [|discriminate]. cbv beta iota zeta.
    destruct (KafkaJS.listTopics adm) as [topicNames|e]; [|discriminate].
    cbv beta iota.
    destruct (array_length topicNames =? 0).
    { intros H. injection H as <- _. constructor. }
    destruct (KafkaJS.fetchTopicMetadata adm topicNames) as [tms|e];
      [|discriminate].
    cbv beta iota.
    match goal with
    | |- context [KafkaJS.describeConfigs adm ?r] =>
        destruct (KafkaJS.describeConfigs adm r) as [resources|e0]
    end; cbv beta iota.
    + match goal with
      | |- context [mapM ?f tms ?w0] =>
          destruct (mapM f tms w0) as [[ts'|e] w2] eqn:Hrun; [|discriminate]
      end.
      intros H. injection H as <- _.
      eapply map_to_KafkaTopic_metrics; [|exact Hrun]. exact Hr.
    + match goal with
      | |- context [mapM ?f tms ?w0] =>
          destruct (mapM f tms w0) as [[ts'|e] w2] eqn:Hrun; [|discriminate]
      end.
      intros H. injection H as <- _.
      eapply map_to_KafkaTopic_metrics; [|exact Hrun]. exact Hr.
  - intros topicName t w'.
    unfold getTopicDetails, require_connection, fetch_config. unfold_M.
    destruct (admin (this w)) as [adm|]; [|discriminate].
    destruct (isConnected (this w)); [|discriminate]. cbv beta iota zeta.
    destruct (KafkaJS.fetchTopicMetadata adm [topicName]) as [[|tm tms]|e];
      [discriminate| |discriminate].
    cbv beta iota.
    match goal with
    | |- context [KafkaJS.describeConfigs adm ?r] =>
        destruct (KafkaJS.describeConfigs adm r) as [[|resource rest]|e0]
    end; cbv beta iota;
      match goal with
      | |- context [to_KafkaTopic ?cfg tm ?w0] =>
          destruct (to_KafkaTopic_metrics cfg tm w0 Hr) as (t0 & Ht & Hm);
          rewrite Ht; intros H; injection H as <- _; exact Hm
      end.
Qed.

Lemma topic_metrics_are_in_range_witness :
  exists t w',
    getTopicDetails (js "orders") (Sample.connected Sample.two_brokers)
    = (Ok t, w')
    /\ topic_metrics_in_range t /\ KafkaTopic.status t = active.
Proof.
  assert (Hr : random_in_unit_interval
                 (runtime (Sample.connected Sample.two_brokers)))
    by (intros n; split; reflexivity || discriminate).
  destruct (getTopicDetails (js "orders") (Sample.connected Sample.two_brokers))
    as [[t|e] w'] eqn:Hrun;
    [|apply (f_equal fst) in Hrun; vm_compute in Hrun; discriminate].
  exists t, w'. split; [reflexivity|].
  exact (proj2 (topic_metrics_are_in_range _ Hr) _ _ _ Hrun).
Defined.

(** ** The routes *)

Lemma fold_left_sum_shift {A} (f : A -> Z) (xs : list A) (a : Z) :
  fold_left (fun sum t => sum + f t) xs a
  = a + fold_left (fun sum t => sum + f t) xs 0.
Proof.
  revert a. induction xs as [|x xs IH]; intros a; simpl; [lia|].
  rewrite (IH (a + f x)), (IH (0 + f x)). lia.
Qed.

Lemma fold_left_sum_between {A} (f : A -> Z) (xs : list A) (lo hi : Z) :
  Forall (fun t => lo <= f t <= hi) xs ->
  array_length xs * lo <= fold_left (fun sum t => sum + f t) xs 0
  <= array_length xs * hi.
Proof.
  unfold array_length. induction 1 as [|x xs Hx _ IH].
  - simpl. lia.
  - cbn [fold_left List.length]. rewrite fold_left_sum_shift. lia.
Qed.

Lemma Math_round_integer (n : Z) : Math_round (inject_Z n) = n.
Proof.
  unfold Math_round.
  assert (H : (inject_Z n + (1 # 2) == (2 * n + 1) # 2)%Q).
  { unfold Qeq, Qplus, inject_Z. simpl. lia. }
  rewrite H. unfold Qfloor. symmetry.
  apply Z.div_unique with (r := 1); lia.
Qed.

(** The rounded mean lies between any two integers that bound the
    values. *)
Lemma average_between (f : KafkaTopic.t -> Z) (topics : list KafkaTopic.t)
    (lo hi : Z) :
  topics <> [] ->
  Forall (fun t => lo <= f t <= hi) topics ->
  lo <= TopicsRouteGET.average f topics <= hi.
Proof.
  intros Hne Hall. unfold TopicsRouteGET.average.
  assert (Hpos : 0 < array_length topics).
  { unfold array_length. destruct topics; [contradiction|]. simpl. lia. }
  apply Z.ltb_lt in Hpos as Hb. rewrite Hb. cbv zeta.
  pose proof (fold_left_sum_between f topics lo hi Hall) as [Hlo Hhi].
  set (total := fold_left (fun sum t => sum + f t) topics 0) in *.
  assert (HposQ : (0 < inject_Z (array_length topics))%Q)
    by (rewrite <- (Zlt_Qlt 0); exact Hpos).
  split.
  - rewrite <- (Math_round_integer lo). apply Math_round_mono.
    apply Qle_shift_div_l; [exact HposQ|].
    rewrite <- inject_Z_mult, <- Zle_Qle. lia.
  - rewrite <- (Math_round_integer hi). apply Math_round_mono.
    apply Qle_shift_div_r; [exact HposQ|].
    rewrite <- inject_Z_mult, <- Zle_Qle. lia.
Qed.

(** X20. [GET /api/kafka/topics] always answers, with 401, 503 or 200 and
    never 500: 401 without touching the cluster exactly when no
    connection is active; otherwise 200 with the list of [getTopics()]
    and its length as [count] and [totalTopics], or, when [getTopics()]
    throws, 503 with the message of the error, an empty list and a count
    of 0. Whenever the body carries [data], [count] is its length. *)
Theorem topics_route_GET_outcomes (w : World) :
  exists resp w',
    TopicsRouteGET.GET w = (Ok resp, w')
    /\ (isConnectionActive (this w) = false ->
        TopicsRouteGET.status resp = 401
        /\ TopicsRouteGET.data (TopicsRouteGET.body resp) = None
        /\ w' = w)
    /\ (isConnectionActive (this w) = true ->
        match getTopics w with
        | (Ok topics, w1) =>
            TopicsRouteGET.status resp = 200
            /\ TopicsRouteGET.success (TopicsRouteGET.body resp) = true
            /\ TopicsRouteGET.data (TopicsRouteGET.body resp) = Some topics
            /\ (TopicsRouteGET.totalTopics
                  <$> TopicsRouteGET.metadata (TopicsRouteGET.body resp))
               = Some (array_length topics)
            /\ calls w' = calls w1
        | (Throw e, w1) =>
            TopicsRouteGET.status resp = 503
            /\ TopicsRouteGET.success (TopicsRouteGET.body resp) = false
            /\ TopicsRouteGET.error (TopicsRouteGET.body resp)
               = Some (message_or (js "Failed to fetch topic information") e)
            /\ TopicsRouteGET.data (TopicsRouteGET.body resp) = Some []
            /\ w' = w1
        end)
    /\ (forall topics,
          TopicsRouteGET.data (TopicsRouteGET.body resp) = Some topics ->
          TopicsRouteGET.count (TopicsRouteGET.body resp)
          = Some (array_length topics)).
Proof.
  unfold TopicsRouteGET.GET. unfold_M.
  destruct (isConnectionActive (this w)); cbv beta iota; unfold negb.
  - destruct (getTopics w) as [[topics|e] w1]; cbv beta iota.
    + eexists _, _. split; [reflexivity|]. split; [discriminate|].
      split; [intros _; repeat split|].
      intros ts H. injection H as <-. reflexivity.
    + eexists _, _. split; [reflexivity|]. split; [discriminate|].
      split; [intros _; repeat split|].
      intros ts H. injection H as <-. reflexivity.
  - eexists _, _. split; [reflexivity|]. split; [intros _; repeat split|].
    split; [discriminate|]. intros ts H. discriminate H.
Qed.

(** X21. In the body of a [GET /api/kafka/topics] answer that lists at
    least one topic, [avgPartitions] and [avgReplicationFactor] lie
    between the smallest and the largest value of the listed topics: when
    every topic has between [lo] and [hi] partitions (replicas), so has
    the rounded mean. *)
Theorem topics_route_averages_between (w w' : World)
    (resp : TopicsRouteGET.Response) (topics : list KafkaTopic.t)
    (lo hi lo' hi' : Z) :
  TopicsRouteGET.GET w = (Ok resp, w') ->
  TopicsRouteGET.data (TopicsRouteGET.body resp) = Some topics ->
  topics <> [] ->
  Forall (fun t => lo <= KafkaTopic.partitions t <= hi
                   /\ lo' <= KafkaTopic.replicationFactor t <= hi') topics ->
  exists m,
    TopicsRouteGET.metadata (TopicsRouteGET.body resp) = Some m
    /\ lo <= TopicsRouteGET.avgPartitions m <= hi
    /\ lo' <= TopicsRouteGET.avgReplicationFactor m <= hi'.
Proof.
  unfold TopicsRouteGET.GET. unfold_M.
  destruct (isConnectionActive (this w)); cbv beta iota; unfold negb.
  - destruct (getTopics w) as [[ts|e] w1]; cbv beta iota.
    + intros H. injection H as <- _. cbn [TopicsRouteGET.body
        TopicsRouteGET.data TopicsRouteGET.metadata].
      intros H. injection H as ->. intros Hne Hall.
      eexists. split; [reflexivity|].
      cbn [TopicsRouteGET.avgPartitions TopicsRouteGET.avgReplicationFactor].
      split; apply average_between; try exact Hne;
        (eapply Forall_impl; [exact Hall|]); intros t [H1 H2]; assumption.
    + intros H. injection H as <- _. cbn [TopicsRouteGET.body
        TopicsRouteGET.data]. intros H. injection H as <-.
      intros Hne. contradiction.
  - intros H. injection H as <- _. discriminate.
Qed.

Lemma topics_route_averages_between_witness :
  exists resp w' m,
    TopicsRouteGET.GET (Sample.connected Sample.two_brokers) = (Ok resp, w')
    /\ TopicsRouteGET.metadata (TopicsRouteGET.body resp) = Some m
    /\ 1 <= TopicsRouteGET.avgPartitions m <= 2
    /\ 1 <= TopicsRouteGET.avgReplicationFactor m <= 2.
Proof.
  destruct (TopicsRouteGET.GET (Sample.connected Sample.two_brokers))
    as [[resp|e] w'] eqn:Hrun;
    [|apply (f_equal fst) in Hrun; vm_compute in Hrun; discriminate].
  destruct (TopicsRouteGET.data (TopicsRouteGET.body resp))
    as [topics|] eqn:Hdata.
  2: { exfalso. assert (H : is_Some
         (match fst (TopicsRouteGET.GET (Sample.connected Sample.two_brokers))
          with
          | Ok r => TopicsRouteGET.data (TopicsRouteGET.body r)
          | Throw _ => None
          end)) by (vm_compute; eauto).
       rewrite Hrun in H. cbn [fst] in H. rewrite Hdata in H.
       destruct H as [x H]. discriminate H. }
  assert (Hall :
    match fst (TopicsRouteGET.GET (Sample.connected Sample.two_brokers)) with
    | Ok r =>
        List.map (fun t => (KafkaTopic.partitions t,
                            KafkaTopic.replicationFactor t))
                 (default [] (TopicsRouteGET.data (TopicsRouteGET.body r)))
    | Throw _ => []
    end = [(2, 2); (1, 1)]) by (vm_compute; reflexivity).
  rewrite Hrun in Hall. cbn [fst] in Hall. rewrite Hdata in Hall.
  cbn [default] in Hall.
  destruct topics as [|t1 [|t2 [|t3 rest]]]; try discriminate Hall.
  injection Hall as H1 H1' H2 H2'.
  destruct (topics_route_averages_between _ _ _ _ 1 2 1 2 Hrun Hdata)
    as (m & Hm & Hp & Hr).
  - discriminate.
  - repeat constructor; lia.
  - exists resp, w', m. repeat split; assumption || apply Hp || apply Hr.
Defined.

(** X22. [GET /api/kafka/brokers] on a connected singleton depends on
    [describeCluster] alone: when it answers, the route answers 200 with
    one broker per broker of the metadata and their number as [count],
    whatever the topic RPCs do; when it throws, the route answers 503
    with the wrapped message, an empty list and no [count]. Without an
    active connection the route answers 401 and leaves the cluster
    alone. *)
Theorem brokers_route_follows_describeCluster (w : World) :
  (isConnectionActive (this w) = false ->
   exists resp,
     BrokersRoute.GET w = (Ok resp, w)
     /\ BrokersRoute.status resp = 401
     /\ BrokersRoute.data (BrokersRoute.body resp) = None)
  /\ (forall adm,
        isConnectionActive (this w) = true ->
        admin (this w) = Some adm ->
        exists resp w',
          BrokersRoute.GET w = (Ok resp, w')
          /\ match KafkaJS.describeCluster adm with
             | Ok metadata =>
                 BrokersRoute.status resp = 200
                 /\ BrokersRoute.count (BrokersRoute.body resp)
                    = Some (array_length (KafkaJS.cm_brokers metadata))
                 /\ exists brokers,
                      BrokersRoute.data (BrokersRoute.body resp) = Some brokers
                      /\ List.map Broker.id brokers
                         = List.map KafkaJS.nodeId (KafkaJS.cm_brokers metadata)
             | Throw e =>
                 BrokersRoute.status resp = 503
                 /\ BrokersRoute.error (BrokersRoute.body resp)
                    = Some (js "Failed to fetch brokers: "
                            ++ message_or (js "Unknown error") e)
                 /\ BrokersRoute.data (BrokersRoute.body resp) = Some []
                 /\ BrokersRoute.count (BrokersRoute.body resp) = None
                 /\ calls w' = calls w ++ [KafkaJS.CallDescribeCluster]
             end).
Proof.
  split.
  - intros Hin. unfold BrokersRoute.GET. unfold_M. rewrite Hin.
    eexists. split; [reflexivity|]. split; reflexivity.
  - intros adm Hact Ha.
    assert (Hc : isConnected (this w) = true).
    { unfold isConnectionActive in Hact.
      apply andb_true_iff in Hact as [Hc _]. exact Hc. }
    destruct (KafkaJS.describeCluster adm) as [metadata|e] eqn:Hd.
    + destruct (getBrokers_run w adm metadata Ha Hc Hd)
        as (counts & w1 & bs & w2 & Hcounts & Hbs & Hrun).
      destruct (map_to_Broker_full metadata counts
                  (KafkaJS.cm_brokers metadata) w1)
        as (bs' & w2' & Hbs' & _ & _ & Hrel & _).
      rewrite Hbs in Hbs'. injection Hbs' as <- <-.
      assert (Hids : List.map Broker.id bs
                     = List.map KafkaJS.nodeId (KafkaJS.cm_brokers metadata)).
      { clear - Hrel. induction Hrel as [|b bm bs bms Hb _ IH];
          [reflexivity|]. simpl. rewrite IH.
        destruct Hb as (Hid & _). rewrite Hid. reflexivity. }
      unfold BrokersRoute.GET. unfold_M. rewrite Hact. unfold negb.
      cbv beta iota. rewrite Hrun. cbv beta iota.
      eexists _, _. split; [reflexivity|]. split; [reflexivity|]. split.
      * cbn [BrokersRoute.body BrokersRoute.count]. f_equal.
        unfold array_length. f_equal.
        rewrite <- (length_map Broker.id bs), Hids, length_map. reflexivity.
      * exists bs. split; [reflexivity|exact Hids].
    + unfold BrokersRoute.GET. unfold_M. rewrite Hact. unfold negb.
      cbv beta iota.
      unfold getBrokers, require_connection. unfold_M. rewrite Ha, Hc.
      cbv beta iota. rewrite Hd. cbv beta iota.
      eexists _, _. split; [reflexivity|]. repeat split.
Qed.

Lemma brokers_route_follows_describeCluster_witness :
  exists resp w',
    BrokersRoute.GET (Sample.connected unreadable_configs) = (Ok resp, w')
    /\ BrokersRoute.status resp = 200
    /\ BrokersRoute.count (BrokersRoute.body resp) = Some 2.
Proof.
  destruct (proj2 (brokers_route_follows_describeCluster
                     (Sample.connected unreadable_configs))
                  unreadable_configs eq_refl eq_refl)
    as (resp & w' & Hrun & Hout).
  exists resp, w'. split; [exact Hrun|].
  destruct Hout as (Hs & Hc & _). split; [exact Hs|exact Hc].
Defined.

Lemma js_length_empty (s : jsstring) : (js_length s <? 1) = true <-> s = [].
Proof.
  unfold js_length. rewrite Z.ltb_lt. destruct s; simpl; split;
    intros H; try reflexivity; try discriminate; lia.
Qed.

Lemma deleteTopicSchema_accepts (z : ZodPackage) (body : JSON)
    (topicName : jsstring) :
  DeleteSchema.deleteTopicSchema_safeParse z body = inl topicName
  <-> names_topic body topicName.
Proof.
  unfold DeleteSchema.deleteTopicSchema_safeParse, names_topic. split.
  - destruct body as [|b|q|s0|items|fields]; try discriminate.
    destruct (Schemas.get_field (js "topicName") fields)
      as [[|b|q|s|items|fs]|] eqn:Hf; try discriminate.
    destruct (js_length s <? 1) eqn:Hlen; [discriminate|].
    intros H. injection H as <-. exists fields.
    split; [reflexivity|]. split; [exact Hf|].
    intros ->. discriminate Hlen.
  - intros (fields & -> & Hf & Hne). rewrite Hf.
    destruct (js_length topicName <? 1) eqn:Hlen; [|reflexivity].
    apply js_length_empty in Hlen. contradiction.
Qed.

(** X23. [DELETE /api/kafka/topics] always answers, with 401, 400, 422 or
    200 and never 500, and it reaches the cluster only for a body that is
    an object with a non-empty string [topicName]: without an active
    connection (401), on a body that is not JSON (400) and on any other
    body (400 with the violated fields) nothing is called. For such a
    body the answer is 200 exactly when [deleteTopic] returns; when it
    throws, the answer is 422 with the message of the error and the
    topic name in the details. *)
Theorem delete_route_outcomes (request : TopicsRoute.NextRequest) (w : World) :
  exists resp w',
    TopicsRouteDELETE.DELETE request w = (Ok resp, w')
    /\ (isConnectionActive (this w) = false ->
        TopicsRouteDELETE.status resp = 401 /\ w' = w)
    /\ (isConnectionActive (this w) = true ->
        match TopicsRoute.json request with
        | Throw _ =>
            resp = TopicsRouteDELETE.failure 400
                     (js "Invalid JSON in request body") None None
            /\ w' = w
        | Ok body =>
            (forall topicName,
               names_topic body topicName ->
               match deleteTopic topicName w with
               | (Ok _, w1) =>
                   TopicsRouteDELETE.status resp = 200
                   /\ TopicsRouteDELETE.success (TopicsRouteDELETE.body resp)
                      = true
                   /\ (TopicsRouteDELETE.dd_topicName
                         <$> TopicsRouteDELETE.data
                               (TopicsRouteDELETE.body resp))
                      = Some topicName
                   /\ calls w' = calls w1
               | (Throw e, w1) =>
                   TopicsRouteDELETE.status resp = 422
                   /\ TopicsRouteDELETE.error (TopicsRouteDELETE.body resp)
                      = Some (message_or (js "Failed to delete topic") e)
                   /\ (exists now,
                         TopicsRouteDELETE.details (TopicsRouteDELETE.body resp)
                         = Some (TopicsRouteDELETE.DeletionDetails
                                   {| TopicsRouteDELETE.topicName := topicName;
                                      TopicsRouteDELETE.fd_timestamp := now |}))
                   /\ calls w' = calls w1
               end)
            /\ ((forall topicName, ~ names_topic body topicName) ->
                TopicsRouteDELETE.status resp = 400
                /\ TopicsRouteDELETE.error (TopicsRouteDELETE.body resp)
                   = Some (js "Invalid topic deletion parameters")
                /\ w' = w)
        end).
Proof.
  unfold TopicsRouteDELETE.DELETE. unfold_M.
  destruct (isConnectionActive (this w)); cbv beta iota; unfold negb.
  2: { eexists _, _. split; [reflexivity|]. split; [|discriminate].
       intros _. split; reflexivity. }
  destruct (TopicsRoute.json request) as [body|e]; cbv beta iota.
  2: { eexists _, _. split; [reflexivity|]. split; [discriminate|].
       intros _. split; reflexivity. }
  destruct (DeleteSchema.deleteTopicSchema_safeParse (zod (runtime w)) body)
    as [name|issues] eqn:Hparse; cbv beta iota.
  - apply deleteTopicSchema_accepts in Hparse as Hname.
    destruct (deleteTopic name w) as [[[]|e] w1] eqn:Hdel; cbv beta iota.
    + eexists _, _. split; [reflexivity|]. split; [discriminate|].
      intros _. split.
      * intros topicName Hn.
        assert (topicName = name) as ->.
        { apply deleteTopicSchema_accepts with (z := zod (runtime w)) in Hn.
          congruence. }
        rewrite Hdel. repeat split.
      * intros Hnone. destruct (Hnone name Hname).
    + eexists _, _. split; [reflexivity|]. split; [discriminate|].
      intros _. split.
      * intros topicName Hn.
        assert (topicName = name) as ->.
        { apply deleteTopicSchema_accepts with (z := zod (runtime w)) in Hn.
          congruence. }
        rewrite Hdel. split; [reflexivity|]. split; [reflexivity|].
        split; [eexists; reflexivity|reflexivity].
      * intros Hnone. destruct (Hnone name Hname).
  - eexists _, _. split; [reflexivity|]. split; [discriminate|].
    intros _. split.
    + intros topicName Hn.
      apply deleteTopicSchema_accepts with (z := zod (runtime w)) in Hn.
      congruence.
    + intros _. repeat split.
Qed.

(** X24. Through the route, deleting a topic the cluster does not list
    is answered with 422 and [Failed to delete topic: Topic '<name>' does
    not exist]; the route has asked for the topic list and has sent no
    deletion. *)
Theorem delete_route_missing_topic (request : TopicsRoute.NextRequest)
    (w : World) adm (body : JSON) (topicName : jsstring)
    (existingTopics : list jsstring) :
  isConnectionActive (this w) = true ->
  admin (this w) = Some adm ->
  TopicsRoute.json request = Ok body ->
  names_topic body topicName ->
  KafkaJS.listTopics adm = Ok existingTopics ->
  ~ In topicName existingTopics ->
  exists resp w',
    TopicsRouteDELETE.DELETE request w = (Ok resp, w')
    /\ TopicsRouteDELETE.status resp = 422
    /\ TopicsRouteDELETE.error (TopicsRouteDELETE.body resp)
       = Some (js "Failed to delete topic: Topic '" ++ topicName
               ++ js "' does not exist")
    /\ calls w' = calls w ++ [KafkaJS.CallListTopics].
Proof.
  intros Hact Ha Hjson Hname Hl Hin.
  assert (Hc : isConnected (this w) = true).
  { unfold isConnectionActive in Hact.
    apply andb_true_iff in Hact as [Hc _]. exact Hc. }
  apply (deleteTopicSchema_accepts (zod (runtime w))) in Hname.
  apply array_includes_not_In in Hin.
  unfold TopicsRouteDELETE.DELETE. unfold_M. rewrite Hact. unfold negb.
  cbv beta iota. rewrite Hjson. cbv beta iota. rewrite Hname.
  cbv beta iota.
  unfold deleteTopic, require_connection. unfold_M. rewrite Ha, Hc.
  cbv beta iota. rewrite Hl. cbv beta iota. rewrite Hin. cbv beta iota.
  eexists _, _. split; [reflexivity|]. repeat split.
Qed.

Lemma delete_route_missing_topic_witness :
  exists resp w',
    TopicsRouteDELETE.DELETE
      (Sample.request_of [(js "topicName", JString (js "payments"))])
      (Sample.connected Sample.two_brokers) = (Ok resp, w')
    /\ TopicsRouteDELETE.status resp = 422
    /\ TopicsRouteDELETE.error (TopicsRouteDELETE.body resp)
       = Some (js "Failed to delete topic: Topic 'payments' does not exist")
    /\ calls w' = calls (Sample.connected Sample.two_brokers)
                  ++ [KafkaJS.CallListTopics].
Proof.
  apply (delete_route_missing_topic
           (Sample.request_of [(js "topicName", JString (js "payments"))])
           (Sample.connected Sample.two_brokers) Sample.two_brokers
           (JObject [(js "topicName", JString (js "payments"))])
           (js "payments") [js "orders"; js "unassigned"]).
  - reflexivity.
  - reflexivity.
  - reflexivity.
  - eexists. split; [reflexivity|]. split; [reflexivity|discriminate].
  - reflexivity.
  - intros [H|[H|[]]]; vm_compute in H; discriminate.
Defined.

(** ** The creation schema *)

Lemma parse_int_between_iff z key lo hi lo_message hi_message v n :
  Schemas.parse_int_between z key lo hi lo_message hi_message v = inl n
  <-> integer_field v n /\ lo <= n <= hi.
Proof.
  unfold Schemas.parse_int_between, Schemas.issue_if, Schemas.is_integer,
    integer_field.
  split.
  - destruct v as [[]|]; try discriminate.
    destruct (Qeq_bool q (inject_Z (Qfloor q))) eqn:Hint; simpl;
      [|destruct (int_check_aborts z); discriminate].
    destruct (Qle_bool (inject_Z lo) q) eqn:Hlo; simpl; [|discriminate].
    destruct (Qle_bool q (inject_Z hi)) eqn:Hhi; simpl; [|discriminate].
    intros H. injection H as <-.
    apply Qeq_bool_iff in Hint. apply Qle_bool_iff in Hlo, Hhi.
    split; [exists q; split; [reflexivity|exact Hint]|].
    rewrite Hint in Hlo, Hhi. rewrite <- Zle_Qle in Hlo, Hhi. lia.
  - intros [(q & -> & Hq) Hn].
    assert (Hfloor : Qfloor q = n) by (rewrite Hq; apply Qfloor_Z).
    assert (Hint : Qeq_bool q (inject_Z (Qfloor q)) = true)
      by (apply Qeq_bool_iff; rewrite Hfloor; exact Hq).
    assert (Hlo : Qle_bool (inject_Z lo) q = true)
      by (apply Qle_bool_iff; rewrite Hq, <- Zle_Qle; lia).
    assert (Hhi : Qle_bool q (inject_Z hi) = true)
      by (apply Qle_bool_iff; rewrite Hq, <- Zle_Qle; lia).
    rewrite Hint, Hlo, Hhi. simpl. rewrite Hfloor. reflexivity.
Qed.

Lemma parse_config_entries_iff z entries kvs :
  Schemas.parse_config_entries z entries = inl kvs
  <-> entries = List.map (fun '(k, s) => (k, JString s)) kvs.
Proof.
  revert kvs. induction entries as [|[k v] rest IH]; intros kvs; simpl.
  - split.
    + intros H. injection H as <-. reflexivity.
    + destruct kvs as [|[k s] kvs]; [reflexivity|discriminate].
  - split.
    + destruct v; simpl;
        destruct (Schemas.parse_config_entries z rest) as [kvs'|] eqn:Hrest;
        try discriminate.
      intros H. injection H as <-. simpl. f_equal. apply IH. reflexivity.
    + destruct kvs as [|[k' s'] kvs]; [discriminate|]. simpl.
      intros H. injection H as -> -> ->. simpl.
      rewrite (proj2 (IH kvs) eq_refl). reflexivity.
Qed.

Lemma parse_config_iff z v c :
  Schemas.parse_config z v = inl c <-> config_field v c.
Proof.
  unfold Schemas.parse_config, config_field.
  destruct v as [[|b|q|s|items|entries]|]; try (split; [discriminate|]);
    try (destruct c; tauto).
  - destruct (Schemas.parse_config_entries z entries) as [kvs|] eqn:He.
    + apply parse_config_entries_iff in He. split.
      * intros H. injection H as <-. exact He.
      * destruct c as [kvs'|]; [|tauto]. intros H. f_equal. f_equal.
        rewrite He in H. clear - H. revert kvs' H.
        induction kvs as [|[k s] kvs IH]; intros [|[k' s'] kvs']; simpl;
          try discriminate; [reflexivity|].
        intros H. injection H as -> -> H. f_equal. apply IH, H.
    + split; [discriminate|]. destruct c as [kvs'|]; [|tauto].
      intros H. apply (parse_config_entries_iff z) in H. congruence.
  - split.
    + intros H. injection H as <-. exact I.
    + destruct c; [tauto|reflexivity].
Qed.

(** X25. [createTopicFormSchema] accepts exactly the objects that carry a
    valid topic name, an integer number of partitions between 1 and 1000,
    an integer replication factor between 1 and 10 and, if any, a
    configuration object whose values are all strings; the parsed form
    holds those four values. Keys beyond the four are ignored, and the
    answer does not depend on the version of zod. *)
Theorem createTopicFormSchema_accepts_exactly (z : ZodPackage) (body : JSON)
    (form : Schemas.CreateTopicForm) :
  Schemas.createTopicFormSchema_safeParse z body = inl form
  <-> well_formed_creation body form.
Proof.
  unfold Schemas.createTopicFormSchema_safeParse, well_formed_creation.
  split.
  - destruct body as [| | | | |fields]; try discriminate.
    destruct (Schemas.parse_name z _) as [n|] eqn:Hn.
    2: { destruct (Schemas.parse_int_between _ _ _ _ _ _ _);
         destruct (Schemas.parse_int_between _ _ _ _ _ _ _);
         destruct (Schemas.parse_config _ _); discriminate. }
    destruct (Schemas.parse_int_between z (js "partitions") _ _ _ _ _)
      as [p|] eqn:Hp.
    2: { destruct (Schemas.parse_int_between _ _ _ _ _ _ _);
         destruct (Schemas.parse_config _ _); discriminate. }
    destruct (Schemas.parse_int_between z (js "replicationFactor") _ _ _ _ _)
      as [r|] eqn:Hr.
    2: { destruct (Schemas.parse_config _ _); discriminate. }
    destruct (Schemas.parse_config _ _) as [c|] eqn:Hcfg; [|discriminate].
    intros H. injection H as <-. simpl.
    apply parse_name_accepts in Hn as [Hn Hv].
    apply parse_int_between_iff in Hp as [Hp Hpr], Hr as [Hr Hrr].
    apply parse_config_iff in Hcfg.
    exists fields. split; [reflexivity|].
    repeat split; try assumption; try lia; apply Hv.
  - intros (fields & -> & Hn & Hv & Hp & Hpr & Hr & Hrr & Hcfg).
    rewrite (proj2 (parse_name_accepts z _ _) (conj Hn Hv)).
    rewrite (proj2 (parse_int_between_iff z _ 1 1000 _ _ _ _) (conj Hp Hpr)).
    rewrite (proj2 (parse_int_between_iff z _ 1 10 _ _ _ _) (conj Hr Hrr)).
    rewrite (proj2 (parse_config_iff z _ _) Hcfg).
    destruct form. reflexivity.
Qed.

Lemma createTopicFormSchema_accepts_exactly_witness :
  Schemas.createTopicFormSchema_safeParse Sample.zod3
    (JObject [(js "name", JString (js "payments"));
              (js "partitions", JNumber (6 # 2));
              (js "replicationFactor", JNumber 1);
              (js "owner", JString (js "billing"))])
  = inl payments_form.
Proof.
  apply createTopicFormSchema_accepts_exactly.
  eexists. split; [reflexivity|]. split; [reflexivity|].
  split; [split; [reflexivity|vm_compute; discriminate]|].
  split; [eexists; split; reflexivity|]. split; [simpl; lia|].
  split; [eexists; split; reflexivity|]. split; [simpl; lia|].
  exact I.
Defined.

(** ** [truncate] *)

(** X26. For a [length] that is not negative, [truncate(text, length)]
    keeps the first [length] code units of the text, and is idempotent; a
    text longer than [length] becomes [length + 3] code units long, which
    is longer than the text itself when the text exceeds [length] by one
    or two code units only. *)
Theorem truncate_keeps_prefix_and_is_idempotent (text : jsstring) (length : Z) :
  0 <= length ->
  js_length (truncate text length)
  = (if js_length text <=? length then js_length text else length + 3)
  /\ take (Z.to_nat length) (truncate text length)
     = take (Z.to_nat length) text
  /\ truncate (truncate text length) length = truncate text length.
Proof.
  intros Hlen. unfold truncate, slice_to.
  destruct (js_length text <=? length) eqn:Hshort.
  - rewrite Hshort. repeat split.
  - apply Z.leb_gt in Hshort. unfold js_length in *.
    assert (Hneg : (length <? 0) = false) by (apply Z.ltb_ge; exact Hlen).
    rewrite Hneg.
    assert (Htake : List.length (take (Z.to_nat length) text)
                    = Z.to_nat length)
      by (rewrite length_take; lia).
    assert (Hlong : List.length (take (Z.to_nat length) text ++ js "...")
                    = (Z.to_nat length + 3)%nat)
      by (rewrite length_app, Htake; reflexivity).
    rewrite Hlong.
    assert (Hgt : (Z.of_nat (Z.to_nat length + 3) <=? length) = false)
      by (apply Z.leb_gt; lia).
    rewrite Hgt. split; [lia|].
    assert (Hpre : take (Z.to_nat length)
                     (take (Z.to_nat length) text ++ js "...")
                   = take (Z.to_nat length) text).
    { rewrite take_app_le by lia. apply take_ge. lia. }
    split; [exact Hpre|]. rewrite Hpre. reflexivity.
Qed.

Lemma truncate_keeps_prefix_and_is_idempotent_witness :
  truncate (js "Hello World") 5 = js "Hello..."
  /\ truncate (js "Hello!") 5 = js "Hello..."
  /\ truncate (truncate (js "Hello World") 5) 5 = truncate (js "Hello World") 5.
Proof.
  split; [reflexivity|]. split; [reflexivity|].
  apply (truncate_keeps_prefix_and_is_idempotent (js "Hello World") 5). lia.
Defined.

(** ** The cluster route and the details of a topic *)

(** X27. With an active connection, [GET /api/kafka/cluster] answers 200
    exactly when [describeCluster] and [listTopics] both answer, and 503
    otherwise; the 200 answer carries the numbers of brokers and topics
    of their answers. A failure while counting the partitions does not
    degrade the answer. *)
Theorem cluster_route_needs_both_answers (w : World) adm :
  isConnectionActive (this w) = true ->
  admin (this w) = Some adm ->
  exists resp w',
    ClusterRoute.GET w = (Ok resp, w')
    /\ match KafkaJS.describeCluster adm, KafkaJS.listTopics adm with
       | Ok metadata, Ok topics =>
           ClusterRoute.status resp = 200
           /\ exists ov,
                ClusterRoute.data (ClusterRoute.body resp) = Some ov
                /\ ClusterOverview.brokersTotal ov
                   = array_length (KafkaJS.cm_brokers metadata)
                /\ ClusterOverview.topicsCount ov = array_length topics
       | _, _ =>
           ClusterRoute.status resp = 503
           /\ ClusterRoute.data (ClusterRoute.body resp)
              = Some ClusterRoute.fallback_overview
           /\ calls w' = calls w ++ [KafkaJS.CallDescribeCluster;
                                     KafkaJS.CallListTopics]
       end.
Proof.
  intros Hact Ha.
  assert (Hc : isConnected (this w) = true).
  { unfold isConnectionActive in Hact.
    apply andb_true_iff in Hact as [Hc _]. exact Hc. }
  destruct (KafkaJS.describeCluster adm) as [metadata|e1] eqn:Hd;
    destruct (KafkaJS.listTopics adm) as [topics|e2] eqn:Hl.
  - destruct (getClusterOverview_returns w adm metadata topics Ha Hc Hd Hl)
      as (ov & w1 & Hov).
    destruct (getClusterOverview_inv w w1 ov Hov)
      as (adm' & metadata' & topics' & w2 & Ha' & _ & Hd' & Hl' & Heq & _).
    assert (adm' = adm) as -> by congruence.
    assert (metadata' = metadata) as -> by congruence.
    assert (topics' = topics) as -> by congruence.
    unfold ClusterRoute.GET. unfold_M. rewrite Hact. unfold negb.
    cbv beta iota. rewrite Hov. cbv beta iota.
    eexists _, _. split; [reflexivity|]. split; [reflexivity|].
    exists ov. split; [reflexivity|]. rewrite Heq. split; reflexivity.
  - unfold ClusterRoute.GET, getClusterOverview, require_connection,
      Promise_all2.
    unfold_M. rewrite Hact. unfold negb. cbv beta iota.
    rewrite Ha, Hc. cbv beta iota. rewrite Hd, Hl. cbv beta iota.
    eexists _, _. split; [reflexivity|]. split; [reflexivity|].
    split; [reflexivity|]. simpl. rewrite <- app_assoc. reflexivity.
  - unfold ClusterRoute.GET, getClusterOverview, require_connection,
      Promise_all2.
    unfold_M. rewrite Hact. unfold negb. cbv beta iota.
    rewrite Ha, Hc. cbv beta iota. rewrite Hd, Hl. cbv beta iota.
    eexists _, _. split; [reflexivity|]. split; [reflexivity|].
    split; [reflexivity|]. simpl. rewrite <- app_assoc. reflexivity.
  - unfold ClusterRoute.GET, getClusterOverview, require_connection,
      Promise_all2.
    unfold_M. rewrite Hact. unfold negb. cbv beta iota.
    rewrite Ha, Hc. cbv beta iota. rewrite Hd, Hl. cbv beta iota.
    eexists _, _. split; [reflexivity|]. split; [reflexivity|].
    split; [reflexivity|]. simpl. rewrite <- app_assoc. reflexivity.
Qed.

Lemma cluster_route_needs_both_answers_witness :
  exists resp w',
    ClusterRoute.GET (Sample.connected silent) = (Ok resp, w')
    /\ ClusterRoute.status resp = 503
    /\ ClusterRoute.data (ClusterRoute.body resp)
       = Some ClusterRoute.fallback_overview.
Proof.
  destruct (cluster_route_needs_both_answers
              (Sample.connected silent) silent eq_refl eq_refl)
    as (resp & w' & Hrun & Hs & Hdata & _).
  exists resp, w'. split; [exact Hrun|]. split; [exact Hs|exact Hdata].
Defined.

(** X28. Once [fetchTopicMetadata] has answered with at least one entry,
    [getTopicDetails(name)] returns, whatever [describeConfigs] does. The
    topic is built from the first entry of the metadata, and its
    configuration is an object built from the entries of the first
    resource of the configuration answer: it holds, under each name but
    [__proto__], the value of the last entry of that name, and it is
    empty when [describeConfigs] throws or answers with no resource. *)
Theorem getTopicDetails_survives_config_failure (w : World) adm
    (topicName : jsstring) (tm : KafkaJS.ITopicMetadata)
    (rest : list KafkaJS.ITopicMetadata) :
  admin (this w) = Some adm ->
  isConnected (this w) = true ->
  KafkaJS.fetchTopicMetadata adm [topicName] = Ok (tm :: rest) ->
  let entries :=
    first_resource_entries
      (KafkaJS.describeConfigs adm (describeConfigs_request [topicName])) in
  exists t w' r,
    getTopicDetails topicName w = (Ok t, w')
    /\ lists_topic t tm
    /\ KafkaTopic.config t = ConfigObject r
    /\ r = reduce_configEntries entries
    /\ (forall key,
          record_get key r
          = if bool_decide (key = js "__proto__") then None
            else last_value key entries)
    /\ calls w'
       = calls w ++ [KafkaJS.CallFetchTopicMetadata [topicName];
                     KafkaJS.CallDescribeConfigs
                       (describeConfigs_request [topicName])].
Proof.
  intros Ha Hc Hf entries.
  assert (Hget : forall key,
             record_get key (reduce_configEntries entries)
             = if bool_decide (key = js "__proto__") then None
               else last_value key entries).
  { intros key. destruct (reduce_configEntries_spec entries) as (_ & H & _).
    rewrite H. reflexivity. }
  revert Hget. unfold entries, first_resource_entries. clear entries.
  unfold getTopicDetails, mbind at 1, M_bind at 1.
  rewrite (require_connection_passes w adm Ha Hc).
  unfold fetch_config, describeConfigs_request.
  unfold_M. rewrite Hf. cbv beta iota zeta. cbn [List.map].
  match goal with
  | |- context [KafkaJS.describeConfigs adm ?r] =>
      destruct (KafkaJS.describeConfigs adm r) as [[|resource others]|e0]
  end; cbv beta iota; intros Hget;
    match goal with
    | |- context [to_KafkaTopic (ConfigObject ?cfg) tm ?w0] =>
        destruct (to_KafkaTopic_run (ConfigObject cfg) tm w0)
          as (t & Ht & Hrel & Hcfg);
        rewrite Ht; exists t; eexists; exists cfg; split; [reflexivity|];
        split; [exact Hrel|]; split; [exact Hcfg|];
        split; [reflexivity|]; split; [exact Hget|];
        simpl; rewrite <- app_assoc; reflexivity
    end.
Qed.

Lemma getTopicDetails_survives_config_failure_witness :
  exists t w',
    getTopicDetails (js "orders") (Sample.connected configured) = (Ok t, w')
    /\ lists_topic t Sample.orders
    /\ KafkaTopic.config t
       = ConfigObject [(js "2", js "two"); (js "10", js "ten");
                       (js "segment.bytes", js "536870912")].
Proof.
  destruct (getTopicDetails_survives_config_failure
              (Sample.connected configured) configured
              (js "orders") Sample.orders [] eq_refl eq_refl)
    as (t & w' & r & Hrun & Hrel & Hcfg & Hr & _).
  - vm_compute. reflexivity.
  - exists t, w'. split; [exact Hrun|]. split; [exact Hrel|].
    rewrite Hcfg, Hr. vm_compute. reflexivity.
Defined.
